(** * Team runtime of oh-my-claude-sisyphus: a shallow embedding

    The development follows [src/team/tmux-session.ts] and
    [src/team/runtime.ts].  The orchestrator talks to the outside through
    the file system, the tmux server, the clock and the console; these
    four make the [World] that every operation threads.  Exceptions are
    results ([Throw]); an [await]ed call that rejects is a [Throw] of the
    caller unless a [try]/[catch] of the source absorbs it. *)

From stdpp Require Import gmap strings list pretty.
From Stdlib Require Import ZArith Ascii String.

Open Scope string_scope.
Open Scope list_scope.
Open Scope Z_scope.
Set Warnings "-register-all".

(** ** JavaScript values as far as the program reads them *)

Module Js.

(** A JavaScript string.  The source only tests characters against the
    ASCII class [[a-zA-Z0-9-]], measures lengths and takes prefixes of
    strings that passed that test, so a string is its sequence of
    characters. *)
Fixpoint filter_chars (keep : ascii → bool) (s : string) : string :=
  match s with
  | EmptyString => EmptyString
  | String c rest =>
      if keep c then String c (filter_chars keep rest)
      else filter_chars keep rest
  end.

(** [s.slice(0, n)] for a non-negative [n]. *)
Fixpoint slice0 (n : nat) (s : string) : string :=
  match n, s with
  | S n', String c rest => String c (slice0 n' rest)
  | _, _ => EmptyString
  end.

Definition forall_chars (p : ascii → bool) (s : string) : bool :=
  forallb p (list_ascii_of_string s).

(** [s.endsWith(suffix)] *)
Definition endsWith (s suffix : string) : bool :=
  let n := String.length s in
  let k := String.length suffix in
  (k <=? n)%nat && String.eqb (String.substring (n - k) k s) suffix.

(** The values [JSON.parse] produces.  Numbers are the integers: the
    program reads a number as a length ([workerCount]) or as a time
    ([updatedAt]), and both readings cut a fraction off; a number with a
    fraction is outside the model. *)
Inductive JSON : Type :=
| JNull
| JBool (b : bool)
| JNum (n : Z)
| JStr (s : string)
| JArr (items : list JSON)
| JObj (fields : list (string * JSON)).

(** ToBoolean *)
Definition truthy (v : JSON) : bool :=
  match v with
  | JNull => false
  | JBool b => b
  | JNum n => negb (n =? 0)
  | JStr s => negb (String.eqb s "")
  | JArr _ | JObj _ => true
  end.

Fixpoint assoc (k : string) (fields : list (string * JSON)) : option JSON :=
  match fields with
  | [] => None
  | (k', v) :: rest => if String.eqb k k' then Some v else assoc k rest
  end.

(** [v?.k] on a parsed value: [None] is [undefined].  Only objects have
    own properties named by the program's keys. *)
Definition get (k : string) (v : JSON) : option JSON :=
  match v with
  | JObj fields => assoc k fields
  | _ => None
  end.

(** A property as a comparison with a string literal sees it
    ([task?.status === 'pending']): the string it holds, if it holds
    one. *)
Definition get_string (k : string) (v : JSON) : option string :=
  match get k v with
  | Some (JStr s) => Some s
  | _ => None
  end.

(** [a ?? b]: [b] stands in for [undefined] and [null]. *)
Definition nullish_or (a : option JSON) (b : JSON) : JSON :=
  match a with
  | None | Some JNull => b
  | Some v => v
  end.

(** [o[k] = v] on an object: an existing key keeps its place, a new key
    goes last. *)
Fixpoint assoc_set (k : string) (v : JSON) (fields : list (string * JSON))
  : list (string * JSON) :=
  match fields with
  | [] => [(k, v)]
  | (k', v') :: rest =>
      if String.eqb k k' then (k, v) :: rest
      else (k', v') :: assoc_set k v rest
  end.

(** [target[k] = v] in strict mode, as [JSON.stringify] will show the
    target afterwards: an object gets the property, an array keeps its
    items (a named property of an array is not serialised), and a
    primitive cannot take a property ([None]: a TypeError). *)
Definition set_prop (k : string) (v : JSON) (target : JSON) : option JSON :=
  match target with
  | JObj fields => Some (JObj (assoc_set k v fields))
  | JArr items => Some (JArr items)
  | _ => None
  end.

(** [String(n)] and the [${n}] of a template, for an integer. *)
Definition String_of (n : Z) : string := pretty n.

Fixpoint strip_zeros (s : string) : string :=
  match s with
  | EmptyString => EmptyString
  | String c rest =>
      match strip_zeros rest with
      | EmptyString => if Ascii.eqb c "0" then EmptyString else String c EmptyString
      | rest' => String c rest'
      end
  end.

(** [Number::toString] of an integer: its decimal digits below 10^21;
    from there on the first digit, the digits after it up to the last
    one that is not 0, and the exponent. *)
Definition Number_toString (n : Z) : string :=
  if Z.abs n <? 10 ^ 21 then pretty n
  else
    match pretty (Z.abs n) with
    | String d rest =>
        (if n <? 0 then "-" else "")
        +:+ String d (match strip_zeros rest with
                      | EmptyString => ""
                      | digits => "." +:+ digits
                      end)
        +:+ "e+" +:+ pretty (Z.of_nat (String.length rest))
    | EmptyString => ""
    end.

(** [ToString] of a parsed value; [None] is a TypeError.  An array is
    joined by [Array.prototype.toString], where [null] gives the empty
    string.  An object is converted by the methods it inherits, unless it
    has a property [toString] of its own: a property of parsed JSON is
    never a function, so no method is left to convert it. *)
Fixpoint ToString (v : JSON) : option string :=
  match v with
  | JNull => Some "null"
  | JBool b => Some (if b then "true" else "false")
  | JNum n => Some (Number_toString n)
  | JStr s => Some s
  | JArr items =>
      (fix join (items : list JSON) : option string :=
         match items with
         | [] => Some ""
         | x :: rest =>
             match (match x with JNull => Some "" | _ => ToString x end) with
             | Some a =>
                 match rest with
                 | [] => Some a
                 | _ => match join rest with
                        | Some b => Some (a +:+ "," +:+ b)
                        | None => None
                        end
                 end
             | None => None
             end
         end) items
  | JObj fields =>
      match assoc "toString" fields with
      | Some _ => None
      | None => Some "[object Object]"
      end
  end.

(** [TimeClip]: a time value is within 8.64e15 ms of the epoch, or it is
    [NaN] ([None]). *)
Definition TimeClip (t : Z) : option Z :=
  if Z.abs t <=? 8640000000000000 then Some t else None.

(** [s.startsWith(prefix)] *)
Fixpoint startsWith (s prefix : string) : bool :=
  match prefix, s with
  | EmptyString, _ => true
  | String c prefix', String d s' => Ascii.eqb c d && startsWith s' prefix'
  | String _ _, EmptyString => false
  end.

(** [s.slice(n)] for a non-negative [n]. *)
Fixpoint slice_from (n : nat) (s : string) : string :=
  match n, s with
  | S n', String _ rest => slice_from n' rest
  | _, _ => s
  end.

(** The white space and line terminators that [trim] strips, among the
    characters of a string of the model: TAB, LF, VT, FF, CR, SP, NBSP. *)
Definition is_space (c : ascii) : bool :=
  let n := nat_of_ascii c in
  ((9 <=? n) && (n <=? 13) || (n =? 32) || (n =? 160))%nat.

Fixpoint trimStart (s : string) : string :=
  match s with
  | String c rest => if is_space c then trimStart rest else s
  | EmptyString => EmptyString
  end.

Fixpoint trimEnd (s : string) : string :=
  match s with
  | String c rest =>
      match trimEnd rest with
      | EmptyString => if is_space c then EmptyString else String c EmptyString
      | rest' => String c rest'
      end
  | EmptyString => EmptyString
  end.

(** [s.trim()] *)
Definition trim (s : string) : string := trimEnd (trimStart s).

(** [s.split(sep)] for a separator of one character: the empty string
    splits into one empty piece. *)
Fixpoint split (sep : ascii) (s : string) : list string :=
  match s with
  | EmptyString => [EmptyString]
  | String c rest =>
      if Ascii.eqb c sep then EmptyString :: split sep rest
      else match split sep rest with
           | piece :: pieces => String c piece :: pieces
           | [] => [String c EmptyString]
           end
  end.

End Js.

Export Js.

(** ** Paths *)

(** A path is the list of the components of its normalized string, as
    [path.join] returns it: an absolute path starts with the empty
    component, a relative one is read from the working directory of the
    process, which is the path [[]], and the [..] that lead above it stay
    in front. *)
Abbreviation Path := (list string).

(** One component more: [.] and the empty component change nothing, and
    [..] takes the last component away, unless there is none to take. *)
Definition join_step (p : Path) (c : string) : Path :=
  if String.eqb c "" || String.eqb c "." then p
  else if String.eqb c ".." then
    match last p with
    | None => [".."]
    | Some x => if String.eqb x ".." then p ++ [".."]
                else if String.eqb x "" then p
                else removelast p
    end
  else p ++ [c].

(** [join(base, ...segments)] of [path] (POSIX), for a [base] that is
    normalized already: the segments are cut at every [/] and their
    components applied from left to right. *)
Definition join (base : Path) (segments : list string) : Path :=
  foldl join_step base (flat_map (split "/"%char) segments).

(** The path a string names. *)
Definition path_of (s : string) : Path :=
  join (if startsWith s "/" then [""] else []) [s].

(** ** Results and errors *)

Inductive Error : Type :=
| InvalidNameEmpty (name : string)      (* sanitizeName: no valid characters *)
| InvalidNameTooShort (name : string)   (* sanitizeName: fewer than 2 *)
| FsError (code : string) (p : Path)    (* a rejected fs call *)
| TmuxError (args : list string)        (* tmux exited with an error *)
| SyntaxError (msg : string)            (* JSON.parse *)
| TypeError (msg : string)
| RangeError (msg : string)
| CliError (msg : string).              (* raised by validateCliAvailable *)

(** What a call comes to: a value, an exception, or a loop of the model
    that used up its fuel (never a behaviour of the program: the entry
    points are shown to give their loops enough). *)
Inductive Result (A : Type) : Type :=
| Ok (a : A)
| Throw (e : Error)
| OutOfFuel.
Arguments Ok {A} a.
Arguments Throw {A} e.
Arguments OutOfFuel {A}.

Definition is_Ok {A} (r : Result A) : bool :=
  match r with Ok _ => true | _ => false end.

Definition is_Throw {A} (r : Result A) : bool :=
  match r with Throw _ => true | _ => false end.

(** ** The file system *)

Module Fs.

(** What a file holds.  A piece [PJson v] is a text that [JSON.parse]
    reads as [v] (what [JSON.stringify(v, null, 2)] writes is one);
    [PText s] is the text [s] itself.  A file is the concatenation of its
    pieces, and it parses exactly when it is one JSON text. *)
Inductive Piece : Type :=
| PJson (v : JSON)
| PText (s : string).

Inductive Node : Type :=
| Dir
| File (content : list Piece).

Abbreviation FS := (gmap Path Node).

(** The working directory of the process, the path [[]], is a directory
    that always exists.  The model does not place it in the tree of the
    absolute paths: the paths of one file system are taken to be all
    relative or all absolute. *)
Definition node_at (fs : FS) (p : Path) : option Node :=
  match p with
  | [] => Some Dir
  | _ => fs !! p
  end.

Definition parent (p : Path) : Path := removelast p.

(** [existsSync(p)] and whether [access(p)] resolves. *)
Definition existsSync (fs : FS) (p : Path) : bool :=
  match node_at fs p with Some _ => true | None => false end.

(** [mkdir(p, { recursive: true })]: walks down the components of the
    path, creating what is missing; a regular file on the way is an
    error. *)
Fixpoint mkdir_from (base : Path) (rest : list string) (fs : FS)
  : FS * option Error :=
  match rest with
  | [] => (fs, None)
  | x :: rest' =>
      let p := base ++ [x] in
      match fs !! p with
      | Some (File _) =>
          (fs, Some (FsError (match rest' with [] => "EEXIST" | _ => "ENOTDIR" end) p))
      | Some Dir => mkdir_from p rest' fs
      | None => mkdir_from p rest' (<[p := Dir]> fs)
      end
  end.

Definition mkdir_p (p : Path) (fs : FS) : FS * option Error :=
  mkdir_from [] p fs.

(** The checks shared by [writeFile] and [appendFile]: the parent must be
    a directory and the target must not be one. *)
Definition write_check (fs : FS) (p : Path) : option Error :=
  match p with
  | [] => Some (FsError "EISDIR" p)
  | _ =>
      match node_at fs (parent p) with
      | None => Some (FsError "ENOENT" p)
      | Some (File _) => Some (FsError "ENOTDIR" p)
      | Some Dir =>
          match fs !! p with
          | Some Dir => Some (FsError "EISDIR" p)
          | _ => None
          end
      end
  end.

Definition writeFile (p : Path) (content : list Piece) (fs : FS)
  : FS * option Error :=
  match write_check fs p with
  | Some e => (fs, Some e)
  | None => (<[p := File content]> fs, None)
  end.

Definition appendFile (p : Path) (data : list Piece) (fs : FS)
  : FS * option Error :=
  match write_check fs p with
  | Some e => (fs, Some e)
  | None =>
      match fs !! p with
      | Some (File old) => (<[p := File (old ++ data)]> fs, None)
      | _ => (<[p := File data]> fs, None)
      end
  end.

Definition readFile (fs : FS) (p : Path) : list Piece + Error :=
  match node_at fs p with
  | Some (File content) => inl content
  | Some Dir => inr (FsError "EISDIR" p)
  | None => inr (FsError "ENOENT" p)
  end.

(** The entries of a directory, as names, in the order of the map. *)
Definition entries (fs : FS) (dir : Path) : list string :=
  omap (λ '(p, _), if decide (p ≠ [] ∧ parent p = dir) then last p else None)
       (map_to_list fs).

Definition readdir (fs : FS) (dir : Path) : list string + Error :=
  match node_at fs dir with
  | Some Dir => inl (entries fs dir)
  | Some (File _) => inr (FsError "ENOTDIR" dir)
  | None => inr (FsError "ENOENT" dir)
  end.

Definition is_prefix (p q : Path) : bool := bool_decide (p `prefix_of` q).

(** [rm(p, { recursive: true, force: true })]: everything at and below
    [p] goes; a missing [p] is no error. *)
Definition rm_rf (p : Path) (fs : FS) : FS :=
  filter (λ '(q, _), ¬ p `prefix_of` q) fs.

(** [JSON.parse] of a file's text. *)
Definition JSON_parse (content : list Piece) : option JSON :=
  match content with
  | [PJson v] => Some v
  | _ => None
  end.

End Fs.

Export Fs.

(** ** The tmux server

    tmux is an external program; this is the behaviour the source relies
    on.  A session has one window whose panes are listed in layout order;
    pane identifiers [%n] are handed out by one counter of the server and
    not reused while it runs; a split puts the new pane right after its
    target and makes it the active one.  The server exits with its last
    session, and the next session starts a new server, whose counter
    starts again.  A target names a pane by its identifier or a session,
    which tmux looks up by its exact name, then as the start of one name,
    then as a pattern that one name matches.  Where a command takes a
    pane or a window, tmux tries a name among the windows of the current
    session first; a window is named after the command that runs in it,
    and none is taken here to answer to a target.  [exec] takes the argument
    vector the source passes to [execFile('tmux', ...)] and gives the
    lines of standard output, or the error of a non-zero exit. *)

Module Tmux.

Inductive Key : Type :=
| Literal (text : string)     (* send-keys -l text *)
| KeyName (name : string).    (* send-keys name *)

Record Pane := {
  pane_session : string;
  pane_dead : bool;
  pane_keys : list Key;       (* what has been typed into the pane *)
}.

Record Session := {
  panes : list string;
  active : string;
}.

Record Server := {
  sessions : gmap string Session;
  pane_info : gmap string Pane;
  next_pane : N;
}.

Definition empty : Server :=
  {| sessions := ∅; pane_info := ∅; next_pane := 0%N |}.

Definition pane_id (n : N) : string := "%" +:+ pretty n.

Fixpoint flag_value (flag : string) (args : list string) : option string :=
  match args with
  | f :: rest =>
      match rest with
      | v :: _ => if String.eqb f flag then Some v else flag_value flag rest
      | [] => None
      end
  | [] => None
  end.

(** The members of a bracket expression of a pattern. *)
Inductive Member : Type :=
| One (c : ascii)
| Range (lo hi : ascii)
| Class (name : string).

Definition in_class (name : string) (c : ascii) : bool :=
  let n := nat_of_ascii c in
  let upper := ((65 <=? n) && (n <=? 90))%nat in
  let lower := ((97 <=? n) && (n <=? 122))%nat in
  let digit := ((48 <=? n) && (n <=? 57))%nat in
  if String.eqb name "alpha" then upper || lower
  else if String.eqb name "digit" then digit
  else if String.eqb name "alnum" then upper || lower || digit
  else if String.eqb name "upper" then upper
  else if String.eqb name "lower" then lower
  else if String.eqb name "space" then ((9 <=? n) && (n <=? 13) || (n =? 32))%nat
  else if String.eqb name "blank" then ((n =? 9) || (n =? 32))%nat
  else if String.eqb name "punct" then
    ((33 <=? n) && (n <=? 47) || (58 <=? n) && (n <=? 64)
     || (91 <=? n) && (n <=? 96) || (123 <=? n) && (n <=? 126))%nat
  else if String.eqb name "print" then ((32 <=? n) && (n <=? 126))%nat
  else if String.eqb name "graph" then ((33 <=? n) && (n <=? 126))%nat
  else if String.eqb name "cntrl" then ((n <=? 31) || (n =? 127))%nat
  else if String.eqb name "xdigit" then
    digit || ((65 <=? n) && (n <=? 70))%nat || ((97 <=? n) && (n <=? 102))%nat
  else false.

Definition member (c : ascii) (m : Member) : bool :=
  match m with
  | One d => Ascii.eqb c d
  | Range lo hi =>
      ((nat_of_ascii lo <=? nat_of_ascii c) && (nat_of_ascii c <=? nat_of_ascii hi))%nat
  | Class name => in_class name c
  end.

(** The name of a class, up to its [:]]. *)
Fixpoint class_name (p : string) : option (string * string) :=
  match p with
  | EmptyString => None
  | String c rest =>
      match c, rest with
      | ":"%char, String "]" rest' => Some (EmptyString, rest')
      | _, _ =>
          match class_name rest with
          | Some (name, rest') => Some (String c name, rest')
          | None => None
          end
      end
  end.

(** A character of a bracket expression, where a backslash quotes the
    next one. *)
Definition quoted (c : ascii) (rest : string) : option (ascii * string) :=
  if Ascii.eqb c "\" then
    match rest with
    | String d rest' => Some (d, rest')
    | EmptyString => None
    end
  else Some (c, rest).

(** The members of a bracket expression and what follows its []]; a []]
    that comes first is a member.  [None]: the bracket is never closed. *)
Fixpoint members (fuel : nat) (first : bool) (p : string)
  : option (list Member * string) :=
  match fuel with
  | O => None
  | S fuel' =>
      match p with
      | EmptyString => None
      | String c rest =>
          if Ascii.eqb c "]" && negb first then Some ([], rest)
          else
            let class :=
              if Ascii.eqb c "[" then
                match rest with
                | String ":" rest' => class_name rest'
                | _ => None
                end
              else None in
            match class with
            | Some (name, rest') =>
                match members fuel' false rest' with
                | Some (ms, after) => Some (Class name :: ms, after)
                | None => None
                end
            | None =>
                match quoted c rest with
                | None => None
                | Some (lo, rest1) =>
                    let range :=
                      match rest1 with
                      | String "-" (String h rest2) =>
                          if Ascii.eqb h "]" then None else quoted h rest2
                      | _ => None
                      end in
                    match range with
                    | Some (hi, rest3) =>
                        match members fuel' false rest3 with
                        | Some (ms, after) => Some (Range lo hi :: ms, after)
                        | None => None
                        end
                    | None =>
                        match members fuel' false rest1 with
                        | Some (ms, after) => Some (One lo :: ms, after)
                        | None => None
                        end
                    end
                end
            end
      end
  end.

(** A bracket expression after its [[]: whether it is negated, its
    members and what follows it. *)
Definition bracket (p : string) : option (bool * list Member * string) :=
  let '(negated, p') :=
    match p with
    | String c rest =>
        if Ascii.eqb c "!" || Ascii.eqb c "^" then (true, rest) else (false, p)
    | EmptyString => (false, p)
    end in
  match members (String.length p') true p' with
  | Some (ms, after) => Some (negated, ms, after)
  | None => None
  end.

Fixpoint glob (fuel : nat) (p s : string) : bool :=
  match fuel with
  | O => false
  | S fuel' =>
      match p with
      | EmptyString => match s with EmptyString => true | _ => false end
      | String c p' =>
          if Ascii.eqb c "*" then
            (fix star (s : string) : bool :=
               glob fuel' p' s
               || match s with
                  | String _ s' => star s'
                  | EmptyString => false
                  end) s
          else
            match s with
            | EmptyString => false
            | String d s' =>
                if Ascii.eqb c "?" then glob fuel' p' s'
                else if Ascii.eqb c "\" then
                  match p' with
                  | String e p'' => Ascii.eqb e d && glob fuel' p'' s'
                  | EmptyString => false
                  end
                else if Ascii.eqb c "[" then
                  match bracket p' with
                  | Some (negated, ms, after) =>
                      xorb negated (existsb (member d) ms) && glob fuel' after s'
                  | None => Ascii.eqb d "[" && glob fuel' p' s'
                  end
                else Ascii.eqb c d && glob fuel' p' s'
            end
      end
  end.

(** [fnmatch(pattern, s, 0)] in the C locale: [*], [?], bracket
    expressions and the quoting backslash; a bracket that is never
    closed stands for itself. *)
Definition fnmatch (pattern s : string) : bool :=
  glob (S (String.length pattern)) pattern s.

Definition unique (found : list string) : option string :=
  match found with
  | [name] => Some name
  | _ => None
  end.

(** The session a target names: the session of that exact name, or the
    one session whose name starts with the target, or, when no name
    starts with it, the one session whose name matches it as a pattern.
    Two candidates at one stage are an error. *)
Definition find_session (target : string) (s : Server) : option string :=
  match sessions s !! target with
  | Some _ => Some target
  | None =>
      let names := (map_to_list (sessions s)).*1 in
      match List.filter (λ n, startsWith n target) names with
      | [] => unique (List.filter (fnmatch target) names)
      | found => unique found
      end
  end.

(** A target that starts with [%] is a pane identifier; any other names
    a session, as [find_session] has it, and stands for its active pane.
    These are the targets the sources build: the pane identifiers tmux
    has printed, and [omc-team-] followed by a name.  The other forms
    tmux reads (a session identifier [$n], an exact name [=name], a
    window or a pane set apart by a colon or a period) are left out;
    tmux gives no session a name with a colon or a period in it. *)
Definition resolve (target : string) (s : Server) : option (string * string) :=
  match target with
  | String "%" _ =>
      match pane_info s !! target with
      | Some p => Some (pane_session p, target)
      | None => None
      end
  | _ =>
      match find_session target s with
      | Some name =>
          match sessions s !! name with
          | Some ses => Some (name, active ses)
          | None => None
          end
      | None => None
      end
  end.

Fixpoint insert_after (target new : string) (l : list string) : list string :=
  match l with
  | [] => [new]
  | p :: rest =>
      if String.eqb p target then p :: new :: rest
      else p :: insert_after target new rest
  end.

Definition fresh_pane (ses : string) : Pane :=
  {| pane_session := ses; pane_dead := false; pane_keys := [] |}.

Definition new_session (name : string) (s : Server) : Server * option (list string) :=
  match sessions s !! name with
  | Some _ => (s, None)                        (* duplicate session *)
  | None =>
      let id := pane_id (next_pane s) in
      ({| sessions := <[name := {| panes := [id]; active := id |}]> (sessions s);
          pane_info := <[id := fresh_pane name]> (pane_info s);
          next_pane := N.succ (next_pane s) |}, Some [])
  end.

Definition split_window (target : string) (s : Server) : Server * option (list string) :=
  match resolve target s with
  | Some (name, p) =>
      match sessions s !! name with
      | Some ses =>
          let id := pane_id (next_pane s) in
          ({| sessions := <[name := {| panes := insert_after p id (panes ses);
                                        active := id |}]> (sessions s);
              pane_info := <[id := fresh_pane name]> (pane_info s);
              next_pane := N.succ (next_pane s) |}, Some [])
      | None => (s, None)
      end
  | None => (s, None)
  end.

(** The server without the session [name] and its panes; no server is
    left without a session. *)
Definition without (name : string) (s : Server) : Server :=
  if bool_decide (delete name (sessions s) = ∅) then empty
  else {| sessions := delete name (sessions s);
          pane_info := filter (λ '(_, p), pane_session p ≠ name) (pane_info s);
          next_pane := next_pane s |}.

Definition kill_session (target : string) (s : Server) : Server * option (list string) :=
  match resolve target s with
  | Some (name, _) => (without name s, Some [])
  | None => (s, None)
  end.

Definition send_keys (target : string) (k : Key) (s : Server) : Server * option (list string) :=
  match resolve target s with
  | Some (_, id) =>
      match pane_info s !! id with
      | Some p =>
          ({| sessions := sessions s;
              pane_info := <[id := {| pane_session := pane_session p;
                                      pane_dead := pane_dead p;
                                      pane_keys := pane_keys p ++ [k] |}]> (pane_info s);
              next_pane := next_pane s |}, Some [])
      | None => (s, None)
      end
  | None => (s, None)
  end.

Definition display_message (target format : string) (s : Server) : option (list string) :=
  match resolve target s with
  | Some (_, id) =>
      if String.eqb format "#{pane_id}" then Some [id]
      else if String.eqb format "#{pane_dead}" then
        match pane_info s !! id with
        | Some p => Some [if pane_dead p then "1" else "0"]
        | None => None
        end
      else Some [format]
  | None => None
  end.

Definition list_panes (target : string) (s : Server) : option (list string) :=
  match resolve target s with
  | Some (name, _) => panes <$> sessions s !! name
  | None => None
  end.

Definition run (args : list string) (s : Server) : Server * option (list string) :=
  match args with
  | cmd :: rest =>
      match flag_value "-t" rest with
      | Some target =>
          if String.eqb cmd "split-window" then split_window target s
          else if String.eqb cmd "kill-session" then kill_session target s
          else if String.eqb cmd "has-session" then
            (s, match resolve target s with Some _ => Some [] | None => None end)
          else if String.eqb cmd "select-layout" then
            (s, match resolve target s with Some _ => Some [] | None => None end)
          else if String.eqb cmd "list-panes" then (s, list_panes target s)
          else if String.eqb cmd "display-message" then
            (s, display_message target (List.last rest "") s)
          else if String.eqb cmd "send-keys" then
            match rest with
            | [_; _; "-l"; text] => send_keys target (Literal text) s
            | [_; _; name] => send_keys target (KeyName name) s
            | _ => (s, None)
            end
          else (s, None)
      | None =>
          if String.eqb cmd "new-session" then
            match flag_value "-s" rest with
            | Some name => new_session name s
            | None => (s, None)
            end
          else (s, None)
      end
  | [] => (s, None)
  end.

Definition exec (args : list string) (s : Server) : Server * Result (list string) :=
  match run args s with
  | (s', Some out) => (s', Ok out)
  | (s', None) => (s', Throw (TmuxError args))
  end.

(** [list-sessions -F '#{session_name}']: one line per session.  With no
    session there is no server to ask, and the command fails. *)
Definition list_sessions (s : Server) : option (list string) :=
  match (map_to_list (sessions s)).*1 with
  | [] => None
  | names => Some names
  end.

(** [send-keys -t target key1 key2]: the keys go to the pane one after
    the other. *)
Definition send_keys2 (target : string) (k1 k2 : Key) (s : Server)
  : Server * option (list string) :=
  match send_keys target k1 s with
  | (s1, Some _) => send_keys target k2 s1
  | r => r
  end.

(** The argument vectors of the functions that manage one session per
    worker: those of [run], and besides [list-sessions] and a [send-keys]
    with two keys. *)
Definition run_sync (args : list string) (s : Server) : Server * option (list string) :=
  match args with
  | cmd :: rest =>
      if String.eqb cmd "list-sessions" then (s, list_sessions s)
      else if String.eqb cmd "send-keys" then
        match rest with
        | [t; target; k1; k2] =>
            if String.eqb t "-t" && negb (String.eqb k1 "-l")
            then send_keys2 target (KeyName k1) (KeyName k2) s
            else run args s
        | _ => run args s
        end
      else run args s
  | [] => run args s
  end.

Definition exec_sync (args : list string) (s : Server) : Server * Result (list string) :=
  match run_sync args s with
  | (s', Some out) => (s', Ok out)
  | (s', None) => (s', Throw (TmuxError args))
  end.

End Tmux.

(** ** The world and the monad of the orchestrator *)

(** What the JavaScript host provides beyond the values. *)
Class Host := {
  (** [new Date(t).toISOString()] *)
  Date_toISOString : Z → string;
  (** [new Date(s).getTime()] for a non-empty [s]; [None] is [NaN]. *)
  Date_parse : string → option Z;
  (** [ToLength(s)] for a string [s]: the number [s] is read as, cut to
      an integer from 0 to 2^53 - 1 *)
  String_ToLength : string → Z;
  (** [process.env.SHELL] and [process.env.HOME] *)
  env_SHELL : option string;
  env_HOME : option string;
}.

(** The worker processes are outside the program: while the orchestrator
    sleeps for the [k]-th time they do [workers k] to the file system
    (write a ready sentinel, a heartbeat, a shutdown ack, a task result).
    Time is the logical clock [now], in milliseconds: a sleep advances it
    by the requested delay and nothing else does. *)
Record World := {
  fs : FS;
  mux : Tmux.Server;
  now : Z;
  console : list string;          (* console.warn lines, oldest first *)
  naps : nat;                     (* sleeps so far *)
  workers : nat → FS → FS;
}.

Definition M (A : Type) : Type := World → World * Result A.

Definition ret {A} (a : A) : M A := λ w, (w, Ok a).

Definition bind {A B} (m : M A) (k : A → M B) : M B :=
  λ w, match m w with
       | (w', Ok a) => k a w'
       | (w', Throw e) => (w', Throw e)
       | (w', OutOfFuel) => (w', OutOfFuel)
       end.

Definition throw {A} (e : Error) : M A := λ w, (w, Throw e).

(** [try { m } catch { h }] *)
Definition try_catch {A} (m : M A) (h : Error → M A) : M A :=
  λ w, match m w with
       | (w', Throw e) => h e w'
       | r => r
       end.

#[global] Instance M_ret : MRet M := @ret.
#[global] Instance M_bind : MBind M := λ A B k m, bind m k.

Fixpoint forM_ {A} (l : list A) (body : A → M unit) : M unit :=
  match l with
  | [] => ret tt
  | x :: rest => body x;; forM_ rest body
  end.

Fixpoint foldM {A S} (l : list A) (body : S → A → M S) (s : S) : M S :=
  match l with
  | [] => ret s
  | x :: rest => s' ← body s x; foldM rest body s'
  end.

(** The indices [0 .. n-1] of [for (let i = 0; i < n; i++)]. *)
Definition range (n : Z) : list nat := seq 0 (Z.to_nat n).

Definition set_fs (f : FS) (w : World) : World :=
  {| fs := f; mux := mux w; now := now w; console := console w;
     naps := naps w; workers := workers w |}.

Definition set_mux (s : Tmux.Server) (w : World) : World :=
  {| fs := fs w; mux := s; now := now w; console := console w;
     naps := naps w; workers := workers w |}.

Definition lift_fs (op : FS → FS * option Error) : M unit :=
  λ w, match op (fs w) with
       | (f, None) => (set_fs f w, Ok tt)
       | (f, Some e) => (set_fs f w, Throw e)
       end.

Definition mkdir (p : Path) : M unit := lift_fs (mkdir_p p).
Definition fs_writeFile (p : Path) (c : list Piece) : M unit := lift_fs (writeFile p c).
Definition fs_appendFile (p : Path) (c : list Piece) : M unit := lift_fs (appendFile p c).

Definition fs_readFile (p : Path) : M (list Piece) :=
  λ w, match readFile (fs w) p with
       | inl c => (w, Ok c)
       | inr e => (w, Throw e)
       end.

Definition fs_readdir (p : Path) : M (list string) :=
  λ w, match readdir (fs w) p with
       | inl names => (w, Ok names)
       | inr e => (w, Throw e)
       end.

Definition fs_rm (p : Path) : M unit := λ w, (set_fs (rm_rf p (fs w)) w, Ok tt).

Definition fs_existsSync (p : Path) : M bool := λ w, (w, Ok (existsSync (fs w) p)).

(** [access(p)]: resolves when [p] exists. *)
Definition fs_access (p : Path) : M unit :=
  λ w, if existsSync (fs w) p then (w, Ok tt) else (w, Throw (FsError "ENOENT" p)).

Definition Date_now : M Z := λ w, (w, Ok (now w)).

Definition console_warn (line : string) : M unit :=
  λ w, ({| fs := fs w; mux := mux w; now := now w;
           console := console w ++ [line];
           naps := naps w; workers := workers w |}, Ok tt).

(** The world after a sleep of [ms]: the clock has advanced and the
    workers have had their turn. *)
Definition after_sleep (ms : Z) (w : World) : World :=
  {| fs := workers w (naps w) (fs w); mux := mux w; now := now w + ms;
     console := console w; naps := S (naps w); workers := workers w |}.

(** [await new Promise(r => setTimeout(r, ms))] *)
Definition sleep (ms : Z) : M unit := λ w, (after_sleep ms w, Ok tt).

(** [execFileAsync('tmux', args)], as the lines of its standard output. *)
Definition tmux (args : list string) : M (list string) :=
  λ w, let '(s, r) := Tmux.exec args (mux w) in (set_mux s w, r).

(** [execFileSync('tmux', args, ...)], as the lines of its standard
    output. *)
Definition tmux_sync (args : list string) : M (list string) :=
  λ w, let '(s, r) := Tmux.exec_sync args (mux w) in (set_mux s w, r).

(** An argument that is [undefined] makes [execFile] throw before tmux
    is run. *)
Definition defined (what : string) (o : option string) : M string :=
  match o with
  | Some s => ret s
  | None => throw (TypeError what)
  end.

Definition nl : string := String "010"%char "".
Definition dquote : string := String "034"%char "".

(** [stdout.trim()] of an output of one line, and
    [stdout.trim().split('\n').filter(Boolean)]. *)
Definition stdout_trim (out : list string) : string := String.concat nl out.
Definition stdout_lines (out : list string) : list string :=
  filter (λ l, l ≠ "") out.

(** The text of a standard output: every line with its newline. *)
Fixpoint stdout_text (out : list string) : string :=
  match out with
  | [] => EmptyString
  | l :: rest => l +:+ nl +:+ stdout_text rest
  end.

(** [l.includes(x)] *)
Definition includes (l : list string) (x : string) : bool := bool_decide (x ∈ l).

(** ** src/team/tmux-session.ts *)

Module TmuxSession.

Record TeamSession := {
  sessionName : string;
  leaderPaneId : string;
  workerPaneIds : list string;
}.

Record WorkerPaneConfig := {
  teamName : string;
  workerName : string;
  envVars : list (string * string);
  launchCmd : string;
  cwd : string;
}.

(** The class [[a-zA-Z0-9-]]. *)
Definition name_char (c : ascii) : bool :=
  let n := nat_of_ascii c in
  ((97 <=? n) && (n <=? 122) || (65 <=? n) && (n <=? 90)
   || (48 <=? n) && (n <=? 57) || (n =? 45))%nat.

Definition sanitizeName (name : string) : Result string :=
  let sanitized := filter_chars name_char name in
  if (String.length sanitized =? 0)%nat then Throw (InvalidNameEmpty name)
  else if (String.length sanitized <? 2)%nat then Throw (InvalidNameTooShort name)
  else Ok (slice0 50 sanitized).

Definition lift {A} (r : Result A) : M A := λ w, (w, r).

(** One turn of the loop that creates the worker panes. *)
Definition createWorkerPane (sessionName leaderPaneId cwd : string)
    (workerPaneIds : list string) (i : nat) : M (list string) :=
  splitTarget ← match i with
                | O => mret sessionName
                | S j => defined "args[3]" (workerPaneIds !! j)
                end;
  let splitType := match i with O => "-h" | S _ => "-v" end in
  tmux ["split-window"; splitType; "-t"; splitTarget; "-c"; cwd];;
  allPanesResult ← tmux ["list-panes"; "-t"; sessionName; "-F"; "#{pane_id}"];
  let allPanes := stdout_lines allPanesResult in
  let newPaneId :=
    List.find (λ p, negb (String.eqb p leaderPaneId) && negb (includes workerPaneIds p))
              allPanes in
  match newPaneId with
  | Some p => mret (workerPaneIds ++ [p])
  | None => mret workerPaneIds
  end.

Definition createTeamSession (teamName : string) (workerCount : Z) (cwd : string)
  : M TeamSession :=
  name ← lift (sanitizeName teamName);
  let sessionName := "omc-team-" +:+ name in
  tmux ["new-session"; "-d"; "-s"; sessionName; "-x"; "220"; "-y"; "50"; "-c"; cwd];;
  leaderResult ← tmux ["display-message"; "-t"; sessionName; "-p"; "#{pane_id}"];
  let leaderPaneId := stdout_trim leaderResult in
  workerPaneIds ← foldM (range workerCount)
                        (createWorkerPane sessionName leaderPaneId cwd) [];
  try_catch (tmux ["select-layout"; "-t"; sessionName; "main-vertical"];; mret tt)
            (λ _, mret tt);;
  mret {| sessionName := sessionName; leaderPaneId := leaderPaneId;
          workerPaneIds := workerPaneIds |}.

(** [shell.split('/').pop()] *)
Fixpoint last_segment (acc s : string) : string :=
  match s with
  | EmptyString => acc
  | String c rest =>
      if Ascii.eqb c "/" then last_segment "" rest
      else last_segment (acc +:+ String c "") rest
  end.

(** [a || b] on strings, [undefined] included. *)
Definition or_else (a : option string) (b : string) : string :=
  match a with
  | Some s => if String.eqb s "" then b else s
  | None => b
  end.

Definition spawnWorkerInPane `{Host} (sessionName paneId : string)
    (config : WorkerPaneConfig) : M unit :=
  let envString :=
    String.concat " " (map (λ '(k, v), k +:+ "=" +:+ v) (envVars config)) in
  let shell := or_else env_SHELL "/bin/bash" in
  let shellName := or_else (Some (last_segment "" shell)) "bash" in
  let rcFile := match or_else env_HOME "" with
                | "" => ""
                | home => home +:+ "/." +:+ shellName +:+ "rc"
                end in
  let sourceCmd := match rcFile with
                   | "" => ""
                   | _ => "[ -f " +:+ dquote +:+ rcFile +:+ dquote +:+ " ] && source "
                          +:+ dquote +:+ rcFile +:+ dquote +:+ "; "
                   end in
  let startCmd := "env " +:+ envString +:+ " " +:+ shell +:+ " -c " +:+ dquote
                  +:+ sourceCmd +:+ "exec " +:+ launchCmd config +:+ dquote in
  tmux ["send-keys"; "-t"; paneId; "-l"; startCmd];;
  tmux ["send-keys"; "-t"; paneId; "Enter"];;
  mret tt.

Definition sendToWorker (sessionName paneId message : string) : M bool :=
  message ← (if (200 <? String.length message)%nat
              then console_warn "[tmux-session] sendToWorker: message truncated to 200 chars";;
                   mret (slice0 200 message)
              else mret message);
  try_catch (tmux ["send-keys"; "-t"; paneId; "-l"; message];;
             tmux ["send-keys"; "-t"; paneId; "Enter"];;
             mret true)
            (λ _, mret false).

(** The polls a wait of [timeoutMs] can make: each one but the last
    sleeps 500 ms. *)
Definition poll_fuel (timeoutMs : Z) : nat := S (S (Z.to_nat (timeoutMs / 500))).

Definition readySentinel (teamName workerName cwd : string) : Path :=
  join (path_of cwd)
       [".omc/state/team/" +:+ teamName +:+ "/workers/" +:+ workerName +:+ "/.ready"].

Fixpoint waitForWorkerReady_loop (fuel : nat) (sentinelPath : Path) (deadline : Z)
  : M bool :=
  match fuel with
  | O => λ w, (w, OutOfFuel)
  | S fuel' =>
      t ← Date_now;
      if t <? deadline then
        found ← try_catch (fs_access sentinelPath;; mret true)
                          (λ _, sleep 500;; mret false);
        if found : bool then mret true
        else waitForWorkerReady_loop fuel' sentinelPath deadline
      else mret false
  end.

Definition waitForWorkerReady (teamName workerName cwd : string) (timeoutMs : Z)
  : M bool :=
  let sentinelPath := readySentinel teamName workerName cwd in
  let pollInterval := 500 in
  t ← Date_now;
  let deadline := t + timeoutMs in
  waitForWorkerReady_loop (poll_fuel timeoutMs) sentinelPath deadline.

Definition isWorkerAlive (paneId : string) : M bool :=
  try_catch (result ← tmux ["display-message"; "-t"; paneId; "-p"; "#{pane_dead}"];
             mret (String.eqb (stdout_trim result) "0"))
            (λ _, mret false).

Definition killTeamSession (sessionName : string) : M unit :=
  try_catch (tmux ["kill-session"; "-t"; sessionName];; mret tt)
            (λ _, mret tt).

Definition TMUX_SESSION_PREFIX : string := "omc-team".

(** The function [sessionName] of the source (the name is taken by the
    field of [TeamSession]): the template evaluates [sanitizeName] of the
    team name first. *)
Definition workerSessionName (teamName workerName : string) : Result string :=
  match sanitizeName teamName with
  | Ok team =>
      match sanitizeName workerName with
      | Ok worker => Ok (TMUX_SESSION_PREFIX +:+ "-" +:+ team +:+ "-" +:+ worker)
      | Throw e => Throw e
      | OutOfFuel => OutOfFuel
      end
  | Throw e => Throw e
  | OutOfFuel => OutOfFuel
  end.

(** [workingDirectory] is optional: [None] is a call without it, and the
    empty string is as falsy. *)
Definition createSession (teamName workerName : string)
    (workingDirectory : option string) : M string :=
  name ← lift (workerSessionName teamName workerName);
  (* Kill existing session if present *)
  try_catch (tmux_sync ["kill-session"; "-t"; name];; mret tt) (λ _, mret tt);;
  (* Create detached session *)
  let args := ["new-session"; "-d"; "-s"; name; "-x"; "200"; "-y"; "50"] in
  let args := match workingDirectory with
              | Some dir => if String.eqb dir "" then args else args ++ ["-c"; dir]
              | None => args
              end in
  tmux_sync args;;
  mret name.

Definition killSession (teamName workerName : string) : M unit :=
  name ← lift (workerSessionName teamName workerName);
  try_catch (tmux_sync ["kill-session"; "-t"; name];; mret tt) (λ _, mret tt).

Definition isSessionAlive (teamName workerName : string) : M bool :=
  name ← lift (workerSessionName teamName workerName);
  try_catch (tmux_sync ["has-session"; "-t"; name];; mret true) (λ _, mret false).

Definition listActiveSessions (teamName : string) : M (list string) :=
  team ← lift (sanitizeName teamName);
  let prefix := TMUX_SESSION_PREFIX +:+ "-" +:+ team +:+ "-" in
  try_catch
    (output ← tmux_sync ["list-sessions"; "-F"; "#{session_name}"];
     mret (map (slice_from (String.length prefix))
               (List.filter (λ s, startsWith s prefix)
                            (split "010"%char (trim (stdout_text output))))))
    (λ _, mret []).

Definition spawnBridgeInSession (tmuxSession bridgeScriptPath configFilePath : string)
  : M unit :=
  let cmd := "node " +:+ dquote +:+ bridgeScriptPath +:+ dquote
             +:+ " --config " +:+ dquote +:+ configFilePath +:+ dquote in
  tmux_sync ["send-keys"; "-t"; tmuxSession; cmd; "Enter"];;
  mret tt.

Definition respawnWorkerInPane `{Host} (sessionName : string) (config : WorkerPaneConfig)
  : M string :=
  (* Create new vertical split in the session *)
  tmux ["split-window"; "-v"; "-t"; sessionName; "-c"; cwd config];;
  (* Get the new pane ID *)
  allPanesResult ← tmux ["list-panes"; "-t"; sessionName; "-F"; "#{pane_id}"];
  let allPanes := stdout_lines allPanesResult in
  newPaneId ← defined "args[2]" (last allPanes);
  (* Spawn worker in new pane *)
  spawnWorkerInPane sessionName newPaneId config;;
  mret newPaneId.

End TmuxSession.

(** ** The modules of the team that are not part of the sources read here

    [model-contract.ts] and [worker-bootstrap.ts] are imported by
    [runtime.ts]; the runtime is stated over whatever they do. *)

Class Collaborators := {
  (** [validateCliAvailable(agentType)]: the check that an agent type is
      launchable; [Some e] is the failure it raises. *)
  validateCliAvailable : string → option Error;
  (** [buildWorkerCommand(agentType, { teamName, workerName, cwd })] *)
  buildWorkerCommand : string → string → string → string → string;
  (** [getWorkerEnv(teamName, workerName, agentType)] *)
  getModelWorkerEnv : string → string → string → list (string * string);
  (** [ensureWorkerStateDir(teamName, workerName, cwd)] *)
  ensureWorkerStateDir : string → string → string → M unit;
  (** [writeWorkerOverlay({ teamName, workerName, agentType, tasks, cwd })],
      the tasks as (id, subject, description) *)
  writeWorkerOverlay :
    string → string → string → list (string * string * string) → string → M unit;
  (** [composeInitialInbox(teamName, workerName, content, cwd)] *)
  composeInitialInbox : string → string → string → string → M unit;
}.

(** ** src/team/runtime.ts *)

Module Runtime.

Import TmuxSession.

Record TaskDef := { subject : string; description : string }.

Record TeamConfig := {
  teamName : string;
  workerCount : Z;
  agentTypes : list string;
  tasks : list TaskDef;
  cwd : string;
}.

Record TeamRuntime := {
  rt_teamName : string;
  rt_sessionName : string;
  rt_config : JSON;               (* the config, as JSON.stringify shows it *)
  rt_workerNames : list string;
  rt_workerPaneIds : list string;
  rt_cwd : string;
}.

Record WorkerStatus := {
  ws_workerName : string;
  alive : bool;
  paneId : string;
  currentTaskId : option JSON;    (* [None] is [undefined] *)
  lastHeartbeat : option JSON;
  stalled : bool;
}.

Record TaskCounts := {
  pending : nat;
  inProgress : nat;
  completed : nat;
  failed : nat;
}.

Record TeamSnapshot := {
  snap_teamName : string;
  phase : string;
  snap_workers : list WorkerStatus;
  taskCounts : TaskCounts;
  deadWorkers : list string;
}.

Definition json_of_config (c : TeamConfig) : JSON :=
  JObj [("teamName", JStr (teamName c));
        ("workerCount", JNum (workerCount c));
        ("agentTypes", JArr (JStr <$> agentTypes c));
        ("tasks", JArr ((λ t, JObj [("subject", JStr (subject t));
                                     ("description", JStr (description t))])
                        <$> tasks c));
        ("cwd", JStr (cwd c))].

Definition workerName (index : nat) : string :=
  "worker-" +:+ String_of (Z.of_nat index + 1).

Definition stateRoot (cwd teamName : string) : Path :=
  join (path_of cwd) [".omc/state/team/" +:+ teamName].

(** The paths the program joins below the state root end in a literal
    name, a task identifier with [.json] or [worker-n], each one
    component that [join] appends; [join(filePath, '..')] of such a path
    is its parent. *)
Definition writeJson (filePath : Path) (data : JSON) : M unit :=
  mkdir (parent filePath);;
  fs_writeFile filePath [PJson data].

(** The value read, or [null]: a missing file, a directory and a text
    that does not parse all come to [JNull]. *)
Definition readJsonSafe (filePath : Path) : M JSON :=
  try_catch (content ← fs_readFile filePath;
             match JSON_parse content with
             | Some v => mret v
             | None => throw (SyntaxError "Unexpected token")
             end)
            (λ _, mret JNull).

(** [[...new Set(l)]]: the distinct values at their first occurrence. *)
Fixpoint Set_values (l : list string) : list string :=
  match l with
  | [] => []
  | x :: rest => x :: filter (λ y, y ≠ x) (Set_values rest)
  end.

Section Operations.
Context `{Host} `{Collaborators}.

Definition validate (agentType : string) : M unit :=
  match validateCliAvailable agentType with
  | Some e => throw e
  | None => mret tt
  end.

(** [agentTypes[i] ?? agentTypes[0] ?? 'claude'] *)
Definition agentTypeFor (agentTypes : list string) (i : nat) : string :=
  match agentTypes !! i with
  | Some a => a
  | None => default "claude" (agentTypes !! 0%nat)
  end.

Definition taskRecord (taskId : string) (t : TaskDef) (createdAt : string) : JSON :=
  JObj [("id", JStr taskId);
        ("subject", JStr (subject t));
        ("description", JStr (description t));
        ("status", JStr "pending");
        ("owner", JNull);
        ("result", JNull);
        ("createdAt", JStr createdAt)].

(** The loop of [startTeam] that creates the task files. *)
Definition createTaskFiles (root : Path) (tasks : list TaskDef) : M unit :=
  forM_ (imap (λ i t, (i, t)) tasks) (λ '(i, t),
    let taskId := String_of (Z.of_nat i + 1) in
    t0 ← Date_now;
    writeJson (root ++ ["tasks"; taskId +:+ ".json"])
              (taskRecord taskId t (Date_toISOString t0))).

Definition welcome (teamName wName : string) : string :=
  "# Welcome, " +:+ wName +:+ nl +:+ nl
  +:+ "Read your AGENTS.md overlay at .omc/state/team/" +:+ teamName
  +:+ "/workers/" +:+ wName +:+ "/AGENTS.md" +:+ nl +:+ nl
  +:+ "Write your ready sentinel first, then claim tasks from .omc/state/team/"
  +:+ teamName +:+ "/tasks/".

(** The loop of [startTeam] that sets up the state of each worker. *)
Definition setupWorker (config : TeamConfig) (workerNames : list string) (i : nat)
  : M (list string) :=
  let wName := workerName i in
  let workerNames := workerNames ++ [wName] in
  let agentType := agentTypeFor (agentTypes config) i in
  ensureWorkerStateDir (teamName config) wName (cwd config);;
  writeWorkerOverlay (teamName config) wName agentType
    (imap (λ idx t, (String_of (Z.of_nat idx + 1), subject t, description t))
          (tasks config))
    (cwd config);;
  composeInitialInbox (teamName config) wName (welcome (teamName config) wName)
                      (cwd config);;
  mret workerNames.

Definition spawnWorker (config : TeamConfig) (session : TeamSession)
    (workerNames : list string) (i : nat) : M unit :=
  let wName := default "undefined" (workerNames !! i) in
  let agentType := agentTypeFor (agentTypes config) i in
  paneId ← defined "args[2]" (workerPaneIds session !! i);
  let envVars := getModelWorkerEnv (teamName config) wName agentType in
  let launchCmd := buildWorkerCommand agentType (teamName config) wName (cwd config) in
  let paneConfig :=
    {| TmuxSession.teamName := teamName config; TmuxSession.workerName := wName;
       envVars := envVars; launchCmd := launchCmd;
       TmuxSession.cwd := cwd config |} in
  spawnWorkerInPane (sessionName session) paneId paneConfig.

(** [Promise.all(workerNames.map(w => waitForWorkerReady(..., timeoutMs)))].
    The waits start at the same instant with the same deadline and poll
    every 500 ms, so they run in lock step: at each poll every worker
    still waited for is looked up, then one sleep serves them all. *)
Fixpoint waitAllReady_loop (fuel : nat) (deadline : Z)
    (waits : list (Path * option bool)) : M (list bool) :=
  match fuel with
  | O => λ w, (w, OutOfFuel)
  | S fuel' =>
      t ← Date_now;
      if t <? deadline then
        waits' ← foldM waits (λ acc '(p, r),
                   match r with
                   | Some b => mret (acc ++ [(p, Some b)])
                   | None =>
                       found ← fs_existsSync p;
                       mret (acc ++ [(p, if found : bool then Some true else None)])
                   end) [];
        if forallb (λ '(_, r), match r with Some _ => true | None => false end) waits'
        then mret (map (λ '(_, r), default false r) waits')
        else sleep 500;; waitAllReady_loop fuel' deadline waits'
      else mret (map (λ '(_, r), default false r) waits)
  end.

Definition waitAllReady (teamName : string) (workerNames : list string)
    (cwd : string) (timeoutMs : Z) : M (list bool) :=
  t ← Date_now;
  waitAllReady_loop (poll_fuel timeoutMs) (t + timeoutMs)
    (map (λ wName, (readySentinel teamName wName cwd, None)) workerNames).

Definition startTeam (config : TeamConfig) : M TeamRuntime :=
  (* Validate CLIs are available *)
  forM_ (Set_values (agentTypes config)) validate;;
  let root := stateRoot (cwd config) (teamName config) in
  mkdir (root ++ ["tasks"]);;
  mkdir (root ++ ["mailbox"]);;
  (* Write config *)
  writeJson (root ++ ["config.json"]) (json_of_config config);;
  (* Create task files *)
  createTaskFiles root (tasks config);;
  (* Set up worker state dirs and overlays *)
  workerNames ← foldM (range (workerCount config)) (setupWorker config) [];
  (* Create tmux session with split panes *)
  session ← createTeamSession (teamName config) (workerCount config) (cwd config);
  (* Spawn CLI agents in each pane *)
  forM_ (range (workerCount config)) (spawnWorker config session workerNames);;
  (* Wait for all workers to be ready *)
  readyResults ← waitAllReady (teamName config) workerNames (cwd config) 30000;
  let notReady : list string :=
    omap id (imap (λ i wName, if default false (readyResults !! i)
                              then None else Some wName) workerNames) in
  (if (0 <? List.length notReady)%nat
   then console_warn ("[runtime] Workers not ready within 30s: "
                      +:+ String.concat ", " notReady)
   else mret tt);;
  mret {| rt_teamName := teamName config;
          rt_sessionName := sessionName session;
          rt_config := json_of_config config;
          rt_workerNames := workerNames;
          rt_workerPaneIds := workerPaneIds session;
          rt_cwd := cwd config |}.

(** [task?.status === s] *)
Definition status_is (task : JSON) (s : string) : bool :=
  match get "status" task with
  | Some (JStr s') => String.eqb s' s
  | _ => false
  end.

(** One task file of the scan and the counter it bumps. *)
Definition countTask (c : TaskCounts) (task : JSON) : TaskCounts :=
  if status_is task "pending" then
    {| pending := S (pending c); inProgress := inProgress c;
       completed := completed c; failed := failed c |}
  else if status_is task "in_progress" then
    {| pending := pending c; inProgress := S (inProgress c);
       completed := completed c; failed := failed c |}
  else if status_is task "completed" then
    {| pending := pending c; inProgress := inProgress c;
       completed := S (completed c); failed := failed c |}
  else if status_is task "failed" then
    {| pending := pending c; inProgress := inProgress c;
       completed := completed c; failed := S (failed c) |}
  else c.

Definition noTasks : TaskCounts :=
  {| pending := 0; inProgress := 0; completed := 0; failed := 0 |}.

(** The first block of [monitorTeam].  The one call of the block that can
    throw is [readdir], before any file is counted. *)
Definition readTaskCounts (root : Path) : M TaskCounts :=
  try_catch
    (taskFiles ← fs_readdir (root ++ ["tasks"]);
     foldM (List.filter (λ f, endsWith f ".json") taskFiles)
           (λ taskCounts f,
              task ← readJsonSafe (root ++ ["tasks"; f]);
              mret (countTask taskCounts task))
           noTasks)
    (λ _, mret noTasks).

(** Infer phase from task counts *)
Definition inferPhase (c : TaskCounts) : string :=
  if ((inProgress c =? 0) && (0 <? pending c) && (completed c =? 0))%nat
  then "planning"
  else if ((0 <? failed c) && (pending c =? 0) && (inProgress c =? 0))%nat
  then "fixing"
  else if ((0 <? completed c) && (pending c =? 0) && (inProgress c =? 0)
           && (failed c =? 0))%nat
  then "completed"
  else "executing".

(** [new Date(s).getTime()] for a string; the empty string is no
    date. *)
Definition getTime (s : string) : option Z :=
  if String.eqb s "" then None else Date_parse s.

(** [new Date(v).getTime()] for a parsed value: a string is parsed as a
    date, a number or a boolean is the time value itself, and an array or
    an object is first made a string.  The outer [None] is the TypeError
    of a value that cannot be made a primitive, the inner one is [NaN]. *)
Definition Date_getTime (v : JSON) : option (option Z) :=
  match v with
  | JNull => Some (TimeClip 0)
  | JBool b => Some (TimeClip (if b then 1 else 0))
  | JNum n => Some (TimeClip n)
  | JStr s => Some (getTime s)
  | JArr _ | JObj _ => getTime <$> ToString v
  end.

Definition new_Date_getTime (v : JSON) : M (option Z) :=
  match Date_getTime v with
  | Some t => mret t
  | None => throw (TypeError "Cannot convert object to primitive value")
  end.

(** Detect stall: no heartbeat update in 60s *)
Definition detectStall (heartbeat : JSON) : M bool :=
  match get "updatedAt" heartbeat with
  | Some updatedAt =>
      if truthy updatedAt then
        t ← Date_now;
        u ← new_Date_getTime updatedAt;
        mret (match u with
              | Some u => 60000 <? t - u
              | None => false
              end)
      else mret false
  | None => mret false
  end.

(** One turn of the loop of [monitorTeam] over the worker panes. *)
Definition checkWorker (root : Path)
    (acc : list WorkerStatus * list string) (ip : nat * string)
  : M (list WorkerStatus * list string) :=
  let '(workers, deadWorkers) := acc in
  let '(i, paneId) := ip in
  let wName := "worker-" +:+ String_of (Z.of_nat i + 1) in
  alive ← isWorkerAlive paneId;
  let heartbeatPath := root ++ ["workers"; wName; "heartbeat.json"] in
  heartbeat ← readJsonSafe heartbeatPath;
  stalled ← detectStall heartbeat;
  let status :=
    {| ws_workerName := wName; alive := alive; paneId := paneId;
       currentTaskId := get "currentTaskId" heartbeat;
       lastHeartbeat := get "updatedAt" heartbeat;
       stalled := stalled |} in
  let workers := workers ++ [status] in
  let deadWorkers := if alive then deadWorkers else deadWorkers ++ [wName] in
  (if stalled
   then console_warn ("[runtime] Worker " +:+ wName
                      +:+ " appears stalled (no heartbeat for 60s)")
   else mret tt);;
  mret (workers, deadWorkers).

Definition monitorTeam (teamName cwd : string) (workerPaneIds : list string)
  : M TeamSnapshot :=
  let root := stateRoot cwd teamName in
  (* Read task counts *)
  taskCounts ← readTaskCounts root;
  (* Check worker health *)
  '(workers, deadWorkers) ←
     foldM (imap (λ i p, (i, p)) workerPaneIds) (checkWorker root) ([], []);
  (* Infer phase from task counts *)
  let phase := inferPhase taskCounts in
  mret {| snap_teamName := teamName; phase := phase; snap_workers := workers;
          taskCounts := taskCounts; deadWorkers := deadWorkers |}.

Definition assignmentBlock (teamName taskId : string) : string :=
  nl +:+ nl +:+ "---" +:+ nl +:+ "## New Task Assignment" +:+ nl
  +:+ "Task ID: " +:+ taskId +:+ nl
  +:+ "Claim and execute task from: .omc/state/team/" +:+ teamName
  +:+ "/tasks/" +:+ taskId +:+ ".json" +:+ nl.

Definition assign (k : string) (v : JSON) (target : JSON) : M JSON :=
  match set_prop k v target with
  | Some target' => mret target'
  | None => throw (TypeError ("Cannot create property '" +:+ k +:+ "'"))
  end.

Definition assignTask (teamName taskId targetWorkerName paneId sessionName cwd : string)
  : M unit :=
  let root := stateRoot cwd teamName in
  let taskPath := join root ["tasks"; taskId +:+ ".json"] in
  (* Update task ownership *)
  task ← readJsonSafe taskPath;
  (if truthy task then
     task ← assign "owner" (JStr targetWorkerName) task;
     task ← assign "status" (JStr "in_progress") task;
     t ← Date_now;
     task ← assign "assignedAt" (JStr (Date_toISOString t)) task;
     writeJson taskPath task
   else mret tt);;
  (* Write to worker inbox *)
  let inboxPath := join root ["workers"; targetWorkerName; "inbox.md"] in
  mkdir (parent inboxPath);;
  let msg := assignmentBlock teamName taskId in
  fs_appendFile inboxPath [PText msg];;
  (* Send tmux trigger *)
  sendToWorker sessionName paneId ("new-task:" +:+ taskId);;
  mret tt.

(** [ToLength(v)]: the value as a number, cut to an integer from 0 to
    2^53 - 1; [None] is the TypeError of a value that cannot be made a
    primitive. *)
Definition ToLength (v : JSON) : option Z :=
  match v with
  | JNull => Some 0
  | JBool b => Some (if b then 1 else 0)
  | JNum n => Some (Z.max 0 (Z.min n (2 ^ 53 - 1)))
  | JStr s => Some (String_ToLength s)
  | JArr _ | JObj _ => String_ToLength <$> ToString v
  end.

(** The length [Array.from] reads from [{ length: v }]. *)
Definition LengthOfArrayLike (v : JSON) : M Z :=
  match ToLength v with
  | Some n => mret n
  | None => throw (TypeError "Cannot convert object to primitive value")
  end.

(** [Array.from({ length: n }, (_, i) => f(i))]: a length above 2^32 - 1
    is an invalid array length. *)
Definition Array_from_length {A} (n : Z) (f : nat → A) : M (list A) :=
  if 4294967295 <? n then throw (RangeError "Invalid array length")
  else mret (map f (range n)).

(** [l.splice(l.indexOf(x), 1)]: an index of -1 counts from the end. *)
Definition splice_indexOf (x : string) (l : list string) : list string :=
  match list_find (λ y, y = x) l with
  | Some (i, _) => delete i l
  | None => removelast l
  end.

(** One pass of the ack loop over a copy of the expected names. *)
Definition collectAcks (root : Path) (expectedAcks : list string) : M (list string) :=
  foldM expectedAcks
        (λ acks wName,
           let ackPath := root ++ ["workers"; wName; "shutdown-ack.json"] in
           found ← fs_existsSync ackPath;
           mret (if found : bool then splice_indexOf wName acks else acks))
        expectedAcks.

Fixpoint pollAcks (fuel : nat) (root : Path) (deadline : Z)
    (expectedAcks : list string) : M (list string) :=
  match fuel with
  | O => λ w, (w, OutOfFuel)
  | S fuel' =>
      t ← Date_now;
      if (t <? deadline) && (0 <? List.length expectedAcks)%nat then
        expectedAcks ← collectAcks root expectedAcks;
        (if (0 <? List.length expectedAcks)%nat then sleep 500 else mret tt);;
        pollAcks fuel' root deadline expectedAcks
      else mret expectedAcks
  end.

Definition shutdownTeam (teamName sessionName cwd : string) (timeoutMs : Z)
  : M unit :=
  let root := stateRoot cwd teamName in
  (* Write shutdown request *)
  t ← Date_now;
  writeJson (root ++ ["shutdown.json"])
            (JObj [("requestedAt", JStr (Date_toISOString t));
                   ("teamName", JStr teamName)]);;
  (* Poll for ACK files *)
  t ← Date_now;
  let deadline := t + timeoutMs in
  configData ← readJsonSafe (root ++ ["config.json"]);
  let workerCount := nullish_or (get "workerCount" configData) (JNum 0) in
  length ← LengthOfArrayLike workerCount;
  expectedAcks ← Array_from_length length
                   (λ i, "worker-" +:+ String_of (Z.of_nat i + 1));
  pollAcks (poll_fuel timeoutMs) root deadline expectedAcks;;
  (* Kill tmux session *)
  killTeamSession sessionName;;
  (* Clean up state *)
  try_catch (fs_rm root) (λ _, mret tt).

Definition resumeTeam (teamName cwd : string) : M (option TeamRuntime) :=
  let root := stateRoot cwd teamName in
  configData ← readJsonSafe (root ++ ["config.json"]);
  if negb (truthy configData) then mret None
  else
    (* Check if session is alive *)
    let sName := "omc-team-" +:+ teamName in
    live ← try_catch (tmux ["has-session"; "-t"; sName];; mret true)
                     (λ _, mret false);
    if negb live then mret None
    else
      panesResult ← tmux ["list-panes"; "-t"; sName; "-F"; "#{pane_id}"];
      let allPanes := stdout_lines panesResult in
      (* First pane is leader, rest are workers *)
      let workerPaneIds := drop 1 allPanes in
      let workerNames :=
        imap (λ i _, "worker-" +:+ String_of (Z.of_nat i + 1)) workerPaneIds in
      mret (Some {| rt_teamName := teamName; rt_sessionName := sName;
                    rt_config := configData; rt_workerNames := workerNames;
                    rt_workerPaneIds := workerPaneIds; rt_cwd := cwd |}).

End Operations.

End Runtime.

(** ** A host and collaborators to run the operations on

    Concrete stand-ins for what the sources leave outside, used where a
    statement is evaluated on an input. *)

Module Demo.

Import Runtime.

Fixpoint digits_value (acc : Z) (s : string) : option Z :=
  match s with
  | EmptyString => Some acc
  | String c rest =>
      let n := Z.of_nat (nat_of_ascii c) in
      if (48 <=? n) && (n <=? 57) then digits_value (10 * acc + (n - 48)) rest
      else None
  end.

(** A host for the examples, simpler than a JavaScript engine: its
    timestamps are written as the count of milliseconds, and it reads a
    string of decimal digits as that number and any other string as no
    number (no date, the length 0). *)
#[local] Instance host : Host := {|
  Date_toISOString := λ t, pretty t;
  Date_parse := digits_value 0;
  String_ToLength := λ s, Z.min (default 0 (digits_value 0 s)) (2 ^ 53 - 1);
  env_SHELL := Some "/bin/zsh";
  env_HOME := Some "/home/dev";
|}.

Definition workerDir (teamName workerName cwd : string) : Path :=
  stateRoot cwd teamName ++ ["workers"; workerName].

(** Modelled from the spec: the functions of worker-bootstrap.ts and
    model-contract.ts, which are not among the sources.  Per worker the
    start-up creates its private state directory, writes its overlay
    document and seeds its inbox; three agent types are launchable. *)
#[local] Instance collaborators : Collaborators := {|
  validateCliAvailable := λ agentType,
    if bool_decide (agentType ∈ ["claude"; "codex"; "gemini"]) then None
    else Some (CliError agentType);
  buildWorkerCommand := λ agentType _ _ _, agentType;
  getModelWorkerEnv := λ teamName workerName _,
    [("OMC_TEAM_WORKER", teamName +:+ "/" +:+ workerName)];
  ensureWorkerStateDir := λ teamName workerName cwd,
    mkdir (workerDir teamName workerName cwd);
  writeWorkerOverlay := λ teamName workerName agentType _ cwd,
    writeJson (workerDir teamName workerName cwd ++ ["AGENTS.md"]) (JStr agentType);
  composeInitialInbox := λ teamName workerName content cwd,
    mkdir (workerDir teamName workerName cwd);;
    fs_writeFile (workerDir teamName workerName cwd ++ ["inbox.md"]) [PText content];
|}.

(** Workers that never write anything. *)
Definition silent : nat → FS → FS := λ _ f, f.

Definition world0 : World :=
  {| fs := ∅; mux := Tmux.empty; now := 0; console := []; naps := 0;
     workers := silent |}.

End Demo.

(** ** Views of the operations and worlds to run them in

    The functions and predicates the properties are stated with, and the
    concrete worlds they are evaluated on. *)

Import TmuxSession.
Import Runtime.

(** [w'] is [w] with more lines on the console. *)
Definition quiet_step (w w' : World) : Prop :=
  fs w' = fs w ∧ mux w' = mux w ∧ now w' = now w ∧ naps w' = naps w
  ∧ workers w' = workers w.

(** What [readJsonSafe] returns for a path. *)
Definition parsed (f : FS) (p : Path) : JSON :=
  match readFile f p with
  | inl content => default JNull (JSON_parse content)
  | inr _ => JNull
  end.

(** What [isWorkerAlive] returns for a pane. *)
Definition paneAlive (s : Tmux.Server) (paneId : string) : bool :=
  match Tmux.display_message paneId "#{pane_dead}" s with
  | Some out => String.eqb (stdout_trim out) "0"
  | None => false
  end.

Section MonitorView.
Context `{Host}.

(** The counts of the scan of [root/tasks]. *)
Definition countsOf (f : FS) (root : Path) : TaskCounts :=
  match readdir f (root ++ ["tasks"]) with
  | inl names =>
      foldl (λ c name, countTask c (parsed f (root ++ ["tasks"; name])))
            noTasks (List.filter (λ name, endsWith name ".json") names)
  | inr _ => noTasks
  end.

(** Whether a heartbeat read at time [t] is a stale one: its [updatedAt]
    is truthy and is a time more than 60000 ms before [t]. *)
Definition staleAt (t : Z) (heartbeat : JSON) : bool :=
  match get "updatedAt" heartbeat with
  | Some updatedAt =>
      truthy updatedAt
      && match Date_getTime updatedAt with
         | Some (Some u) => 60000 <? t - u
         | _ => false
         end
  | None => false
  end.

(** Whether the [updatedAt] of a heartbeat can be made a primitive: a
    missing one and a string, number, boolean or [null] can, an array or
    an object can when [ToString] converts it. *)
Definition convertible (heartbeat : JSON) : bool :=
  match get "updatedAt" heartbeat with
  | Some updatedAt =>
      match ToString updatedAt with Some _ => true | None => false end
  | None => true
  end.

(** The error of a value that cannot be made a primitive. *)
Definition unconvertible : Error :=
  TypeError "Cannot convert object to primitive value".

Definition heartbeatOf (f : FS) (root : Path) (i : nat) : JSON :=
  parsed f (root ++ ["workers"; "worker-" +:+ String_of (Z.of_nat i + 1);
                     "heartbeat.json"]).

(** The status [monitorTeam] reports for the pane at index [i]. *)
Definition statusOf (w : World) (root : Path) (ip : nat * string) : WorkerStatus :=
  let '(i, paneId) := ip in
  {| ws_workerName := "worker-" +:+ String_of (Z.of_nat i + 1);
     alive := paneAlive (mux w) paneId;
     paneId := paneId;
     currentTaskId := get "currentTaskId" (heartbeatOf (fs w) root i);
     lastHeartbeat := get "updatedAt" (heartbeatOf (fs w) root i);
     stalled := staleAt (now w) (heartbeatOf (fs w) root i) |}.

Definition checkWorker_step (w : World) (root : Path)
    (acc : list WorkerStatus * list string) (ip : nat * string)
  : list WorkerStatus * list string :=
  (acc.1 ++ [statusOf w root ip],
   if alive (statusOf w root ip) then acc.2
   else acc.2 ++ [ws_workerName (statusOf w root ip)]).

(** Whether [monitorTeam] can read the heartbeats of the workers it is
    given panes for. *)
Definition readable (f : FS) (root : Path) (workerPaneIds : list string) : bool :=
  forallb (λ ip, convertible (heartbeatOf f root ip.1))
          (imap (λ i p, (i, p)) workerPaneIds).

(** The snapshot [monitorTeam] returns in a world. *)
Definition snapshotOf (w : World) (teamName cwd : string) (workerPaneIds : list string)
  : TeamSnapshot :=
  let root := stateRoot cwd teamName in
  let statuses := map (statusOf w root) (imap (λ i p, (i, p)) workerPaneIds) in
  {| snap_teamName := teamName;
     phase := inferPhase (countsOf (fs w) root);
     snap_workers := statuses;
     taskCounts := countsOf (fs w) root;
     deadWorkers := map ws_workerName (List.filter (λ st, negb (alive st)) statuses) |}.

End MonitorView.

(** A world at time 100000 where worker-1 wrote its heartbeat at time
    1000, as a number, worker-2 never wrote one and worker-3 wrote its
    own at time 99000, as a string. *)
Definition stale_world : World :=
  {| fs := {[ stateRoot "/p" "t1" ++ ["workers"; "worker-1"; "heartbeat.json"]
              := File [PJson (JObj [("updatedAt", JNum 1000);
                                    ("currentTaskId", JStr "1")])];
              stateRoot "/p" "t1" ++ ["workers"; "worker-3"; "heartbeat.json"]
              := File [PJson (JObj [("updatedAt", JStr "99000")])] ]};
     mux := Tmux.empty; now := 100000; console := []; naps := 0;
     workers := Demo.silent |}.

(** A world at time 100000 where the heartbeat of worker-1 gives the
    time 0 as its [updatedAt]. *)
Definition epoch_world : World :=
  {| fs := {[ stateRoot "/p" "t1" ++ ["workers"; "worker-1"; "heartbeat.json"]
              := File [PJson (JObj [("updatedAt", JNum 0)])] ]};
     mux := Tmux.empty; now := 100000; console := []; naps := 0;
     workers := Demo.silent |}.

Definition total (c : TaskCounts) : nat :=
  (pending c + inProgress c + completed c + failed c)%nat.

(** The entries of a directory, none when there is no such directory. *)
Definition dirEntries (f : FS) (dir : Path) : list string :=
  match readdir f dir with
  | inl names => names
  | inr _ => []
  end.

(** Whether a parsed task record has one of the four statuses. *)
Definition hasStatus (task : JSON) : bool :=
  status_is task "pending" || status_is task "in_progress"
  || status_is task "completed" || status_is task "failed".

(** The entries that the scan of [monitorTeam] counts: named [*.json] and
    holding a record with one of the four statuses. *)
Definition counted (f : FS) (root : Path) (name : string) : bool :=
  endsWith name ".json" && hasStatus (parsed f (root ++ ["tasks"; name])).

(** A tasks directory with a pending record, a half-written record and a
    note. *)
Definition mixed_tasks_world : World :=
  {| fs := <[ stateRoot "/p" "t1" ++ ["tasks"; "1.json"]
                := File [PJson (JObj [("id", JStr "1"); ("status", JStr "pending")])] ]>
           (<[ stateRoot "/p" "t1" ++ ["tasks"; "2.json"]
                := File [PText "{"] ]>
           (<[ stateRoot "/p" "t1" ++ ["tasks"; "NOTES.md"]
                := File [PText "scratch"] ]>
           (fs (mkdir (stateRoot "/p" "t1" ++ ["tasks"]) Demo.world0).1)));
     mux := Tmux.empty; now := 0; console := []; naps := 0;
     workers := Demo.silent |}.

Definition two_tasks : TeamConfig :=
  {| teamName := "t1"; workerCount := 2; agentTypes := ["codex"; "codex"];
     tasks := [{| subject := "a"; description := "d" |};
               {| subject := "b"; description := "e" |}];
     cwd := "/p" |}.

(** A running team: the directories, the config and the task files as
    [startTeam] persists them, and the session with its panes. *)
Definition started_world : World :=
  let root := stateRoot (cwd two_tasks) (teamName two_tasks) in
  ((mkdir (root ++ ["tasks"]);;
    mkdir (root ++ ["mailbox"]);;
    writeJson (root ++ ["config.json"]) (json_of_config two_tasks);;
    createTaskFiles (H := Demo.host) root (tasks two_tasks);;
    createTeamSession (teamName two_tasks) (workerCount two_tasks) (cwd two_tasks))
     Demo.world0).1.

Definition underscore_team : TeamConfig :=
  {| teamName := "my_team"; workerCount := 1; agentTypes := ["claude"];
     tasks := []; cwd := "/p" |}.

Definition kimi_team : TeamConfig :=
  {| teamName := "t1"; workerCount := 2; agentTypes := ["claude"; "kimi"];
     tasks := [{| subject := "a"; description := "d" |}]; cwd := "/p" |}.

(** [f'] is [f] with, possibly, more directories. *)
Definition more_dirs (f f' : FS) : Prop :=
  ∀ q, f' !! q = f !! q ∨ (f !! q = None ∧ f' !! q = Some Dir).

(** No regular file stands where [mkdir -p dir] needs a directory. *)
Definition creatable (f : FS) (dir : Path) : Prop :=
  ∀ q c, q `prefix_of` dir → f !! q ≠ Some (File c).

(** A file can be written at [p]: its directory can be made and [p] is
    not itself a directory. *)
Definition writable (f : FS) (p : Path) : Prop :=
  creatable f (parent p) ∧ f !! p ≠ Some Dir.

(** From [f] to [f']: every path keeps its node, or becomes a new
    directory, or holds a node that [allowed] accepts there. *)
Definition fs_rel (allowed : Path → Node → Prop) (f f' : FS) : Prop :=
  ∀ q, f' !! q = f !! q
       ∨ (f !! q = None ∧ f' !! q = Some Dir)
       ∨ (∃ n, f' !! q = Some n ∧ allowed q n).

(** Run from [w], the computation [m] changes the file system within
    [allowed], whatever it comes to. *)
Definition writes_within {A} (allowed : Path → Node → Prop) (m : M A) (w : World) : Prop :=
  ∀ w' r, m w = (w', r) → fs_rel allowed (fs w) (fs w').

(** A segment that [join] appends as it is: one component, which is
    neither empty nor [.] nor [..]. *)
Definition plain (x : string) : bool :=
  forall_chars (λ c, negb (Ascii.eqb c "/")) x
  && negb (String.eqb x "") && negb (String.eqb x ".") && negb (String.eqb x "..").

(** The [status] of the record at a path, as [monitorTeam] would read it. *)
Definition status_at (f : FS) (p : Path) : option string :=
  get_string "status" (parsed f p).

(** The file [name] of the tasks directory of a team; the record of the
    task [id] is the file [id.json]. *)
Definition taskPathOf (cwd teamName name : string) : Path :=
  stateRoot cwd teamName ++ ["tasks"; name].

(** What [assignTask] may write, started on the file system [f0]. *)
Definition assign_allowed (f0 : FS) (taskPath inboxPath : Path) (q : Path) (n : Node)
  : Prop :=
  (q = taskPath
   ∧ ∃ v, n = File [PJson v]
          ∧ (get_string "status" v = Some "in_progress" ∨ v = parsed f0 taskPath))
  ∨ q = inboxPath.

(** The calls of the runtime that neither sleep nor create a team. *)
Inductive CoreOp : Type :=
| OpAssign (teamName taskId targetWorkerName paneId sessionName cwd : string)
| OpMonitor (teamName cwd : string) (workerPaneIds : list string).

Definition run_op `{Host} (w : World) (op : CoreOp) : World :=
  match op with
  | OpAssign teamName taskId targetWorkerName paneId sessionName cwd =>
      (assignTask teamName taskId targetWorkerName paneId sessionName cwd w).1
  | OpMonitor teamName cwd workerPaneIds =>
      (monitorTeam teamName cwd workerPaneIds w).1
  end.

Definition run_ops `{Host} (ops : list CoreOp) (w : World) : World :=
  foldl run_op w ops.

(** A team directory whose task 1 a worker has completed. *)
Definition completed_world : World :=
  {| fs := <[ taskPathOf "/p" "t1" "1.json"
                := File [PJson (JObj [("id", JStr "1"); ("subject", JStr "a");
                                      ("status", JStr "completed");
                                      ("owner", JStr "worker-1");
                                      ("result", JStr "done")])] ]>
           (fs (mkdir (stateRoot "/p" "t1" ++ ["tasks"]) Demo.world0).1);
     mux := Tmux.empty; now := 5000; console := []; naps := 0;
     workers := Demo.silent |}.

(** The text [sendToWorker] types for a message: at most 200 characters. *)
Definition cut200 (message : string) : string :=
  if (200 <? String.length message)%nat then slice0 200 message else message.

(** The server after [text] and Enter were sent to a pane; the server
    itself when it does not know the pane. *)
Definition typed (paneId text : string) (s : Tmux.Server) : Tmux.Server :=
  (Tmux.send_keys paneId (Tmux.KeyName "Enter")
     (Tmux.send_keys paneId (Tmux.Literal text) s).1).1.

(** What a file holds, nothing when there is no such file. *)
Definition content_at (f : FS) (p : Path) : list Piece :=
  match f !! p with
  | Some (File content) => content
  | _ => []
  end.

(** A team directory where [workers] is a regular file. *)
Definition blocked_inbox_world : World :=
  {| fs := <[ stateRoot "/p" "t1" ++ ["workers"] := File [PText "x"] ]>
           (fs (mkdir (stateRoot "/p" "t1" ++ ["tasks"]) Demo.world0).1);
     mux := Tmux.empty; now := 0; console := []; naps := 0;
     workers := Demo.silent |}.

(** [creatable], decided along the prefixes of the path. *)
Definition creatableb (f : FS) (dir : Path) : bool :=
  forallb (λ k, match f !! take k dir with Some (File _) => false | _ => true end)
          (seq 0 (S (List.length dir))).

(** No file can be written at [p]: a regular file stands where a
    directory on the way to it is needed, or [p] is a directory. *)
Definition unwritable (f : FS) (p : Path) : Prop :=
  (∃ q c, q ≠ [] ∧ q `prefix_of` parent p ∧ f !! q = Some (File c))
  ∨ f !! p = Some Dir.

(** A live session for team [t1], and [.omc] a regular file. *)
Definition blocked_state_world : World :=
  {| fs := <[ path_of "/p" ++ [".omc"] := File [PText "x"] ]>
             (fs (mkdir (path_of "/p") Demo.world0).1);
     mux := mux (createTeamSession "t1" 2 "/p" Demo.world0).1;
     now := 0; console := []; naps := 0; workers := Demo.silent |}.

(** A running team whose persisted worker count is the string
    [4294967296]. *)
Definition huge_count_world : World :=
  set_fs (<[ stateRoot "/p" "t1" ++ ["config.json"]
             := File [PJson (JObj [("workerCount", JStr "4294967296")])] ]>
            (fs started_world)) started_world.

(** The length [shutdownTeam] reads from the persisted worker count;
    [None]: the count is an object that cannot be made a primitive. *)
Definition persistedLength `{Host} (f : FS) (root : Path) : option Z :=
  ToLength (nullish_or (get "workerCount" (parsed f (root ++ ["config.json"]))) (JNum 0)).

(** The number of workers [shutdownTeam] waits for. *)
Definition persistedCount `{Host} (f : FS) (root : Path) : Z :=
  default 0 (persistedLength f root).

(** The panes the loop of [createTeamSession] has found after [i] turns,
    when the leader pane is [%n0]. *)
Definition panes_upto (n0 : N) (i : nat) : list string :=
  map (λ k, Tmux.pane_id (n0 + 1 + N.of_nat k)) (seq 0 i).

(** The session [sname] of the server during that loop. *)
Definition session_inv (sname : string) (n0 : N) (i : nat) (s : Tmux.Server) : Prop :=
  Tmux.sessions s !! sname
  = Some {| Tmux.panes := Tmux.pane_id n0 :: panes_upto n0 i;
            Tmux.active := List.last (panes_upto n0 i) (Tmux.pane_id n0) |}
  ∧ Tmux.next_pane s = (n0 + 1 + N.of_nat i)%N
  ∧ ∀ id, id ∈ Tmux.pane_id n0 :: panes_upto n0 i →
          ∃ p, Tmux.pane_info s !! id = Some p ∧ Tmux.pane_session p = sname.

(** One poll of the joint wait for one worker. *)
Definition look (f : FS) (pr : Path * option bool) : Path * option bool :=
  (pr.1, match pr.2 with
         | Some b => Some b
         | None => if existsSync f pr.1 then Some true else None
         end).

Definition scenario_team : TeamConfig :=
  {| teamName := "t1"; workerCount := 2; agentTypes := ["codex"; "codex"];
     tasks := [{| subject := "a"; description := "d" |}]; cwd := "/p" |}.

(** Workers that write their ready sentinel during the first sleep. *)
Definition prompt_workers : nat → FS → FS :=
  λ k f, match k with
         | O => <[readySentinel "t1" "worker-1" "/p" := File []]>
                (<[readySentinel "t1" "worker-2" "/p" := File []]> f)
         | S _ => f
         end.

Definition scenario_world : World :=
  {| fs := ∅; mux := Tmux.empty; now := 1000; console := []; naps := 0;
     workers := prompt_workers |}.

(** The server after [kill-session -t name]; the server itself when the
    target names no session. *)
Definition killed (name : string) (s : Tmux.Server) : Tmux.Server :=
  (Tmux.kill_session name s).1.

(** The server after [new-session -s name] on a server without that
    session. *)
Definition with_session (name : string) (s : Tmux.Server) : Tmux.Server :=
  (Tmux.new_session name s).1.

(** No other session has a name that starts with [name], so that the
    target [name] cannot stand for another session. *)
Definition alone (name : string) (s : Tmux.Server) : Prop :=
  ∀ n, is_Some (Tmux.sessions s !! n) → startsWith n name = true → n = name.

Definition aloneb (name : string) (s : Tmux.Server) : bool :=
  forallb (λ n, implb (startsWith n name) (String.eqb n name))
          (map_to_list (Tmux.sessions s)).*1.

(** A character that tmux reads as itself in the name of a target: no
    pattern character, and neither the colon nor the period that set a
    window and a pane apart. *)
Definition target_char (c : ascii) : bool :=
  negb (existsb (Ascii.eqb c) ["*"; "?"; "["; "\"; ":"; "."]%char).

(** [name] is the one session of the server, which ends with it. *)
Definition only_session (name : string) (s : Tmux.Server) : bool :=
  bool_decide (is_Some (Tmux.sessions s !! name))
  && bool_decide (delete name (Tmux.sessions s) = ∅).

(** The prefix [listActiveSessions] looks for. *)
Definition worker_prefix (team : string) : string := "omc-team-" +:+ team +:+ "-".

(** What [listActiveSessions] makes of the answer of [list-sessions]. *)
Definition listed (team : string) (s : Tmux.Server) : list string :=
  match Tmux.list_sessions s with
  | Some output =>
      map (slice_from (String.length (worker_prefix team)))
          (List.filter (λ n, startsWith n (worker_prefix team))
                       (split "010"%char (trim (stdout_text output))))
  | None => []
  end.

(** [n] stands in [text] between two newlines, or at an end of it. *)
Definition delimited (n text : string) : Prop :=
  ∃ before after,
    text = before +:+ n +:+ after
    ∧ (before = "" ∨ ∃ b, before = b +:+ nl)
    ∧ (after = "" ∨ ∃ a, after = nl +:+ a).

(** No session of the server has white space in its name. *)
Definition tidy_names (s : Tmux.Server) : Prop :=
  ∀ n, is_Some (Tmux.sessions s !! n) →
       n ≠ "" ∧ forall_chars (λ c, negb (is_space c)) n = true.

Section StartCommand.
Context `{Host}.

(** The command line [spawnWorkerInPane] types into the pane. *)
Definition startCommand (config : WorkerPaneConfig) : string :=
  let envString :=
    String.concat " " (map (λ '(k, v), k +:+ "=" +:+ v) (envVars config)) in
  let shell := or_else env_SHELL "/bin/bash" in
  let shellName := or_else (Some (last_segment "" shell)) "bash" in
  let rcFile := match or_else env_HOME "" with
                | "" => ""
                | home => home +:+ "/." +:+ shellName +:+ "rc"
                end in
  let sourceCmd := match rcFile with
                   | "" => ""
                   | _ => "[ -f " +:+ dquote +:+ rcFile +:+ dquote +:+ " ] && source "
                          +:+ dquote +:+ rcFile +:+ dquote +:+ "; "
                   end in
  "env " +:+ envString +:+ " " +:+ shell +:+ " -c " +:+ dquote
  +:+ sourceCmd +:+ "exec " +:+ launchCmd config +:+ dquote.

End StartCommand.

(** A session of three panes where the user has selected the second. *)
Definition selected_pane_world : World :=
  {| fs := ∅;
     mux := {| Tmux.sessions :=
                 {[ "omc-team-t1" := {| Tmux.panes := ["%0"; "%1"; "%2"];
                                        Tmux.active := "%1" |} ]};
               Tmux.pane_info :=
                 {[ "%0" := Tmux.fresh_pane "omc-team-t1";
                    "%1" := Tmux.fresh_pane "omc-team-t1";
                    "%2" := {| Tmux.pane_session := "omc-team-t1";
                               Tmux.pane_dead := false;
                               Tmux.pane_keys := [Tmux.Literal "claude";
                                                  Tmux.KeyName "Enter"] |} ]};
               Tmux.next_pane := 3 |};
     now := 0; console := []; naps := 0; workers := Demo.silent |}.

Definition respawn_config : WorkerPaneConfig :=
  {| TmuxSession.teamName := "t1"; TmuxSession.workerName := "worker-1";
     envVars := [("OMC_TEAM_WORKER", "t1/worker-1")]; launchCmd := "claude";
     TmuxSession.cwd := "/p" |}.


(** The record [assignTask] writes for a record with [fields], assigned
    at time [t]. *)
Definition assignedRecord `{Host} (fields : list (string * JSON)) (target : string)
    (t : Z) : JSON :=
  JObj (assoc_set "assignedAt" (JStr (Date_toISOString t))
          (assoc_set "status" (JStr "in_progress")
             (assoc_set "owner" (JStr target) fields))).

(** A team directory whose task 1 holds the number 5. *)
Definition number_task_world : World :=
  {| fs := <[ taskPathOf "/p" "t1" "1.json" := File [PJson (JNum 5)] ]>
           (fs (mkdir (stateRoot "/p" "t1" ++ ["tasks"]) Demo.world0).1);
     mux := Tmux.empty; now := 0; console := []; naps := 0;
     workers := Demo.silent |}.

(** The line [monitorTeam] logs for a stalled worker. *)
Definition stallWarning (st : WorkerStatus) : string :=
  "[runtime] Worker " +:+ ws_workerName st +:+ " appears stalled (no heartbeat for 60s)".

(** The workers [shutdownTeam] expects an ack from, for a persisted
    worker count. *)
Definition expectedAcks (workerCount : Z) : list string :=
  map (λ i, "worker-" +:+ String_of (Z.of_nat i + 1)) (range workerCount).

Definition ackPath (root : Path) (wName : string) : Path :=
  root ++ ["workers"; wName; "shutdown-ack.json"].

(** No worker to wait for has acked. *)
Definition no_acks (root : Path) (acks : list string) (f : FS) : Prop :=
  ∀ wName, wName ∈ acks → existsSync f (ackPath root wName) = false.

(** The status of a worker whose pane is gone and who has left no
    heartbeat. *)
Definition goneStatus (i : nat) (paneId : string) : WorkerStatus :=
  {| ws_workerName := "worker-" +:+ String_of (Z.of_nat i + 1); alive := false;
     paneId := paneId; currentTaskId := None; lastHeartbeat := None; stalled := false |}.

(** Run from a world without the session [other], the computation ends
    in a world without it. *)
Definition keeps_absent {A} (other : string) (m : M A) : Prop :=
  ∀ w w' r, Tmux.sessions (mux w) !! other = None → m w = (w', r) →
            Tmux.sessions (mux w') !! other = None.


Section Prepare.
Context `{Host} `{Collaborators}.

(** [startTeam] up to the creation of the session: validation, the state
    directories, the config, the task files and the set-up of the
    workers. *)
Definition prepare (config : TeamConfig) : M (list string) :=
  forM_ (Set_values (agentTypes config)) validate;;
  let root := stateRoot (cwd config) (teamName config) in
  mkdir (root ++ ["tasks"]);;
  mkdir (root ++ ["mailbox"]);;
  writeJson (root ++ ["config.json"]) (json_of_config config);;
  createTaskFiles root (tasks config);;
  foldM (range (workerCount config)) (setupWorker config) [].

End Prepare.

(** A team whose name has no valid character. *)
Definition nameless_team : TeamConfig :=
  {| teamName := "_"; workerCount := 1; agentTypes := ["claude"];
     tasks := [{| subject := "a"; description := "d" |}]; cwd := "/p" |}.

(** * Properties *)

(** ** Names *)

Section NameChars.
Variable keep : ascii → bool.

Lemma filter_chars_keeps s : forall_chars keep (filter_chars keep s) = true.
Proof.
  induction s as [|c s IH]; [reflexivity|].
  simpl. destruct (keep c) eqn:Hc; [|exact IH].
  unfold forall_chars in *. simpl. by rewrite Hc, IH.
Qed.

Lemma filter_chars_fixed s : forall_chars keep s = true → filter_chars keep s = s.
Proof.
  unfold forall_chars. induction s as [|c s IH]; [reflexivity|].
  simpl. intros [Hc Hs]%andb_prop. rewrite Hc. by rewrite IH.
Qed.

Lemma slice0_chars n s : forall_chars keep s = true → forall_chars keep (slice0 n s) = true.
Proof.
  unfold forall_chars. revert s. induction n as [|n IH]; intros [|c s]; try reflexivity.
  simpl. intros [Hc Hs]%andb_prop. by rewrite Hc, IH.
Qed.
End NameChars.

Lemma slice0_length n s : String.length (slice0 n s) = (n `min` String.length s)%nat.
Proof.
  revert s. induction n as [|n IH]; intros [|c s]; try reflexivity.
  simpl. by rewrite IH.
Qed.

Lemma slice0_short n s : (String.length s ≤ n)%nat → slice0 n s = s.
Proof.
  revert s. induction n as [|n IH]; intros [|c s]; simpl; intros Hle; try reflexivity; try lia.
  rewrite IH; [reflexivity | lia].
Qed.

Lemma sanitizeName_Ok name :
  (2 ≤ String.length (filter_chars name_char name))%nat →
  sanitizeName name = Ok (slice0 50 (filter_chars name_char name)).
Proof.
  intros Hlen. unfold sanitizeName.
  destruct (Nat.eqb_spec (String.length (filter_chars name_char name)) 0); [lia|].
  destruct (Nat.ltb_spec (String.length (filter_chars name_char name)) 2); [lia|].
  reflexivity.
Qed.

Lemma sanitizeName_Throw name :
  (String.length (filter_chars name_char name) < 2)%nat →
  ∃ e, sanitizeName name = Throw e.
Proof.
  intros Hlen. unfold sanitizeName.
  destruct (Nat.eqb_spec (String.length (filter_chars name_char name)) 0); [eauto|].
  destruct (Nat.ltb_spec (String.length (filter_chars name_char name)) 2); [eauto|lia].
Qed.

Lemma sanitizeName_inv name out :
  sanitizeName name = Ok out →
  out = slice0 50 (filter_chars name_char name)
  ∧ (2 ≤ String.length (filter_chars name_char name))%nat.
Proof.
  intros Hs.
  destruct (Nat.lt_ge_cases (String.length (filter_chars name_char name)) 2) as [Hlt|Hge].
  - destruct (sanitizeName_Throw name Hlt) as [e He]. congruence.
  - rewrite (sanitizeName_Ok name Hge) in Hs. by inversion Hs.
Qed.

(** C6.  [sanitizeName] keeps exactly the characters of [[A-Za-z0-9-]]
    (a name made of such characters only loses none), throws exactly when
    fewer than 2 of them remain, otherwise returns the first 50 of them,
    and maps each of its results to itself. *)
Theorem sanitizeName_spec (name : string) :
  let kept := filter_chars name_char name in
  forall_chars name_char kept = true
  ∧ (forall_chars name_char name = true → kept = name)
  ∧ ((String.length kept < 2)%nat ↔ ∃ e, sanitizeName name = Throw e)
  ∧ ((2 ≤ String.length kept)%nat ↔ sanitizeName name = Ok (slice0 50 kept))
  ∧ (∀ out, sanitizeName name = Ok out →
       out = slice0 50 kept
       ∧ forall_chars name_char out = true
       ∧ (2 ≤ String.length out ≤ 50)%nat
       ∧ sanitizeName out = Ok out).
Proof.
  intros kept. subst kept.
  split; [apply filter_chars_keeps|].
  split; [apply filter_chars_fixed|].
  split.
  { split; [apply sanitizeName_Throw|].
    intros [e He].
    destruct (Nat.lt_ge_cases (String.length (filter_chars name_char name)) 2) as [Hlt|Hge];
      [done|]. rewrite (sanitizeName_Ok name Hge) in He. discriminate. }
  split.
  { split; [apply sanitizeName_Ok|]. intros Hs. by apply sanitizeName_inv in Hs as [_ ?]. }
  intros out Hout. apply sanitizeName_inv in Hout as [-> Hlen].
  assert (Hchars : forall_chars name_char (slice0 50 (filter_chars name_char name)) = true)
    by apply slice0_chars, filter_chars_keeps.
  assert (Hl : (2 ≤ String.length (slice0 50 (filter_chars name_char name)) ≤ 50)%nat)
    by (rewrite slice0_length; lia).
  repeat split; try done; try lia.
  rewrite sanitizeName_Ok; rewrite (filter_chars_fixed _ _ Hchars); [|lia].
  f_equal. apply slice0_short. lia.
Qed.

(** Witness for C6: a name with an underscore and a 60-character name. *)
Lemma sanitizeName_spec_witness :
  sanitizeName "my_team" = Ok "myteam"
  ∧ sanitizeName "myteam" = Ok "myteam"
  ∧ (∃ e, sanitizeName "_x_" = Throw e).
Proof.
  destruct (sanitizeName_spec "my_team") as (_ & _ & _ & Hok & Hidem).
  destruct (sanitizeName_spec "_x_") as (_ & _ & Hthrow & _).
  assert (H1 : sanitizeName "my_team" = Ok "myteam") by (apply Hok; vm_compute; lia).
  split; [exact H1|].
  split; [apply (Hidem _ H1)|].
  apply Hthrow. vm_compute. lia.
Defined.

(** ** Strings *)

Lemma string_app_cons (x : ascii) (a b : string) : String x a +:+ b = String x (a +:+ b).
Proof. reflexivity. Qed.

Lemma string_app_assoc (a b c : string) : (a +:+ b) +:+ c = a +:+ b +:+ c.
Proof. induction a as [|x a IH]; [reflexivity|]. rewrite !string_app_cons. by f_equal. Qed.

Lemma string_app_nil_r (a : string) : a +:+ "" = a.
Proof. induction a as [|x a IH]; [reflexivity|]. rewrite string_app_cons. by f_equal. Qed.

Lemma string_app_length (a b : string) :
  String.length (a +:+ b) = (String.length a + String.length b)%nat.
Proof.
  induction a as [|x a IH]; [reflexivity|]. rewrite string_app_cons. simpl. by f_equal.
Qed.

Lemma forall_chars_app (p : ascii → bool) (a b : string) :
  forall_chars p (a +:+ b) = forall_chars p a && forall_chars p b.
Proof.
  unfold forall_chars. induction a as [|x a IH]; [reflexivity|].
  rewrite string_app_cons. simpl. by rewrite IH, andb_assoc.
Qed.

Lemma startsWith_app (prefix x : string) : startsWith (prefix +:+ x) prefix = true.
Proof.
  induction prefix as [|c prefix IH]; [by destruct x|].
  rewrite string_app_cons. simpl. by rewrite Ascii.eqb_refl.
Qed.

Lemma slice_from_app (prefix x : string) :
  slice_from (String.length prefix) (prefix +:+ x) = x.
Proof. induction prefix as [|c prefix IH]; [by destruct x|]. exact IH. Qed.

Lemma startsWith_inv (s prefix : string) :
  startsWith s prefix = true → s = prefix +:+ slice_from (String.length prefix) s.
Proof.
  revert s. induction prefix as [|c prefix IH]; intros s Hs; [by destruct s|].
  destruct s as [|d s]; [discriminate|]. simpl in Hs.
  apply andb_prop in Hs as [Hc Hs]. apply Ascii.eqb_eq in Hc as ->.
  rewrite string_app_cons. simpl. f_equal. by apply IH.
Qed.

(** *** Splitting at a separator *)

Lemma split_cons (sep : ascii) (s : string) : ∃ piece pieces, split sep s = piece :: pieces.
Proof.
  induction s as [|c s (piece & pieces & IH)]; [by eexists _, _|].
  simpl. destruct (Ascii.eqb c sep); [by eexists _, _|]. rewrite IH. by eexists _, _.
Qed.

Lemma split_app (sep : ascii) (a b : string) :
  split sep (a +:+ String sep b) = split sep a ++ split sep b.
Proof.
  induction a as [|c a IH]; [simpl; by rewrite Ascii.eqb_refl|].
  rewrite string_app_cons. simpl.
  destruct (Ascii.eqb c sep); [by rewrite IH|].
  rewrite IH. by destruct (split_cons sep a) as (piece & pieces & ->).
Qed.

Lemma split_whole (sep : ascii) (s : string) :
  forall_chars (λ c, negb (Ascii.eqb c sep)) s = true → split sep s = [s].
Proof.
  unfold forall_chars. induction s as [|c s IH]; [reflexivity|].
  simpl. intros [Hc Hs]%andb_prop. apply negb_true_iff in Hc. rewrite Hc.
  by rewrite IH.
Qed.

Lemma split_pieces (sep : ascii) (s piece : string) :
  piece ∈ split sep s → forall_chars (λ c, negb (Ascii.eqb c sep)) piece = true.
Proof.
  revert piece. induction s as [|c s IH]; intros piece.
  - simpl. by intros ->%list_elem_of_singleton.
  - simpl. destruct (Ascii.eqb c sep) eqn:Hc.
    + intros [->|Hin]%elem_of_cons; [reflexivity | by apply IH].
    + destruct (split_cons sep s) as (first & pieces & Hs). rewrite Hs in *.
      intros [->|Hin]%elem_of_cons.
      * unfold forall_chars. simpl. rewrite Hc. simpl. apply IH. by left.
      * apply IH. by right.
Qed.

(** A suffix without the separator goes to the last piece. *)
Lemma split_suffix (sep : ascii) (s t : string) :
  forall_chars (λ c, negb (Ascii.eqb c sep)) t = true →
  ∃ init piece, split sep s = init ++ [piece]
                ∧ split sep (s +:+ t) = init ++ [piece +:+ t].
Proof.
  intros Ht. induction s as [|c s (init & piece & Hs & Hst)].
  - exists [], "". split; [reflexivity|]. by apply split_whole.
  - rewrite string_app_cons. simpl. destruct (Ascii.eqb c sep).
    + exists ("" :: init), piece. by rewrite Hs, Hst.
    + rewrite Hs, Hst. destruct init as [|first init].
      * by exists [], (String c piece).
      * by exists (String c first :: init), piece.
Qed.

(** ** Running the monad *)

Section Run.
Context {A B : Type}.
Implicit Types (m : M A) (k : A → M B) (w : World).

Lemma run_bind_Ok m k w w' a : m w = (w', Ok a) → (m ≫= k) w = k a w'.
Proof. intros Hm. unfold mbind, M_bind, bind. by rewrite Hm. Qed.

Lemma run_bind_Throw m k w w' e : m w = (w', Throw e) → (m ≫= k) w = (w', Throw e).
Proof. intros Hm. unfold mbind, M_bind, bind. by rewrite Hm. Qed.

Lemma run_bind_OutOfFuel m k w w' : m w = (w', OutOfFuel) → (m ≫= k) w = (w', OutOfFuel).
Proof. intros Hm. unfold mbind, M_bind, bind. by rewrite Hm. Qed.

Lemma run_ret (a : A) w : (mret a : M A) w = (w, Ok a).
Proof. reflexivity. Qed.

Lemma run_try_Ok m (h : Error → M A) w w' a :
  m w = (w', Ok a) → try_catch m h w = (w', Ok a).
Proof. intros Hm. unfold try_catch. by rewrite Hm. Qed.

Lemma run_try_Throw m (h : Error → M A) w w' e :
  m w = (w', Throw e) → try_catch m h w = h e w'.
Proof. intros Hm. unfold try_catch. by rewrite Hm. Qed.
End Run.

(** Steps over a bind whose first computation is known to return. *)
Tactic Notation "run_ok" uconstr(H) := rewrite (run_bind_Ok _ _ _ _ _ H).

Lemma set_fs_same w : set_fs (fs w) w = w.
Proof. by destruct w. Qed.

Lemma set_mux_same w : set_mux (mux w) w = w.
Proof. by destruct w. Qed.

Lemma quiet_step_refl w : quiet_step w w.
Proof. by repeat split. Qed.

Lemma quiet_step_trans w1 w2 w3 : quiet_step w1 w2 → quiet_step w2 w3 → quiet_step w1 w3.
Proof. unfold quiet_step. intros (?&?&?&?&?) (?&?&?&?&?). repeat split; congruence. Qed.

Lemma console_warn_run line w :
  ∃ w', console_warn line w = (w', Ok tt) ∧ quiet_step w w'
        ∧ console w' = console w ++ [line].
Proof. eexists. split; [reflexivity|]. by repeat split. Qed.

(** A loop whose turns are quiet and come to a value that depends on the
    file system, the server and the clock only. *)
Lemma foldM_quiet {X S} (body : S → X → M S) (g : World → S → X → S) (l : list X) :
  (∀ w w', quiet_step w w' → ∀ s x, g w' s x = g w s x) →
  (∀ s x w, ∃ w', body s x w = (w', Ok (g w s x)) ∧ quiet_step w w') →
  ∀ s w, ∃ w', foldM l body s w = (w', Ok (foldl (g w) s l)) ∧ quiet_step w w'.
Proof.
  intros Hg Hbody. induction l as [|x l IH]; intros s w.
  - exists w. split; [reflexivity | apply quiet_step_refl].
  - destruct (Hbody s x w) as (w1 & Hrun & Hq1).
    destruct (IH (g w s x) w1) as (w2 & Hrest & Hq2).
    exists w2. split; [|by eapply quiet_step_trans].
    simpl. rewrite (run_bind_Ok _ _ _ _ _ Hrun), Hrest.
    do 2 f_equal. clear -Hg Hq1. generalize (g w s x) as s0.
    induction l as [|y l IHl]; intros s0; [reflexivity|].
    simpl. by rewrite (Hg w w1 Hq1), IHl.
Qed.

(** The same for turns that throw where [ok] does not hold: the loop
    stops at the first of them. *)
Lemma foldM_quiet_until {X S} (body : S → X → M S) (g : World → S → X → S)
    (ok : World → X → bool) (e : Error) (l : list X) :
  (∀ w w', quiet_step w w' → ∀ s x, g w' s x = g w s x ∧ ok w' x = ok w x) →
  (∀ s x w, ∃ w', body s x w = (w', if ok w x then Ok (g w s x) else Throw e)
                  ∧ quiet_step w w') →
  ∀ s w, ∃ w', foldM l body s w
               = (w', if forallb (ok w) l then Ok (foldl (g w) s l) else Throw e)
               ∧ quiet_step w w'.
Proof.
  intros Hg Hbody. induction l as [|x l IH]; intros s w.
  - exists w. split; [reflexivity | apply quiet_step_refl].
  - destruct (Hbody s x w) as (w1 & Hrun & Hq1). cbn [forallb foldM foldl].
    destruct (ok w x) eqn:Hok.
    + destruct (IH (g w s x) w1) as (w2 & Hrest & Hq2).
      exists w2. split; [|by eapply quiet_step_trans].
      rewrite (run_bind_Ok _ _ _ _ _ Hrun), Hrest. cbn [andb].
      assert (Hall : forallb (ok w1) l = forallb (ok w) l).
      { clear -Hg Hq1 s. induction l as [|y l IHl]; [reflexivity|].
        cbn [forallb]. by rewrite (proj2 (Hg w w1 Hq1 s y)), IHl. }
      rewrite Hall. destruct (forallb (ok w) l); [|reflexivity].
      do 2 f_equal. clear -Hg Hq1. generalize (g w s x) as s0.
      induction l as [|y l IHl]; intros s0; [reflexivity|].
      cbn [foldl]. by rewrite (proj1 (Hg w w1 Hq1 s0 y)), IHl.
    + exists w1. split; [|exact Hq1].
      by rewrite (run_bind_Throw _ _ _ _ _ Hrun).
Qed.

(** A loop whose turns leave the world alone. *)
Lemma foldM_pure {X S} (body : S → X → M S) (g : S → X → S) (l : list X) w :
  (∀ s x, body s x w = (w, Ok (g s x))) →
  ∀ s, foldM l body s w = (w, Ok (foldl g s l)).
Proof.
  intros Hbody. induction l as [|x l IH]; intros s; [reflexivity|].
  cbn [foldM foldl]. by rewrite (run_bind_Ok _ _ _ _ _ (Hbody s x)).
Qed.

(** ** Reading the file system *)

Lemma readJsonSafe_run p w : readJsonSafe p w = (w, Ok (parsed (fs w) p)).
Proof.
  unfold readJsonSafe, parsed, try_catch, fs_readFile, mbind, M_bind, bind.
  destruct (readFile (fs w) p) as [content|e]; [|reflexivity].
  by destruct (JSON_parse content).
Qed.

Lemma isWorkerAlive_run p w : isWorkerAlive p w = (w, Ok (paneAlive (mux w) p)).
Proof.
  unfold isWorkerAlive, paneAlive, try_catch, mbind, M_bind, bind, tmux, Tmux.exec.
  change (Tmux.run ["display-message"; "-t"; p; "-p"; "#{pane_dead}"] (mux w))
    with (mux w, Tmux.display_message p "#{pane_dead}" (mux w)).
  destruct (Tmux.display_message p "#{pane_dead}" (mux w)); simpl;
    by rewrite set_mux_same.
Qed.

(** ** [monitorTeam] as a function of the world it looks at *)

Section Monitor.
Context `{Host}.

Lemma readTaskCounts_run root w : readTaskCounts root w = (w, Ok (countsOf (fs w) root)).
Proof.
  unfold readTaskCounts, countsOf, fs_readdir.
  destruct (readdir (fs w) (root ++ ["tasks"])) as [names|e] eqn:Hdir.
  - apply run_try_Ok. erewrite run_bind_Ok; [|by rewrite Hdir].
    apply foldM_pure. intros c name.
    by rewrite (run_bind_Ok _ _ _ _ _ (readJsonSafe_run _ w)).
  - erewrite run_try_Throw; [reflexivity|].
    erewrite run_bind_Throw; [reflexivity|]. by rewrite Hdir.
Qed.

Lemma Date_getTime_convertible (v : JSON) :
  Date_getTime v = None ↔ ToString v = None.
Proof.
  destruct v; cbn -[ToString]; try (split; discriminate).
  - by destruct (ToString (JArr items)).
  - by destruct (ToString (JObj fields)).
Qed.

Lemma falsy_convertible (v : JSON) : truthy v = false → is_Some (ToString v).
Proof. destruct v; cbn; try discriminate; by eexists. Qed.

Lemma detectStall_run heartbeat w :
  detectStall heartbeat w
  = (w, if convertible heartbeat then Ok (staleAt (now w) heartbeat)
        else Throw unconvertible).
Proof.
  unfold detectStall, staleAt, convertible.
  destruct (get "updatedAt" heartbeat) as [v|]; [|reflexivity].
  destruct (truthy v) eqn:Htruthy.
  - unfold new_Date_getTime, mbind, M_bind, bind, Date_now.
    destruct (Date_getTime v) as [u|] eqn:Htime.
    + destruct (ToString v) eqn:Hstr; [reflexivity|].
      apply Date_getTime_convertible in Hstr. congruence.
    + apply Date_getTime_convertible in Htime. by rewrite Htime.
  - destruct (falsy_convertible v Htruthy) as [s ->]. reflexivity.
Qed.

Lemma statusOf_quiet w w' root ip : quiet_step w w' → statusOf w' root ip = statusOf w root ip.
Proof. intros (Hf & Hm & Hn & _). destruct ip. unfold statusOf. by rewrite Hf, Hm, Hn. Qed.

Lemma checkWorker_run root acc ip w :
  ∃ w', checkWorker root acc ip w
        = (w', if convertible (heartbeatOf (fs w) root ip.1)
               then Ok (checkWorker_step w root acc ip) else Throw unconvertible)
        ∧ quiet_step w w'.
Proof.
  destruct acc as [ws dead], ip as [i p]. unfold checkWorker.
  run_ok (isWorkerAlive_run p w).
  run_ok (readJsonSafe_run _ w).
  pose proof (detectStall_run (heartbeatOf (fs w) root i) w) as Hstall.
  unfold heartbeatOf in *. cbn [fst].
  destruct (convertible _) eqn:Hconv; cycle 1.
  { exists w. split; [|apply quiet_step_refl].
    by rewrite (run_bind_Throw _ _ _ _ _ Hstall). }
  run_ok Hstall.
  unfold checkWorker_step, statusOf, heartbeatOf. simpl.
  destruct (staleAt _ _) eqn:Hst.
  - destruct (console_warn_run
                ("[runtime] Worker " +:+ ("worker-" +:+ String_of (Z.of_nat i + 1))
                 +:+ " appears stalled (no heartbeat for 60s)") w) as (w' & Hw & Hq & _).
    exists w'. split; [|done]. by rewrite (run_bind_Ok _ _ _ _ _ Hw).
  - exists w. split; [reflexivity | apply quiet_step_refl].
Qed.

Lemma checkWorker_steps w root ips ws dead :
  foldl (checkWorker_step w root) (ws, dead) ips
  = (ws ++ map (statusOf w root) ips,
     dead ++ map ws_workerName
                 (List.filter (λ st, negb (alive st)) (map (statusOf w root) ips))).
Proof.
  revert ws dead. induction ips as [|ip ips IH]; intros ws dead; simpl.
  - by rewrite !app_nil_r.
  - unfold checkWorker_step at 2. simpl. rewrite IH.
    destruct (alive (statusOf w root ip)); simpl; by rewrite <- !app_assoc.
Qed.

(** [monitorTeam] changes nothing but the console; it returns the
    snapshot [snapshotOf] when every heartbeat it looks at is [readable],
    and throws at the first that is not. *)
Lemma monitorTeam_run teamName cwd workerPaneIds w :
  ∃ w', monitorTeam teamName cwd workerPaneIds w
        = (w', if readable (fs w) (stateRoot cwd teamName) workerPaneIds
               then Ok (snapshotOf w teamName cwd workerPaneIds)
               else Throw unconvertible)
        ∧ quiet_step w w'.
Proof.
  unfold monitorTeam.
  run_ok (readTaskCounts_run _ w).
  destruct (foldM_quiet_until (checkWorker (stateRoot cwd teamName))
              (λ w, checkWorker_step w (stateRoot cwd teamName))
              (λ w ip, convertible (heartbeatOf (fs w) (stateRoot cwd teamName) ip.1))
              unconvertible
              (imap (λ i p, (i, p)) workerPaneIds))
    with (s := ([] : list WorkerStatus, [] : list string)) (w := w)
    as (w' & Hrun & Hq).
  { intros w1 w2 Hq s x. unfold checkWorker_step.
    rewrite (statusOf_quiet _ _ _ _ Hq). destruct Hq as (-> & _). done. }
  { intros s x w1. apply checkWorker_run. }
  exists w'. split; [|done]. unfold readable.
  destruct (forallb _ _).
  - rewrite (run_bind_Ok _ _ _ _ _ Hrun), checkWorker_steps. reflexivity.
  - by rewrite (run_bind_Throw _ _ _ _ _ Hrun).
Qed.

Lemma readable_spec f root workerPaneIds :
  readable f root workerPaneIds = true
  ↔ ∀ i, (i < List.length workerPaneIds)%nat → convertible (heartbeatOf f root i) = true.
Proof.
  unfold readable. rewrite forallb_forall. split.
  - intros Hall i Hi. destruct (lookup_lt_is_Some_2 workerPaneIds i Hi) as [p Hp].
    apply (Hall (i, p)). apply list_elem_of_In, list_elem_of_lookup. exists i.
    by rewrite list_lookup_imap, Hp.
  - intros Hall [i p] Hin. apply list_elem_of_In, list_elem_of_lookup in Hin as [k Hk].
    rewrite list_lookup_imap in Hk. destruct (workerPaneIds !! k) eqn:Hp; [|done].
    injection Hk as <- <-. apply Hall. by eapply lookup_lt_Some.
Qed.

End Monitor.

(** ** The phase of a snapshot *)

Lemma inferPhase_table (c : TaskCounts) :
  (inferPhase c = "planning"
     ↔ (0 < pending c ∧ inProgress c = 0 ∧ completed c = 0)%nat)
  ∧ (inferPhase c = "completed"
     ↔ (pending c = 0 ∧ inProgress c = 0 ∧ 0 < completed c ∧ failed c = 0)%nat)
  ∧ (inferPhase c = "fixing"
     ↔ (pending c = 0 ∧ inProgress c = 0 ∧ 0 < failed c)%nat)
  ∧ (inferPhase c = "executing"
     ↔ ¬ (0 < pending c ∧ inProgress c = 0 ∧ completed c = 0)%nat
       ∧ ¬ (pending c = 0 ∧ inProgress c = 0 ∧ 0 < completed c ∧ failed c = 0)%nat
       ∧ ¬ (pending c = 0 ∧ inProgress c = 0 ∧ 0 < failed c)%nat).
Proof.
  destruct c as [[|p] [|i] [|co] [|f]]; cbn;
    repeat split; intros; try discriminate; try lia.
Qed.

(** C1.  [monitorTeam] returns a snapshot, unless the [updatedAt] of a
    heartbeat it looks at cannot be made a primitive, where it throws
    that TypeError.  The phase of a snapshot it returns is the function
    [inferPhase] of the four task counts of that snapshot, which follows
    the table of the specification for all counts: planning iff
    pending>0, inProgress=0, completed=0; completed iff pending=0,
    inProgress=0, completed>0, failed=0; fixing iff pending=0,
    inProgress=0, failed>0; executing in every other case. *)
Theorem monitorTeam_phase `{Host} (teamName cwd : string) (workerPaneIds : list string)
    (w : World) :
  ∃ w' r,
    monitorTeam teamName cwd workerPaneIds w = (w', r)
    ∧ match r with
      | Ok snap =>
          readable (fs w) (stateRoot cwd teamName) workerPaneIds = true
          ∧ phase snap = inferPhase (taskCounts snap)
      | Throw e =>
          readable (fs w) (stateRoot cwd teamName) workerPaneIds = false
          ∧ e = unconvertible
      | OutOfFuel => False
      end
    ∧ ∀ c : TaskCounts,
        (inferPhase c = "planning"
           ↔ (0 < pending c ∧ inProgress c = 0 ∧ completed c = 0)%nat)
        ∧ (inferPhase c = "completed"
           ↔ (pending c = 0 ∧ inProgress c = 0 ∧ 0 < completed c ∧ failed c = 0)%nat)
        ∧ (inferPhase c = "fixing"
           ↔ (pending c = 0 ∧ inProgress c = 0 ∧ 0 < failed c)%nat)
        ∧ (inferPhase c = "executing"
           ↔ ¬ (0 < pending c ∧ inProgress c = 0 ∧ completed c = 0)%nat
             ∧ ¬ (pending c = 0 ∧ inProgress c = 0 ∧ 0 < completed c ∧ failed c = 0)%nat
             ∧ ¬ (pending c = 0 ∧ inProgress c = 0 ∧ 0 < failed c)%nat).
Proof.
  destruct (monitorTeam_run teamName cwd workerPaneIds w) as (w' & Hrun & _).
  eexists w', _. split; [exact Hrun|]. split; [|apply inferPhase_table].
  by destruct (readable _ _ _).
Qed.

(** ** Stalled workers *)

Lemma parsed_missing (f : FS) (p : Path) : p ≠ [] → f !! p = None → parsed f p = JNull.
Proof.
  intros Hp Hnone. unfold parsed, readFile, node_at.
  destruct p; [done|]. by rewrite Hnone.
Qed.

Lemma parsed_file (f : FS) (p : Path) content v :
  p ≠ [] → f !! p = Some (File content) → JSON_parse content = Some v → parsed f p = v.
Proof.
  intros Hp Hfile Hv. unfold parsed, readFile, node_at.
  destruct p; [done|]. by rewrite Hfile, Hv.
Qed.

Lemma snapshot_worker `{Host} w teamName cwd workerPaneIds i p :
  workerPaneIds !! i = Some p →
  snap_workers (snapshotOf w teamName cwd workerPaneIds) !! i
  = Some (statusOf w (stateRoot cwd teamName) (i, p)).
Proof.
  intros Hi. unfold snapshotOf. cbn [snap_workers].
  rewrite list_lookup_fmap, list_lookup_imap, Hi. reflexivity.
Qed.

(** C2, amended.  For the worker at index [i] of the panes given to
    [monitorTeam], in a snapshot it returns: without a heartbeat file, or
    with one that does not parse, the status has [stalled = false]; with
    a heartbeat whose [updatedAt] is truthy and is the instant [u],
    [stalled] is [true] when [now - u > 60000] and [false] when
    [now - u ≤ 60000]; and in no other case is it [true]: a heartbeat
    whose [updatedAt] is missing, falsy or no date is not stalled.
    [monitorTeam] returns that snapshot when every heartbeat is
    readable. *)
Theorem monitorTeam_stalled `{Host} (teamName cwd : string) (workerPaneIds : list string)
    (w : World) (i : nat) (pane : string) :
  workerPaneIds !! i = Some pane →
  ∃ w' r,
    monitorTeam teamName cwd workerPaneIds w = (w', r)
    ∧ (readable (fs w) (stateRoot cwd teamName) workerPaneIds = true → is_Ok r = true)
    ∧ ∀ snap, r = Ok snap →
      ∃ st,
        snap_workers snap !! i = Some st
        ∧ ws_workerName st = workerName i
        ∧ paneId st = pane
        ∧ let heartbeatPath :=
            stateRoot cwd teamName ++ ["workers"; workerName i; "heartbeat.json"] in
          (fs w !! heartbeatPath = None → stalled st = false)
          ∧ (∀ content, fs w !! heartbeatPath = Some (File content) →
                        JSON_parse content = None → stalled st = false)
          ∧ (∀ content heartbeat,
               fs w !! heartbeatPath = Some (File content) →
               JSON_parse content = Some heartbeat →
               (∀ updatedAt u,
                  get "updatedAt" heartbeat = Some updatedAt →
                  truthy updatedAt = true →
                  Date_getTime updatedAt = Some (Some u) →
                  (60000 < now w - u → stalled st = true)
                  ∧ (now w - u ≤ 60000 → stalled st = false))
               ∧ (stalled st = true →
                  ∃ updatedAt u,
                    get "updatedAt" heartbeat = Some updatedAt
                    ∧ truthy updatedAt = true
                    ∧ Date_getTime updatedAt = Some (Some u)
                    ∧ 60000 < now w - u)).
Proof.
  intros Hi.
  destruct (monitorTeam_run teamName cwd workerPaneIds w) as (w' & Hrun & _).
  eexists w', _. split; [exact Hrun|]. split.
  { intros ->. reflexivity. }
  intros snap Hsnap. destruct (readable _ _ _); [|discriminate].
  injection Hsnap as <-.
  exists (statusOf w (stateRoot cwd teamName) (i, pane)).
  split; [by apply snapshot_worker|].
  split; [reflexivity|]. split; [reflexivity|].
  assert (Hpath : stateRoot cwd teamName ++ ["workers"; workerName i; "heartbeat.json"]
                  ≠ []) by (by destruct (stateRoot cwd teamName)).
  cbn zeta. unfold statusOf, heartbeatOf. fold (workerName i). cbn [stalled].
  split; [|split].
  - intros Hnone. by rewrite parsed_missing.
  - intros content Hfile Hparse. unfold parsed, readFile, node_at.
    destruct (stateRoot cwd teamName ++ _) eqn:Hp; [done|].
    by rewrite Hfile, Hparse.
  - intros content heartbeat Hfile Hparse.
    erewrite parsed_file; [| exact Hpath | exact Hfile | exact Hparse].
    unfold staleAt. split.
    + intros updatedAt u -> -> ->. cbn [andb]. split; intros Hage.
      * by apply Z.ltb_lt.
      * apply Z.ltb_ge. lia.
    + destruct (get "updatedAt" heartbeat) as [v|]; [|discriminate].
      destruct (truthy v) eqn:Htruthy; [|discriminate].
      destruct (Date_getTime v) as [[u|]|] eqn:Htime; try discriminate.
      cbn [andb]. intros Hlt%Z.ltb_lt. by exists v, u.
Qed.

(** C2, the claim as stated, fails: at time 100000 the heartbeat of
    worker-1 is present and its [updatedAt] is the time 0, so its age is
    above 60000 ms, yet [monitorTeam] reports [stalled = false]: the
    number 0 is falsy, and the age of a falsy [updatedAt] is not looked
    at. *)
Lemma monitorTeam_stalled_counterexample :
  match (monitorTeam (H := Demo.host) "t1" "/p" ["%1"] epoch_world).2 with
  | Ok snap =>
      (stalled <$> snap_workers snap !! 0%nat) = Some false
      ∧ get "updatedAt" (heartbeatOf (fs epoch_world) (stateRoot "/p" "t1") 0)
        = Some (JNum 0)
      ∧ Date_getTime (H := Demo.host) (JNum 0) = Some (Some 0)
      ∧ 60000 < now epoch_world - 0
  | _ => False
  end.
Proof. vm_compute. done. Qed.

(** Witness for C2: of three workers, the one with an old heartbeat is
    stalled, the one without a heartbeat and the one with a recent
    heartbeat are not. *)
Lemma monitorTeam_stalled_witness :
  ∃ w' snap st1 st2 st3,
    monitorTeam (H := Demo.host) "t1" "/p" ["%1"; "%2"; "%3"] stale_world = (w', Ok snap)
    ∧ snap_workers snap !! 0%nat = Some st1
    ∧ snap_workers snap !! 1%nat = Some st2
    ∧ snap_workers snap !! 2%nat = Some st3
    ∧ stalled st1 = true ∧ stalled st2 = false ∧ stalled st3 = false.
Proof.
  pose (ids := ["%1"; "%2"; "%3"]).
  assert (Hread : readable (fs stale_world) (stateRoot "/p" "t1") ids = true)
    by (vm_compute; reflexivity).
  destruct (monitorTeam_stalled (H := Demo.host) "t1" "/p" ids stale_world 0 "%1" eq_refl)
    as (w1 & r1 & Hrun1 & Hok1 & Hst1).
  destruct (monitorTeam_stalled (H := Demo.host) "t1" "/p" ids stale_world 1 "%2" eq_refl)
    as (w2 & r2 & Hrun2 & _ & Hst2).
  destruct (monitorTeam_stalled (H := Demo.host) "t1" "/p" ids stale_world 2 "%3" eq_refl)
    as (w3 & r3 & Hrun3 & _ & Hst3).
  assert (r2 = r1 ∧ r3 = r1) as [-> ->] by (split; congruence).
  specialize (Hok1 Hread). destruct r1 as [snap| |]; [|discriminate Hok1..].
  destruct (Hst1 snap eq_refl) as (st1 & Hl1 & _ & _ & _ & _ & Hstale).
  destruct (Hst2 snap eq_refl) as (st2 & Hl2 & _ & _ & Hnone & _).
  destruct (Hst3 snap eq_refl) as (st3 & Hl3 & _ & _ & _ & _ & Hfresh).
  exists w1, snap, st1, st2, st3. split; [exact Hrun1|].
  split; [exact Hl1|]. split; [exact Hl2|]. split; [exact Hl3|].
  split; [|split].
  - pose (hb := JObj [("updatedAt", JNum 1000); ("currentTaskId", JStr "1")]).
    destruct (Hstale [PJson hb] hb) as [Hage _];
      [vm_compute; reflexivity | reflexivity |].
    destruct (Hage (JNum 1000) 1000) as [Hold _];
      [reflexivity | reflexivity | reflexivity |].
    apply Hold. reflexivity.
  - apply Hnone. vm_compute. reflexivity.
  - pose (hb := JObj [("updatedAt", JStr "99000")]).
    destruct (Hfresh [PJson hb] hb) as [Hage _];
      [vm_compute; reflexivity | reflexivity |].
    destruct (Hage (JStr "99000") 99000) as [_ Hnew];
      [reflexivity | reflexivity | vm_compute; reflexivity |].
    apply Hnew. vm_compute. discriminate.
Defined.

(** ** Task counts *)

Lemma countTask_total c task :
  total (countTask c task) = (total c + if hasStatus task then 1 else 0)%nat.
Proof.
  unfold countTask, hasStatus, total.
  destruct (status_is task "pending"), (status_is task "in_progress"),
    (status_is task "completed"), (status_is task "failed"); simpl; lia.
Qed.

Lemma countTasks_total (f : FS) (root : Path) (names : list string) (c : TaskCounts) :
  total (foldl (λ c name, countTask c (parsed f (root ++ ["tasks"; name]))) c
               (List.filter (λ name, endsWith name ".json") names))
  = (total c + List.length (List.filter (counted f root) names))%nat.
Proof.
  revert c. induction names as [|name names IH]; intros c; simpl; [lia|].
  unfold counted at 1. destruct (endsWith name ".json"); simpl; [|apply IH].
  rewrite IH, countTask_total.
  destruct (hasStatus _); simpl; lia.
Qed.

Lemma countsOf_total (f : FS) (root : Path) :
  total (countsOf f root)
  = List.length (List.filter (counted f root) (dirEntries f (root ++ ["tasks"]))).
Proof.
  unfold countsOf, dirEntries.
  destruct (readdir f (root ++ ["tasks"])) as [names|e]; [|reflexivity].
  by rewrite countTasks_total.
Qed.

(** C5, the claim as stated, fails: in a tasks directory with a pending
    record, a half-written record and a note, [monitorTeam] returns counts
    that sum to 1 while the directory has 3 files. *)
Lemma monitorTeam_counts_counterexample :
  match (monitorTeam (H := Demo.host) "t1" "/p" [] mixed_tasks_world).2 with
  | Ok snap =>
      total (taskCounts snap) = 1%nat
      ∧ List.length (dirEntries (fs mixed_tasks_world) (stateRoot "/p" "t1" ++ ["tasks"]))
        = 3%nat
  | _ => False
  end.
Proof. vm_compute. done. Qed.

(** C5, amended.  [monitorTeam] returns a snapshot when the heartbeats
    are readable, and the counts of a snapshot it returns sum to the
    number of entries of the tasks directory that are named [*.json] and
    hold a record whose status is one of the four; so the sum is at most
    the number of files in the directory, and equal to it when every file
    is such a record. *)
Theorem monitorTeam_counts `{Host} (teamName cwd : string) (workerPaneIds : list string)
    (w : World) :
  ∃ w' r,
    monitorTeam teamName cwd workerPaneIds w = (w', r)
    ∧ (readable (fs w) (stateRoot cwd teamName) workerPaneIds = true → is_Ok r = true)
    ∧ ∀ snap, r = Ok snap →
      let root := stateRoot cwd teamName in
      let files := dirEntries (fs w) (root ++ ["tasks"]) in
      total (taskCounts snap) = List.length (List.filter (counted (fs w) root) files)
      ∧ (total (taskCounts snap) ≤ List.length files)%nat
      ∧ (forallb (counted (fs w) root) files = true →
         total (taskCounts snap) = List.length files).
Proof.
  destruct (monitorTeam_run teamName cwd workerPaneIds w) as (w' & Hrun & _).
  eexists w', _. split; [exact Hrun|]. split.
  { intros ->. reflexivity. }
  intros snap Hsnap. destruct (readable _ _ _); [|discriminate].
  injection Hsnap as <-. cbn zeta. cbn [snapshotOf taskCounts].
  rewrite countsOf_total. split; [reflexivity|]. split.
  - apply List.filter_length_le.
  - intros Hall. f_equal. apply forallb_filter_id. exact Hall.
Qed.

(** Witness for C5: in a team as [startTeam] persists it every file of the
    tasks directory is a counted record, and the counts sum to their
    number. *)
Lemma monitorTeam_counts_witness :
  ∃ w' snap,
    monitorTeam (H := Demo.host) "t1" "/p" [] started_world = (w', Ok snap)
    ∧ total (taskCounts snap) = 2%nat.
Proof.
  destruct (monitorTeam_counts (H := Demo.host) "t1" "/p" [] started_world)
    as (w' & r & Hrun & Hok & Hsum).
  specialize (Hok eq_refl). destruct r as [snap| |]; [|discriminate Hok..].
  destruct (Hsum snap eq_refl) as (_ & _ & Hall).
  exists w', snap. split; [exact Hrun|].
  rewrite Hall; vm_compute; reflexivity.
Defined.

(** ** Session names *)

Lemma createTeamSession_name teamName workerCount cwd w w' session :
  createTeamSession teamName workerCount cwd w = (w', Ok session) →
  ∃ name, sanitizeName teamName = Ok name ∧ sessionName session = "omc-team-" +:+ name.
Proof.
  unfold createTeamSession, lift. unfold mbind at 1. unfold M_bind, bind.
  destruct (sanitizeName teamName) as [name| |]; [|discriminate..].
  intros Hrun. exists name. split; [reflexivity|].
  unfold mbind, M_bind, bind in Hrun.
  repeat match type of Hrun with
         | (let (_, _) := ?m in _) = _ => destruct m as [? [?| |]]; try discriminate
         | match ?m with _ => _ end = _ => destruct m as [? [?| |]]; try discriminate
         end.
  unfold mret, M_ret, ret in Hrun. by injection Hrun as _ <-.
Qed.

(** C4 fails on the code.  For the team [my_team], with its config on
    disk, [createTeamSession] creates the session [omc-team-myteam] (the
    name is sanitized); [resumeTeam] for the same team, with that session
    alive, probes [omc-team-my_team] and returns [null]. *)
Theorem resumeTeam_probes_raw_name :
  let '(w, created) :=
    (writeJson (stateRoot "/p" "my_team" ++ ["config.json"])
               (json_of_config underscore_team);;
     createTeamSession "my_team" 1 "/p") Demo.world0 in
  (sessionName <$> (match created with Ok session => Some session | _ => None end))
    = Some "omc-team-myteam"
  ∧ (Tmux.panes <$> Tmux.sessions (mux w) !! "omc-team-myteam") = Some ["%0"; "%1"]
  ∧ truthy (parsed (fs w) (stateRoot "/p" "my_team" ++ ["config.json"])) = true
  ∧ (resumeTeam "my_team" "/p" w).2 = Ok None.
Proof. vm_compute. done. Qed.

(** Where the name needs no sanitizing the two agree. *)
Lemma resumeTeam_name_clean teamName workerCount cwd w w' session :
  sanitizeName teamName = Ok teamName →
  createTeamSession teamName workerCount cwd w = (w', Ok session) →
  sessionName session = "omc-team-" +:+ teamName.
Proof.
  intros Hclean Hrun.
  destruct (createTeamSession_name _ _ _ _ _ _ Hrun) as (name & Hname & ->). congruence.
Qed.

(** ** Validation comes first *)

Section StartTeam.
Context `{Host} `{Collaborators}.

Lemma Set_values_elem (l : list string) (a : string) : a ∈ Set_values l ↔ a ∈ l.
Proof.
  induction l as [|x l IH]; simpl; [done|].
  rewrite !elem_of_cons, list_elem_of_filter, IH.
  destruct (decide (a = x)); tauto.
Qed.

Lemma validate_first_failure (l : list string) (w : World) :
  (∃ a, a ∈ l ∧ validateCliAvailable a ≠ None) →
  ∃ a e, a ∈ l ∧ validateCliAvailable a = Some e
         ∧ forM_ l validate w = (w, Throw e).
Proof.
  induction l as [|x l IH]; intros (a & Ha & Hbad); [by apply elem_of_nil in Ha|].
  cbn [forM_].
  destruct (validateCliAvailable x) as [e|] eqn:Hx.
  - exists x, e. split; [left|]. split; [exact Hx|].
    apply run_bind_Throw. unfold validate. by rewrite Hx.
  - destruct IH as (a' & e & Ha' & He & Hrun).
    { exists a. split; [|exact Hbad]. apply elem_of_cons in Ha as [->|]; [congruence|done]. }
    exists a', e. split; [by right|]. split; [exact He|].
    rewrite (run_bind_Ok _ _ w w tt); [exact Hrun|].
    unfold validate. by rewrite Hx.
Qed.

(** C9.  When some requested agent type is not launchable, [startTeam]
    throws the failure [validateCliAvailable] raises for one of the
    requested types and the world is the one it started in: no directory,
    file or session has been created, nothing was logged and no time has
    passed. *)
Theorem startTeam_validates_first (config : TeamConfig) (w : World) :
  (∃ a, a ∈ agentTypes config ∧ validateCliAvailable a ≠ None) →
  ∃ a e, a ∈ agentTypes config
         ∧ validateCliAvailable a = Some e
         ∧ startTeam config w = (w, Throw e).
Proof.
  intros (a & Ha & Hbad).
  destruct (validate_first_failure (Set_values (agentTypes config)) w)
    as (a' & e & Ha' & He & Hrun).
  { exists a. by rewrite Set_values_elem. }
  exists a', e. split; [by apply Set_values_elem|]. split; [exact He|].
  unfold startTeam. by rewrite (run_bind_Throw _ _ _ _ _ Hrun).
Qed.

End StartTeam.

(** Witness for C9: a team that asks for an agent type that is not
    launchable. *)
Lemma startTeam_validates_first_witness :
  startTeam (H := Demo.host) (H0 := Demo.collaborators) kimi_team Demo.world0
  = (Demo.world0, Throw (CliError "kimi")).
Proof.
  destruct (startTeam_validates_first (H := Demo.host) (H0 := Demo.collaborators)
              kimi_team Demo.world0) as (a & e & Ha & He & Hrun).
  { exists "kimi". split; [vm_compute; set_solver | vm_compute; discriminate]. }
  rewrite Hrun. f_equal. f_equal.
  cbn in Ha. apply elem_of_cons in Ha as [->|Ha].
  { vm_compute in He. discriminate. }
  apply elem_of_cons in Ha as [->|Ha]; [|by apply elem_of_nil in Ha].
  vm_compute in He. by injection He.
Defined.

(** ** What the file-system calls do *)

Lemma more_dirs_refl f : more_dirs f f.
Proof. intros q. by left. Qed.

Lemma more_dirs_trans f1 f2 f3 : more_dirs f1 f2 → more_dirs f2 f3 → more_dirs f1 f3.
Proof.
  intros H12 H23 q. destruct (H12 q) as [E12|[N1 D2]], (H23 q) as [E23|[N2 D3]].
  - left. congruence.
  - right. split; congruence.
  - right. split; congruence.
  - congruence.
Qed.

Lemma more_dirs_parsed f f' p : more_dirs f f' → parsed f' p = parsed f p.
Proof.
  intros Hmd. unfold parsed, readFile, node_at. destruct p as [|x p]; [reflexivity|].
  destruct (Hmd (x :: p)) as [->|[-> ->]]; reflexivity.
Qed.

Lemma mkdir_from_spec rest : ∀ base f q,
  (mkdir_from base rest f).1 !! q = f !! q
  ∨ ((∃ k, (1 ≤ k ≤ List.length rest)%nat ∧ q = base ++ take k rest)
     ∧ f !! q = None ∧ (mkdir_from base rest f).1 !! q = Some Dir).
Proof.
  induction rest as [|x rest IH]; intros base f q; [by left|].
  cbn [mkdir_from]. cbn zeta.
  destruct (f !! (base ++ [x])) as [[|c]|] eqn:Hp; [| by left |].
  - destruct (IH (base ++ [x]) f q) as [->|((k & Hk & ->) & Hn & Hd)]; [by left|].
    right. split; [|done]. exists (S k). split; [simpl; lia|].
    by rewrite <- app_assoc.
  - destruct (decide (q = base ++ [x])) as [->|Hne].
    + right. split; [exists 1%nat; split; [simpl; lia | reflexivity] |].
      split; [exact Hp|].
      destruct (IH (base ++ [x]) (<[base ++ [x] := Dir]> f) (base ++ [x]))
        as [->|(_ & Hn & _)]; [apply lookup_insert_eq|].
      by rewrite lookup_insert_eq in Hn.
    + destruct (IH (base ++ [x]) (<[base ++ [x] := Dir]> f) q)
        as [->|((k & Hk & ->) & Hn & Hd)].
      * left. by apply lookup_insert_ne.
      * right. rewrite lookup_insert_ne in Hn by done.
        split; [|done]. exists (S k). split; [simpl; lia|]. by rewrite <- app_assoc.
Qed.

Lemma mkdir_p_more_dirs dir f : more_dirs f (mkdir_p dir f).1.
Proof.
  intros q. destruct (mkdir_from_spec dir [] f q) as [?|(_ & ? & ?)]; [by left | by right].
Qed.

(** [mkdir -p] only touches the path it is given. *)
Lemma mkdir_p_elsewhere dir f q : ¬ q `prefix_of` dir → (mkdir_p dir f).1 !! q = f !! q.
Proof.
  intros Hq. destruct (mkdir_from_spec dir [] f q) as [?|((k & _ & ->) & _)]; [done|].
  exfalso. apply Hq. apply prefix_take.
Qed.

Lemma mkdir_from_ok rest : ∀ base f,
  (∀ k c, (1 ≤ k ≤ List.length rest)%nat → f !! (base ++ take k rest) ≠ Some (File c)) →
  (mkdir_from base rest f).2 = None
  ∧ (rest ≠ [] → (mkdir_from base rest f).1 !! (base ++ rest) = Some Dir).
Proof.
  induction rest as [|x rest IH]; intros base f Hfree; [done|].
  cbn [mkdir_from]. cbn zeta.
  assert (Hstep : ∀ f2, f2 !! (base ++ [x]) = Some Dir →
            (∀ q, q ≠ base ++ [x] → f2 !! q = f !! q) →
            (mkdir_from (base ++ [x]) rest f2).2 = None
            ∧ (x :: rest ≠ [] →
               (mkdir_from (base ++ [x]) rest f2).1 !! (base ++ x :: rest) = Some Dir)).
  { intros f2 Hdir Hsame. destruct (IH (base ++ [x]) f2) as [Hok Htarget].
    - intros k c Hk. rewrite <- app_assoc. cbn [app].
      change (x :: take k rest) with (take (S k) (x :: rest)).
      rewrite Hsame; [apply Hfree; simpl; lia|].
      intros Heq%(f_equal List.length). rewrite !length_app, length_take in Heq.
      simpl in Heq. lia.
    - split; [exact Hok|]. intros _. destruct rest as [|y rest].
      + exact Hdir.
      + rewrite <- Htarget by done. by rewrite <- app_assoc. }
  destruct (f !! (base ++ [x])) as [[|c]|] eqn:Hp.
  - by apply Hstep.
  - exfalso. by apply (Hfree 1%nat c); [simpl; lia|].
  - apply Hstep; [apply lookup_insert_eq|]. intros q Hq. by apply lookup_insert_ne.
Qed.

Lemma mkdir_p_ok dir f :
  creatable f dir → (mkdir_p dir f).2 = None ∧ node_at (mkdir_p dir f).1 dir = Some Dir.
Proof.
  intros Hfree. destruct (mkdir_from_ok dir [] f) as [Hok Htarget].
  { intros k c Hk. apply Hfree, prefix_take. }
  split; [exact Hok|]. unfold node_at. destruct dir; [reflexivity|].
  by apply Htarget.
Qed.

Lemma mkdir_run dir w :
  ∃ r, mkdir dir w = (set_fs (mkdir_p dir (fs w)).1 w, r)
       ∧ ((mkdir_p dir (fs w)).2 = None → r = Ok tt).
Proof.
  unfold mkdir, lift_fs. destruct (mkdir_p dir (fs w)) as [f' [e|]]; simpl.
  - eexists. split; [reflexivity | discriminate].
  - eexists. split; [reflexivity | done].
Qed.

Lemma mkdir_from_fails rest : ∀ base f k c,
  (1 ≤ k ≤ List.length rest)%nat →
  f !! (base ++ take k rest) = Some (File c) →
  ∃ code q, (mkdir_from base rest f).2 = Some (FsError code q).
Proof.
  induction rest as [|x rest IH]; intros base f k c Hk Hfile; [simpl in Hk; lia|].
  cbn [mkdir_from]. cbn zeta.
  destruct k as [|k]; [lia|]. rewrite firstn_cons in Hfile.
  destruct (f !! (base ++ [x])) as [[|c']|] eqn:Hp.
  - destruct k as [|k]; [rewrite take_0 in Hfile; congruence|].
    apply (IH (base ++ [x]) f (S k) c); [simpl in Hk; lia|].
    by rewrite <- app_assoc.
  - by eexists _, _.
  - destruct k as [|k]; [rewrite take_0 in Hfile; congruence|].
    apply (IH (base ++ [x]) (<[base ++ [x] := Dir]> f) (S k) c); [simpl in Hk; lia|].
    rewrite <- app_assoc. cbn [app]. rewrite lookup_insert_ne; [exact Hfile|].
    intros Heq%(f_equal List.length). rewrite !length_app in Heq.
    cbn [List.length] in Heq. rewrite length_take in Heq. simpl in Hk. lia.
Qed.

(** [mkdir -p] fails where a regular file stands on the way. *)
Lemma mkdir_p_blocked dir f q c :
  q ≠ [] → q `prefix_of` dir → f !! q = Some (File c) →
  ∃ code p, (mkdir_p dir f).2 = Some (FsError code p).
Proof.
  intros Hq [rest ->] Hfile.
  apply (mkdir_from_fails (q ++ rest) [] f (List.length q) c).
  - rewrite length_app. destruct q; [done|]. simpl. lia.
  - by rewrite take_app_length.
Qed.

(** ** What an operation may write *)

Section Writes.
Variable allowed : Path → Node → Prop.

Lemma fs_rel_refl f : fs_rel allowed f f.
Proof. intros q. by left. Qed.

Lemma fs_rel_trans f1 f2 f3 :
  fs_rel allowed f1 f2 → fs_rel allowed f2 f3 → fs_rel allowed f1 f3.
Proof.
  intros H12 H23 q.
  destruct (H23 q) as [E23|[[N2 D3]|(n & Hn & Ha)]].
  - rewrite E23. apply H12.
  - destruct (H12 q) as [E12|[[N1 D2]|(n & Hn & Ha)]].
    + right. left. split; congruence.
    + congruence.
    + congruence.
  - right. right. eauto.
Qed.

Lemma fs_rel_more_dirs f f' : more_dirs f f' → fs_rel allowed f f'.
Proof. intros Hmd q. destruct (Hmd q) as [?|?]; [by left | by right; left]. Qed.

Lemma writes_fs_same {A} (m : M A) w :
  (∀ w' r, m w = (w', r) → fs w' = fs w) → writes_within allowed m w.
Proof. intros Hsame w' r Hrun. rewrite (Hsame _ _ Hrun). apply fs_rel_refl. Qed.

Lemma writes_bind {A B} (m : M A) (k : A → M B) w :
  writes_within allowed m w →
  (∀ w1 a, m w = (w1, Ok a) → writes_within allowed (k a) w1) →
  writes_within allowed (m ≫= k) w.
Proof.
  intros Hm Hk w' r. unfold mbind, M_bind, bind.
  destruct (m w) as [w1 [a| |]] eqn:Hrun.
  - intros Hrest. eapply fs_rel_trans; [by eapply Hm | by eapply Hk].
  - intros [= <- <-]. by eapply Hm.
  - intros [= <- <-]. by eapply Hm.
Qed.

Lemma writes_ret {A} (a : A) w : writes_within allowed (mret a) w.
Proof. intros w' r [= <- <-]. apply fs_rel_refl. Qed.

Lemma writes_throw {A} e w : writes_within allowed (throw e : M A) w.
Proof. intros w' r [= <- <-]. apply fs_rel_refl. Qed.

Lemma writes_try_catch {A} (m : M A) (h : Error → M A) w :
  writes_within allowed m w →
  (∀ w1 e, m w = (w1, Throw e) → writes_within allowed (h e) w1) →
  writes_within allowed (try_catch m h) w.
Proof.
  intros Hm Hh w' r. unfold try_catch.
  destruct (m w) as [w1 [a|e|]] eqn:Hrun.
  - intros [= <- <-]. by eapply Hm.
  - intros Hrest. eapply fs_rel_trans; [by eapply Hm | by eapply Hh].
  - intros [= <- <-]. by eapply Hm.
Qed.

Lemma writes_mkdir dir w : writes_within allowed (mkdir dir) w.
Proof.
  intros w' r Hrun. destruct (mkdir_run dir w) as (r0 & Hrun0 & _).
  rewrite Hrun0 in Hrun. injection Hrun as <- <-.
  apply fs_rel_more_dirs, mkdir_p_more_dirs.
Qed.

Lemma writes_writeFile p content w :
  allowed p (File content) → writes_within allowed (fs_writeFile p content) w.
Proof.
  intros Hallowed w' r. unfold fs_writeFile, lift_fs, writeFile.
  destruct (write_check (fs w) p); intros [= <- <-]; [apply fs_rel_refl|].
  intros q. cbn [fs set_fs]. destruct (decide (q = p)) as [->|Hne].
  - right. right. exists (File content). by rewrite lookup_insert_eq.
  - left. by apply lookup_insert_ne.
Qed.

Lemma writes_appendFile p data w :
  (∀ content, allowed p (File content)) → writes_within allowed (fs_appendFile p data) w.
Proof.
  intros Hallowed w' r. unfold fs_appendFile, lift_fs, appendFile.
  destruct (write_check (fs w) p); [intros [= <- <-]; apply fs_rel_refl|].
  intros Hrun q. destruct (decide (q = p)) as [->|Hne].
  - right. right. destruct (fs w !! p) as [[|old]|]; injection Hrun as <- <-;
      cbn [fs set_fs]; eexists; by rewrite lookup_insert_eq.
  - left. destruct (fs w !! p) as [[|old]|]; injection Hrun as <- <-;
      cbn [fs set_fs]; by apply lookup_insert_ne.
Qed.

Lemma writes_writeJson p data w :
  allowed p (File [PJson data]) → writes_within allowed (writeJson p data) w.
Proof.
  intros Hallowed. unfold writeJson. apply writes_bind; [apply writes_mkdir|].
  intros w1 [] _. by apply writes_writeFile.
Qed.

End Writes.

Lemma tmux_fs args w w' r : tmux args w = (w', r) → fs w' = fs w.
Proof.
  unfold tmux. destruct (Tmux.exec args (mux w)) as [s r0]. by intros [= <- <-].
Qed.

Lemma console_warn_fs line w w' r : console_warn line w = (w', r) → fs w' = fs w.
Proof. by intros [= <- <-]. Qed.

Lemma sendToWorker_fs sessionName paneId message w w' r :
  sendToWorker sessionName paneId message w = (w', r) → fs w' = fs w.
Proof.
  unfold sendToWorker, try_catch, mbind, M_bind, bind.
  destruct (200 <? String.length message)%nat; simpl.
  - unfold tmux, mret, M_ret, ret.
    repeat (match goal with
            | |- context [Tmux.exec ?a ?s] => destruct (Tmux.exec a s) as [? [?| |]]; simpl
            end); by intros [= <- <-].
  - unfold tmux, mret, M_ret, ret.
    repeat (match goal with
            | |- context [Tmux.exec ?a ?s] => destruct (Tmux.exec a s) as [? [?| |]]; simpl
            end); by intros [= <- <-].
Qed.

(** ** Joining paths *)

Lemma join_step_plain (p : Path) (x : string) : plain x = true → join_step p x = p ++ [x].
Proof.
  unfold plain, join_step. intros [[[_ H1]%andb_prop H2]%andb_prop H3]%andb_prop.
  apply negb_true_iff in H1, H2, H3. by rewrite H1, H2, H3.
Qed.

Lemma join_app (base : Path) (a b : list string) :
  join base (a ++ b) = join (join base a) b.
Proof. unfold join. by rewrite flat_map_app, foldl_app. Qed.

Lemma join_plain (base : Path) (x : string) : plain x = true → join base [x] = base ++ [x].
Proof.
  intros Hx. unfold join. cbn [flat_map]. rewrite app_nil_r.
  assert (Hsplit : split "/" x = [x]).
  { apply split_whole. unfold plain in Hx. by repeat apply andb_prop in Hx as [Hx _]. }
  rewrite Hsplit. cbn [foldl]. by apply join_step_plain.
Qed.

Lemma join_snoc (base : Path) (segments : list string) (x : string) :
  plain x = true → join base (segments ++ [x]) = join base segments ++ [x].
Proof. intros Hx. by rewrite join_app, join_plain. Qed.

Lemma suffixed_plain (piece suffix : string) :
  forall_chars (λ c, negb (Ascii.eqb c "/")) piece = true →
  forall_chars (λ c, negb (Ascii.eqb c "/")) suffix = true →
  (3 ≤ String.length suffix)%nat →
  plain (piece +:+ suffix) = true.
Proof.
  intros Hp Hs Hlen. unfold plain. rewrite forall_chars_app, Hp, Hs. cbn [andb].
  assert (Hne : ∀ y, (String.length y < 3)%nat → String.eqb (piece +:+ suffix) y = false).
  { intros y Hy. apply String.eqb_neq. intros Heq%(f_equal String.length).
    rewrite string_app_length in Heq. lia. }
  rewrite !Hne by (simpl; lia). reflexivity.
Qed.

(** A last segment that ends in a suffix of three characters or more,
    without a separator, gives a last component that ends in it. *)
Lemma join_suffixed (base : Path) (segments : list string) (s suffix : string) :
  forall_chars (λ c, negb (Ascii.eqb c "/")) suffix = true →
  (3 ≤ String.length suffix)%nat →
  ∃ dir piece, join base (segments ++ [s +:+ suffix]) = dir ++ [piece +:+ suffix].
Proof.
  intros Hs Hlen. destruct (split_suffix "/" s suffix Hs) as (init & piece & Hsplit & Hfull).
  rewrite join_app. unfold join at 1. cbn [flat_map]. rewrite app_nil_r, Hfull, foldl_app.
  cbn [foldl]. eexists _, piece. apply join_step_plain, suffixed_plain; [|done..].
  apply (split_pieces "/" s). rewrite Hsplit. apply elem_of_app. right. by left.
Qed.

Lemma json_not_inbox (x : string) : x +:+ ".json" ≠ "inbox.md".
Proof.
  destruct x as [|a [|b [|c [|d x]]]]; try discriminate.
  rewrite !string_app_cons. intros Heq%(f_equal String.length).
  simpl in Heq. rewrite string_app_length in Heq. simpl in Heq. lia.
Qed.

Lemma snoc_inj {A} (l1 l2 : list A) (x y : A) : l1 ++ [x] = l2 ++ [y] → l1 = l2 ∧ x = y.
Proof. intros Heq. by apply app_inj_tail. Qed.

(** The inbox of a worker is no task record, whatever the names. *)
Lemma inbox_not_record (base root : Path) (target id : string) :
  join base ["workers"; target; "inbox.md"] ≠ root ++ ["tasks"; id +:+ ".json"].
Proof.
  change ["workers"; target; "inbox.md"] with (["workers"; target] ++ ["inbox.md"]).
  rewrite join_snoc by reflexivity.
  change (root ++ ["tasks"; id +:+ ".json"]) with (root ++ ["tasks"] ++ [id +:+ ".json"]).
  rewrite app_assoc. intros [_ Heq]%snoc_inj. by apply (json_not_inbox id).
Qed.

(** ** The status of a task record *)

Lemma assoc_set_same k v fields : assoc k (assoc_set k v fields) = Some v.
Proof.
  induction fields as [|[k' v'] fields IH]; simpl.
  - by rewrite String.eqb_refl.
  - destruct (String.eqb k k') eqn:Hk; simpl; rewrite ?String.eqb_refl, ?Hk; done.
Qed.

Lemma assoc_set_other k k' v fields :
  k ≠ k' → assoc k (assoc_set k' v fields) = assoc k fields.
Proof.
  intros Hne. apply String.eqb_neq in Hne.
  induction fields as [|[k0 v0] fields IH]; simpl.
  - by rewrite Hne.
  - destruct (String.eqb k' k0) eqn:Hk; simpl.
    + apply String.eqb_eq in Hk as <-. by rewrite Hne.
    + by rewrite IH.
Qed.

(** The three assignments of [assignTask] on a value. *)
Lemma assigned_status task owner assignedAt t1 t2 t3 :
  set_prop "owner" owner task = Some t1 →
  set_prop "status" (JStr "in_progress") t1 = Some t2 →
  set_prop "assignedAt" assignedAt t2 = Some t3 →
  get_string "status" t3 = Some "in_progress" ∨ t3 = task.
Proof.
  destruct task; try discriminate; simpl.
  - intros [= <-] [= <-] [= <-]. by right.
  - intros [= <-]. simpl. intros [= <-]. simpl. intros [= <-]. left.
    unfold get_string, get.
    rewrite assoc_set_other by discriminate. by rewrite assoc_set_same.
Qed.

Section TaskStatus.
Context `{Host}.

Lemma assign_run k v task w w' r :
  assign k v task w = (w', r) →
  w' = w ∧ (∀ t, r = Ok t → set_prop k v task = Some t).
Proof.
  unfold assign. destruct (set_prop k v task) as [t|].
  - intros [= <- <-]. split; [done|]. by intros t' [= <-].
  - intros [= <- <-]. split; [done|]. discriminate.
Qed.

Lemma assignTask_writes teamName taskId targetWorkerName paneId sessionName cwd w :
  writes_within
    (assign_allowed (fs w)
       (join (stateRoot cwd teamName) ["tasks"; taskId +:+ ".json"])
       (join (stateRoot cwd teamName) ["workers"; targetWorkerName; "inbox.md"]))
    (assignTask teamName taskId targetWorkerName paneId sessionName cwd) w.
Proof.
  unfold assignTask. apply writes_bind.
  { apply writes_fs_same. intros w' r. rewrite readJsonSafe_run. by intros [= <- _]. }
  intros w1 task. rewrite readJsonSafe_run. intros [= <- <-].
  apply writes_bind.
  { destruct (truthy _); [|apply writes_ret].
    apply writes_bind.
    { apply writes_fs_same. by intros w' r [-> _]%assign_run. }
    intros w1 t1 [-> H1]%assign_run. specialize (H1 _ eq_refl).
    apply writes_bind.
    { apply writes_fs_same. by intros w' r [-> _]%assign_run. }
    intros w1 t2 [-> H2]%assign_run. specialize (H2 _ eq_refl).
    apply writes_bind.
    { apply writes_fs_same. by intros w' r [= <- _]. }
    intros w1 t [= <- <-].
    apply writes_bind.
    { apply writes_fs_same. by intros w' r [-> _]%assign_run. }
    intros w1 t3 [-> H3]%assign_run. specialize (H3 _ eq_refl).
    apply writes_writeJson. left. split; [reflexivity|].
    exists t3. split; [reflexivity|]. by eapply assigned_status. }
  intros w1 [] _.
  apply writes_bind; [apply writes_mkdir|]. intros w2 [] _.
  apply writes_bind; [apply writes_appendFile; intros; by right|]. intros w3 [] _.
  apply writes_bind; [|intros; apply writes_ret].
  apply writes_fs_same. intros w' r. apply sendToWorker_fs.
Qed.

Lemma status_at_same f f' p : f' !! p = f !! p → status_at f' p = status_at f p.
Proof.
  intros Heq. unfold status_at, parsed, readFile, node_at.
  destruct p; [reflexivity|]. by rewrite Heq.
Qed.

Lemma status_at_new_dir f f' p :
  f !! p = None → f' !! p = Some Dir → status_at f' p = status_at f p.
Proof.
  intros Hn Hd. unfold status_at, parsed, readFile, node_at.
  destruct p; [reflexivity|]. by rewrite Hn, Hd.
Qed.

(** One [assignTask]: a task record keeps its status, unless it is the
    record of the call, which may get [in_progress]. *)
Lemma assignTask_status teamName taskId targetWorkerName paneId sessionName cwd w
    cwd' teamName' id :
  let w' := (assignTask teamName taskId targetWorkerName paneId sessionName cwd w).1 in
  let p := taskPathOf cwd' teamName' (id +:+ ".json") in
  status_at (fs w') p = status_at (fs w) p
  ∨ (p = join (stateRoot cwd teamName) ["tasks"; taskId +:+ ".json"]
     ∧ status_at (fs w') p = Some "in_progress").
Proof.
  cbn zeta.
  destruct (assignTask teamName taskId targetWorkerName paneId sessionName cwd w)
    as [w' r] eqn:Hrun.
  pose proof (assignTask_writes _ _ _ _ _ _ _ _ _ Hrun
                (taskPathOf cwd' teamName' (id +:+ ".json")))
    as [Hsame|[[Hn Hd]|(n & Hn & [(Hp & v & -> & Hv)|Hinbox])]]; cbn [fst].
  - left. by apply status_at_same.
  - left. by apply status_at_new_dir.
  - assert (Hparsed : parsed (fs w') (taskPathOf cwd' teamName' (id +:+ ".json")) = v).
    { eapply parsed_file; [|exact Hn|reflexivity].
      unfold taskPathOf. by destruct (stateRoot cwd' teamName'). }
    destruct Hv as [Hv| ->].
    + right. split; [exact Hp|]. unfold status_at. by rewrite Hparsed.
    + left. unfold status_at. by rewrite Hparsed, Hp.
  - symmetry in Hinbox. by apply inbox_not_record in Hinbox.
Qed.

Lemma monitorTeam_fs teamName cwd workerPaneIds w :
  fs (monitorTeam teamName cwd workerPaneIds w).1 = fs w.
Proof.
  destruct (monitorTeam_run teamName cwd workerPaneIds w) as (w' & -> & Hq & _). exact Hq.
Qed.

Lemma run_op_status (op : CoreOp) (w : World) cwd teamName id :
  status_at (fs (run_op w op)) (taskPathOf cwd teamName (id +:+ ".json"))
  = status_at (fs w) (taskPathOf cwd teamName (id +:+ ".json"))
  ∨ status_at (fs (run_op w op)) (taskPathOf cwd teamName (id +:+ ".json"))
    = Some "in_progress".
Proof.
  destruct op as [t i tw p s c|t c ps]; cbn [run_op].
  - destruct (assignTask_status t i tw p s c w cwd teamName id) as [?|[_ ?]];
      [by left | by right].
  - left. by rewrite monitorTeam_fs.
Qed.

Lemma run_ops_status (ops : list CoreOp) (w : World) cwd teamName id :
  status_at (fs (run_ops ops w)) (taskPathOf cwd teamName (id +:+ ".json"))
  = status_at (fs w) (taskPathOf cwd teamName (id +:+ ".json"))
  ∨ status_at (fs (run_ops ops w)) (taskPathOf cwd teamName (id +:+ ".json"))
    = Some "in_progress".
Proof.
  revert w. induction ops as [|op ops IH]; intros w; [by left|].
  cbn [run_ops foldl]. destruct (IH (run_op w op)) as [Hsame|Hprog]; [|by right].
  unfold run_ops in Hsame. rewrite Hsame. apply run_op_status.
Qed.

(** The task loop of [startTeam] writes pending records, nothing else. *)
Lemma forM_writes {X} allowed (l : list X) (body : X → M unit) :
  (∀ x w, x ∈ l → writes_within allowed (body x) w) →
  ∀ w, writes_within allowed (forM_ l body) w.
Proof.
  induction l as [|x l IH]; intros Hbody w; [apply writes_ret|].
  cbn [forM_]. apply writes_bind; [apply Hbody; by left|].
  intros w1 [] _. apply IH. intros y w2 Hy. apply Hbody. by right.
Qed.

Lemma createTaskFiles_status root tasks w cwd teamName name :
  let w' := (createTaskFiles root tasks w).1 in
  status_at (fs w') (taskPathOf cwd teamName name)
  = status_at (fs w) (taskPathOf cwd teamName name)
  ∨ status_at (fs w') (taskPathOf cwd teamName name) = Some "pending".
Proof.
  cbn zeta. destruct (createTaskFiles root tasks w) as [w' r] eqn:Hrun. cbn [fst].
  assert (Hw : writes_within
                 (λ _ n, ∃ id t c, n = File [PJson (taskRecord id t c)])
                 (createTaskFiles root tasks) w).
  { unfold createTaskFiles. apply forM_writes. intros [i t] w1 _.
    apply writes_bind; [apply writes_fs_same; by intros ? ? [= <- _]|].
    intros w2 t0 _. apply writes_writeJson. eauto. }
  destruct (Hw _ _ Hrun (taskPathOf cwd teamName name))
    as [Hsame|[[Hn Hd]|(n & Hn & id & t & c & ->)]].
  - left. by apply status_at_same.
  - left. by apply status_at_new_dir.
  - right. unfold status_at.
    assert (Hparsed : parsed (fs w') (taskPathOf cwd teamName name) = taskRecord id t c).
    { eapply parsed_file; [|exact Hn|reflexivity].
      unfold taskPathOf. by destruct (stateRoot cwd teamName). }
    by rewrite Hparsed.
Qed.

End TaskStatus.

(** C3, the claim as stated, fails: task 1 of a team is [completed];
    assigning it again moves it back to [in_progress]. *)
Lemma task_status_counterexample :
  status_at (fs completed_world) (taskPathOf "/p" "t1" "1.json") = Some "completed"
  ∧ status_at
      (fs (run_ops (H := Demo.host)
                   [OpAssign "t1" "1" "worker-2" "%2" "omc-team-t1" "/p"]
                   completed_world))
      (taskPathOf "/p" "t1" "1.json") = Some "in_progress".
Proof. vm_compute. done. Qed.

(** C3, amended.  For every task record, the file [id.json] of the
    tasks directory of a team: [monitorTeam] writes nothing; [assignTask]
    leaves the status as it is, except that the record it is called for
    (the file its task identifier joins to) may get [in_progress],
    whatever its status was; the task loop of [startTeam] leaves the
    status as it is or writes [pending]; and after any sequence of
    [assignTask] and [monitorTeam] calls the status is the one at the
    start or [in_progress]. *)
Theorem task_status_steps `{Host} (cwd teamName id : string) :
  let p := taskPathOf cwd teamName (id +:+ ".json") in
  (∀ t c panes w, fs (monitorTeam t c panes w).1 = fs w)
  ∧ (∀ t taskId target pane session c w,
       let w' := (assignTask t taskId target pane session c w).1 in
       status_at (fs w') p = status_at (fs w) p
       ∨ (p = join (stateRoot c t) ["tasks"; taskId +:+ ".json"]
          ∧ status_at (fs w') p = Some "in_progress"))
  ∧ (∀ root tasks w,
       let w' := (createTaskFiles root tasks w).1 in
       status_at (fs w') p = status_at (fs w) p
       ∨ status_at (fs w') p = Some "pending")
  ∧ (∀ ops w,
       status_at (fs (run_ops ops w)) p = status_at (fs w) p
       ∨ status_at (fs (run_ops ops w)) p = Some "in_progress").
Proof.
  cbn zeta. split; [intros; apply monitorTeam_fs|].
  split; [intros; apply assignTask_status|].
  split; [intros; apply createTaskFiles_status|].
  intros. apply run_ops_status.
Qed.

(** ** Assigning a task that is not there *)

Lemma send_keys_fails paneId k k' s :
  (Tmux.send_keys paneId k s).2 = None → Tmux.send_keys paneId k' s = (s, None).
Proof.
  unfold Tmux.send_keys. destruct (Tmux.resolve paneId s) as [[ses id]|]; [|done].
  by destruct (Tmux.pane_info s !! id).
Qed.

Lemma send_keys_state paneId k s :
  (Tmux.send_keys paneId k s).2 = None → (Tmux.send_keys paneId k s).1 = s.
Proof. intros Hf. by rewrite (send_keys_fails _ _ k _ Hf). Qed.

Lemma sendToWorker_run sessionName paneId message w :
  ∃ w' sent,
    sendToWorker sessionName paneId message w = (w', Ok sent)
    ∧ fs w' = fs w ∧ now w' = now w ∧ naps w' = naps w
    ∧ mux w' = typed paneId (cut200 message) (mux w).
Proof.
  assert (Hsend : ∀ m w0,
    ∃ w' sent,
      try_catch (tmux ["send-keys"; "-t"; paneId; "-l"; m];;
                 tmux ["send-keys"; "-t"; paneId; "Enter"];; mret true)
                (λ _, mret false) w0 = (w', Ok sent)
      ∧ fs w' = fs w0 ∧ now w' = now w0 ∧ naps w' = naps w0
      ∧ mux w' = typed paneId m (mux w0)).
  { intros m w0. unfold try_catch, mbind, M_bind, bind, tmux, Tmux.exec, typed.
    change (Tmux.run ["send-keys"; "-t"; paneId; "-l"; m] (mux w0))
      with (Tmux.send_keys paneId (Tmux.Literal m) (mux w0)).
    destruct (Tmux.send_keys paneId (Tmux.Literal m) (mux w0)) as [s1 [out1|]] eqn:H1;
      cbn [fst snd].
    - change (Tmux.run ["send-keys"; "-t"; paneId; "Enter"] (mux (set_mux s1 w0)))
        with (Tmux.send_keys paneId (Tmux.KeyName "Enter") s1).
      destruct (Tmux.send_keys paneId (Tmux.KeyName "Enter") s1) as [s2 [out2|]];
        cbn [fst snd]; eexists _, _; (split; [reflexivity|]); done.
    - eexists _, _. split; [reflexivity|]. cbn.
      assert (Hs1 : s1 = mux w0).
      { pose proof (send_keys_state paneId (Tmux.Literal m) (mux w0)) as Hst.
        rewrite H1 in Hst. by apply Hst. }
      subst s1. repeat split.
      rewrite (send_keys_fails paneId (Tmux.Literal m) (Tmux.KeyName "Enter") (mux w0));
        [done | by rewrite H1]. }
  unfold sendToWorker, cut200.
  destruct (200 <? String.length message)%nat.
  - destruct (console_warn_run "[tmux-session] sendToWorker: message truncated to 200 chars" w)
      as (w1 & Hw1 & (Hf & Hm & Hn & Hz & _) & _).
    destruct (Hsend (slice0 200 message) w1) as (w' & sent & Hrun & Hf' & Hn' & Hz' & Hm').
    exists w', sent. split.
    + rewrite (run_bind_Ok _ _ w w1 (slice0 200 message)); [exact Hrun|].
      by rewrite (run_bind_Ok _ _ _ _ _ Hw1).
    + repeat split; congruence.
  - destruct (Hsend message w) as (w' & sent & Hrun & Hrest).
    exists w', sent. split; [|exact Hrest].
    rewrite (run_bind_Ok _ _ w w message); [exact Hrun | reflexivity].
Qed.

Lemma creatableb_spec f dir : creatableb f dir = true → creatable f dir.
Proof.
  unfold creatableb. rewrite forallb_forall. intros Hall q c [k ->] Hfile.
  specialize (Hall (List.length q)).
  rewrite take_app_length, Hfile in Hall.
  enough (false = true) by discriminate. apply Hall.
  apply in_seq. rewrite length_app. lia.
Qed.

Section AssignMissing.
Context `{Host}.




Lemma parent_snoc (p : Path) (x : string) : parent (p ++ [x]) = p.
Proof. apply removelast_last. Qed.


Lemma appendFile_ok p data f :
  p ≠ [] → node_at f (parent p) = Some Dir → f !! p ≠ Some Dir →
  appendFile p data f = (<[p := File (content_at f p ++ data)]> f, None).
Proof.
  intros Hp Hparent Hnd. unfold appendFile, write_check, content_at.
  destruct p as [|x p]; [done|]. rewrite Hparent.
  destruct (f !! (x :: p)) as [[|old]|]; done.
Qed.



Lemma lift_fs_result op w :
  lift_fs op w
  = (set_fs (op (fs w)).1 w,
     match (op (fs w)).2 with Some e => Throw e | None => Ok tt end).
Proof. unfold lift_fs. by destruct (op (fs w)) as [f [e|]]. Qed.

Lemma mkdir_p_error dir f e :
  (mkdir_p dir f).2 = Some e → ∃ code q, e = FsError code q.
Proof.
  unfold mkdir_p. generalize (@nil string) as base. revert f.
  induction dir as [|x rest IH]; intros f base; [discriminate|].
  cbn [mkdir_from]. cbn zeta.
  destruct (f !! (base ++ [x])) as [[|c]|].
  - apply IH.
  - intros [= <-]. by eexists _, _.
  - apply IH.
Qed.



End AssignMissing.


(** Where [workers] is a regular file the inbox cannot be written:
    [assignTask] for task 9, which has no file, throws. *)
Lemma assignTask_blocked_inbox :
  fs blocked_inbox_world !! (stateRoot "/p" "t1" ++ ["tasks"; "9.json"]) = None
  ∧ (assignTask (H := Demo.host) "t1" "9" "worker-1" "%1" "omc-team-t1" "/p"
                blocked_inbox_world).2
    = Throw (FsError "ENOTDIR" (stateRoot "/p" "t1" ++ ["workers"])).
Proof. vm_compute. done. Qed.


(** ** The tmux server *)

Lemma without_sessions (name : string) (s : Tmux.Server) :
  Tmux.sessions (Tmux.without name s) = delete name (Tmux.sessions s).
Proof. unfold Tmux.without. case_bool_decide as He; [by rewrite He | done]. Qed.

Lemma unique_elem (found : list string) (n : string) :
  Tmux.unique found = Some n → found = [n].
Proof. destruct found as [|x [|y l]]; [done | | done]. by intros [= ->]. Qed.

Lemma find_session_exact (target : string) (s : Tmux.Server) (ses : Tmux.Session) :
  Tmux.sessions s !! target = Some ses → Tmux.find_session target s = Some target.
Proof. intros Hs. unfold Tmux.find_session. by rewrite Hs. Qed.

(** The session a target names is a session of the server. *)
Lemma find_session_alive (target : string) (s : Tmux.Server) (n : string) :
  Tmux.find_session target s = Some n → is_Some (Tmux.sessions s !! n).
Proof.
  unfold Tmux.find_session.
  destruct (Tmux.sessions s !! target) as [ses|] eqn:Hs; [intros [= <-]; by eexists|].
  set (names := (map_to_list (Tmux.sessions s)).*1).
  assert (Hin : ∀ P found, Tmux.unique (List.filter P names) = Some found →
                           is_Some (Tmux.sessions s !! found)).
  { intros P found Hu%unique_elem.
    assert (Hf : In found (List.filter P names)) by (rewrite Hu; by left).
    apply filter_In in Hf as [Hf%list_elem_of_In _].
    subst names. apply list_elem_of_fmap in Hf as ([n' ses'] & -> & Hf).
    apply elem_of_map_to_list in Hf. by eexists. }
  destruct (List.filter (λ n, startsWith n target) names) eqn:Hpre.
  - apply Hin.
  - rewrite <- Hpre. apply Hin.
Qed.

(** A target that is not a pane identifier stands for the active pane of
    the session it names. *)
Lemma resolve_name (rest : string) (s : Tmux.Server) :
  Tmux.resolve ("omc-team-" +:+ rest) s
  = match Tmux.find_session ("omc-team-" +:+ rest) s with
    | Some name =>
        match Tmux.sessions s !! name with
        | Some ses => Some (name, Tmux.active ses)
        | None => None
        end
    | None => None
    end.
Proof. reflexivity. Qed.

Lemma resolve_session (rest : string) (s : Tmux.Server) (ses : Tmux.Session) :
  Tmux.sessions s !! ("omc-team-" +:+ rest) = Some ses →
  Tmux.resolve ("omc-team-" +:+ rest) s = Some ("omc-team-" +:+ rest, Tmux.active ses).
Proof. intros Hs. by rewrite resolve_name, (find_session_exact _ _ _ Hs), Hs. Qed.

(** [kill-session] for a team's session: whichever session the target
    names is removed, and no session of that very name is left. *)
Lemma kill_session_gone (rest : string) (s : Tmux.Server) :
  Tmux.sessions (Tmux.kill_session ("omc-team-" +:+ rest) s).1 !! ("omc-team-" +:+ rest)
  = None.
Proof.
  unfold Tmux.kill_session. rewrite resolve_name.
  destruct (Tmux.find_session _ s) as [n|] eqn:Hfind.
  - destruct (Tmux.sessions s !! n) as [ses|] eqn:Hn; cbn [fst].
    + rewrite without_sessions.
      destruct (decide (n = "omc-team-" +:+ rest)) as [->|Hne];
        [apply lookup_delete_eq|].
      rewrite lookup_delete_ne by done.
      unfold Tmux.find_session in Hfind.
      destruct (Tmux.sessions s !! ("omc-team-" +:+ rest)); [|done].
      by injection Hfind as <-.
    + by destruct (find_session_alive _ _ _ Hfind) as [? ?]; simplify_eq.
  - cbn [fst]. unfold Tmux.find_session in Hfind.
    by destruct (Tmux.sessions s !! ("omc-team-" +:+ rest)).
Qed.

(** ** Shutting a team down *)

Lemma parent_length (p : Path) : List.length (parent p) = Nat.pred (List.length p).
Proof.
  unfold parent. induction p as [|x [|y p] IH]; [reflexivity..|].
  change (removelast (x :: y :: p)) with (x :: removelast (y :: p)).
  cbn [List.length]. rewrite IH. reflexivity.
Qed.

Lemma writeJson_ok p data w :
  p ≠ [] → writable (fs w) p →
  writeJson p data w
  = (set_fs (<[p := File [PJson data]]> (mkdir_p (parent p) (fs w)).1) w, Ok tt).
Proof.
  intros Hp [Hdir Hnd]. unfold writeJson.
  destruct (mkdir_p_ok _ _ Hdir) as [Hok Hnode].
  destruct (mkdir_run (parent p) w) as (r & Hrun & Hr). rewrite (Hr Hok) in Hrun.
  run_ok Hrun.
  unfold fs_writeFile, lift_fs, writeFile, write_check. cbn [fs set_fs].
  destruct p as [|x p]; [done|]. rewrite Hnode.
  assert (Hsame : (mkdir_p (parent (x :: p)) (fs w)).1 !! (x :: p) = fs w !! (x :: p)).
  { apply mkdir_p_elsewhere. intros [k Hk]. apply (f_equal List.length) in Hk.
    rewrite length_app, parent_length in Hk. simpl in Hk. lia. }
  rewrite Hsame. destruct (fs w !! (x :: p)) as [[|c]|]; [done | |]; by destruct w.
Qed.

Lemma parsed_insert_ne f p q n : p ≠ q → parsed (<[p := n]> f) q = parsed f q.
Proof.
  intros Hne. unfold parsed, readFile, node_at. destruct q; [reflexivity|].
  by rewrite lookup_insert_ne.
Qed.

Lemma rm_rf_gone root f q : root `prefix_of` q → rm_rf root f !! q = None.
Proof.
  intros Hpre. unfold rm_rf. apply map_lookup_filter_None. right.
  intros n _ Hkeep. by apply Hkeep.
Qed.

Lemma writeJson_fails p data w :
  p ≠ [] → unwritable (fs w) p →
  ∃ w' code q,
    writeJson p data w = (w', Throw (FsError code q)) ∧ mux w' = mux w.
Proof.
  intros Hp Hblocked. unfold writeJson.
  assert (Hsame : (mkdir_p (parent p) (fs w)).1 !! p = fs w !! p).
  { apply mkdir_p_elsewhere. intros [k Hk]. apply (f_equal List.length) in Hk.
    rewrite length_app, parent_length in Hk. destruct p; [done|]. simpl in Hk. lia. }
  pose proof (lift_fs_result (mkdir_p (parent p)) w) as Hmk.
  fold (mkdir (parent p)) in Hmk.
  destruct ((mkdir_p (parent p) (fs w)).2) as [e|] eqn:Herr.
  - destruct (mkdir_p_error _ _ _ Herr) as (code & q & ->).
    eexists _, code, q. split; [by apply run_bind_Throw | done].
  - destruct Hblocked as [(q & c & Hq & Hpre & Hfile)|Hdir].
    { destruct (mkdir_p_blocked _ _ _ _ Hq Hpre Hfile) as (code & q' & Herr').
      congruence. }
    run_ok Hmk.
    pose proof (lift_fs_result (writeFile p [PJson data])
                  (set_fs (mkdir_p (parent p) (fs w)).1 w)) as Hwr.
    fold (fs_writeFile p [PJson data]) in Hwr. cbn [fs set_fs] in Hwr.
    assert (Hcheck : ∃ code q,
              writeFile p [PJson data] (mkdir_p (parent p) (fs w)).1
              = ((mkdir_p (parent p) (fs w)).1, Some (FsError code q))).
    { unfold writeFile, write_check. destruct p as [|x p]; [done|].
      destruct (node_at _ (parent (x :: p))) as [[|c]|]; [|by eexists _, _..].
      rewrite Hsame, Hdir. by eexists _, _. }
    destruct Hcheck as (code & q & Hcheck). rewrite Hcheck in Hwr. cbn [fst snd] in Hwr.
    eexists _, code, q. split; [exact Hwr | done].
Qed.

Lemma killTeamSession_result sessionName w :
  killTeamSession sessionName w
  = (set_mux (Tmux.kill_session sessionName (mux w)).1 w, Ok tt).
Proof.
  unfold killTeamSession, try_catch, mbind, M_bind, bind, tmux, Tmux.exec.
  change (Tmux.run ["kill-session"; "-t"; sessionName] (mux w))
    with (Tmux.kill_session sessionName (mux w)).
  unfold Tmux.kill_session.
  destruct (Tmux.resolve sessionName (mux w)) as [[n p]|]; cbn; [reflexivity|].
  by rewrite set_mux_same.
Qed.

Lemma killTeamSession_run name w :
  ∃ w', killTeamSession ("omc-team-" +:+ name) w = (w', Ok tt)
        ∧ fs w' = fs w ∧ now w' = now w ∧ naps w' = naps w
        ∧ Tmux.sessions (mux w') !! ("omc-team-" +:+ name) = None.
Proof.
  eexists. split; [apply killTeamSession_result|]. repeat split.
  apply kill_session_gone.
Qed.

Lemma collectAcks_run root acks w :
  ∃ acks', collectAcks root acks w = (w, Ok acks').
Proof.
  unfold collectAcks. eexists. apply foldM_pure with
    (g := λ acks wName,
            if existsSync (fs w) (root ++ ["workers"; wName; "shutdown-ack.json"])
            then splice_indexOf wName acks else acks).
  intros s x. reflexivity.
Qed.

(** The ack loop returns when given a poll for every 500 ms up to the
    deadline and one more; it only sleeps. *)
Lemma pollAcks_run root deadline (fuel : nat) : ∀ acks w,
  (1 ≤ fuel)%nat →
  acks = [] ∨ deadline - now w ≤ 500 * (Z.of_nat fuel - 1) →
  ∃ w' acks',
    pollAcks fuel root deadline acks w = (w', Ok acks')
    ∧ mux w' = mux w
    ∧ now w ≤ now w'
    ∧ (now w' = now w ∨ now w' < deadline + 500).
Proof.
  induction fuel as [|fuel IH]; intros acks w Hfuel Hroom; [lia|].
  cbn [pollAcks]. rewrite (run_bind_Ok _ _ w w (now w)) by reflexivity.
  destruct ((now w <? deadline) && (0 <? List.length acks)%nat) eqn:Hcond.
  - apply andb_prop in Hcond as [Hlt%Z.ltb_lt Hne%Nat.ltb_lt].
    destruct Hroom as [-> | Hroom]; [simpl in Hne; lia|].
    destruct (collectAcks_run root acks w) as (acks1 & Hcollect).
    run_ok Hcollect.
    destruct (0 <? List.length acks1)%nat eqn:Hleft.
    + set (w1 := after_sleep 500 w).
      rewrite (run_bind_Ok _ _ w w1 tt) by reflexivity.
      destruct (IH acks1 w1) as (w' & acks' & Hrun & Hmux & Hnow & Hend);
        [lia | right; subst w1; cbn [now after_sleep]; lia |].
      exists w', acks'. split; [exact Hrun|]. subst w1. cbn [mux now after_sleep] in *.
      split; [exact Hmux|]. split; [lia|]. right. lia.
    + rewrite (run_bind_Ok _ _ w w tt) by reflexivity.
      apply Nat.ltb_ge in Hleft. destruct acks1; [|simpl in Hleft; lia].
      apply IH; [lia | by left].
  - exists w, acks. repeat split; [lia | by left].
Qed.

Lemma poll_fuel_enough timeoutMs :
  (1 ≤ poll_fuel timeoutMs)%nat
  ∧ timeoutMs ≤ 500 * (Z.of_nat (poll_fuel timeoutMs) - 1).
Proof.
  unfold poll_fuel. split; [lia|].
  destruct (Z.le_gt_cases timeoutMs 0) as [Hneg|Hpos]; [lia|].
  rewrite !Nat2Z.inj_succ, Z2Nat.id by (apply Z.div_pos; lia).
  pose proof (Z.mod_pos_bound timeoutMs 500 ltac:(lia)).
  pose proof (Z.div_mod timeoutMs 500 ltac:(lia)). lia.
Qed.

Section Shutdown.
Context `{Host}.

Lemma state_root_file (cwd teamName name : string) :
  stateRoot cwd teamName ++ [name] ≠ [].
Proof. intros [_ ?]%app_eq_nil. discriminate. Qed.

(** The ack loop, the kill and the clean-up of [shutdownTeam], for a
    worker count that is a valid array length. *)
Lemma shutdownTeam_tail (teamName name cwd : string) (timeoutMs t0 n : Z) (w1 : World) :
  let root := stateRoot cwd teamName in
  let sessionName := "omc-team-" +:+ name in
  n ≤ 4294967295 → t0 ≤ now w1 →
  ∃ w',
    (expectedAcks ← Array_from_length n (λ i, "worker-" +:+ String_of (Z.of_nat i + 1));
     pollAcks (poll_fuel timeoutMs) root (t0 + timeoutMs) expectedAcks;;
     killTeamSession sessionName;;
     try_catch (fs_rm root) (λ _, mret tt)) w1 = (w', Ok tt)
    ∧ Tmux.sessions (mux w') !! sessionName = None
    ∧ (∀ q, root `prefix_of` q → fs w' !! q = None)
    ∧ now w1 ≤ now w' ∧ (now w' = now w1 ∨ now w' < t0 + timeoutMs + 500).
Proof.
  cbn zeta. intros Hn Ht0. unfold Array_from_length.
  destruct (Z.ltb_spec 4294967295 n) as [Hbig|_]; [lia|].
  rewrite (run_bind_Ok _ _ w1 w1 _) by reflexivity.
  destruct (poll_fuel_enough timeoutMs) as [Hfuel1 Hfuel2].
  edestruct (pollAcks_run (stateRoot cwd teamName) (t0 + timeoutMs)
               (poll_fuel timeoutMs)) with (w := w1)
    as (w2 & acks' & Hpoll & Hmux2 & Hnow2 & Hend2);
    [exact Hfuel1 | right; lia |].
  run_ok Hpoll.
  destruct (killTeamSession_run name w2) as (w3 & Hkill & Hfs3 & Hnow3 & _ & Hgone).
  run_ok Hkill.
  eexists. split; [reflexivity|]. cbn [fs mux now set_fs].
  split; [exact Hgone|]. split; [intros q Hq; by apply rm_rf_gone|].
  rewrite Hnow3. split; [lia|]. destruct Hend2 as [->|?]; [by left | by right].
Qed.

(** C7, amended.  [shutdownTeam] on the session of a team
    ([omc-team-<name>]), for every timeout and whatever the workers write
    meanwhile.  When the shutdown request can be written (no regular
    file stands where a directory of the state root is needed and
    [shutdown.json] is not a directory) and the persisted worker count
    comes to an array length of at most 2^32 - 1, it returns without
    error; on return no session of that name exists, nothing is left at
    or below the state root, and the clock, which only the 500 ms sleeps
    advance, has moved by less than max(timeoutMs, 0) + 500.  When the
    request cannot be written it throws the error of the file system;
    when the request is written and the persisted worker count is an
    object that cannot be made a primitive it throws a TypeError, and
    when the count comes to more than 2^32 - 1 a RangeError; in all
    three cases the tmux server is as it was: the session is not
    killed. *)
Theorem shutdownTeam_returns (teamName name cwd : string) (timeoutMs : Z) (w : World) :
  let root := stateRoot cwd teamName in
  let sessionName := "omc-team-" +:+ name in
  ∃ w' r,
    shutdownTeam teamName sessionName cwd timeoutMs w = (w', r)
    ∧ (writable (fs w) (root ++ ["shutdown.json"]) →
       ∀ n, persistedLength (fs w) root = Some n → n ≤ 4294967295 →
       r = Ok tt
       ∧ Tmux.sessions (mux w') !! sessionName = None
       ∧ (∀ q, root `prefix_of` q → fs w' !! q = None)
       ∧ now w ≤ now w' < now w + Z.max 0 timeoutMs + 500)
    ∧ (unwritable (fs w) (root ++ ["shutdown.json"]) →
       (∃ code q, r = Throw (FsError code q)) ∧ mux w' = mux w)
    ∧ (writable (fs w) (root ++ ["shutdown.json"]) →
       persistedLength (fs w) root = None →
       r = Throw (TypeError "Cannot convert object to primitive value")
       ∧ mux w' = mux w)
    ∧ (writable (fs w) (root ++ ["shutdown.json"]) →
       ∀ n, persistedLength (fs w) root = Some n → 4294967295 < n →
       r = Throw (RangeError "Invalid array length") ∧ mux w' = mux w).
Proof.
  cbn zeta.
  pose proof (state_root_file cwd teamName "shutdown.json") as Hmarker.
  destruct (shutdownTeam teamName ("omc-team-" +:+ name) cwd timeoutMs w)
    as [w' r] eqn:Hrun.
  exists w', r. split; [reflexivity|].
  assert (Hwritten : writable (fs w) (stateRoot cwd teamName ++ ["shutdown.json"]) →
    ∃ w1, mux w1 = mux w ∧ now w1 = now w
      ∧ (length ← LengthOfArrayLike
                    (nullish_or (get "workerCount"
                                   (parsed (fs w) (stateRoot cwd teamName ++ ["config.json"])))
                                (JNum 0));
         expectedAcks ← Array_from_length length
                          (λ i, "worker-" +:+ String_of (Z.of_nat i + 1));
         pollAcks (poll_fuel timeoutMs) (stateRoot cwd teamName) (now w + timeoutMs)
                  expectedAcks;;
         killTeamSession ("omc-team-" +:+ name);;
         try_catch (fs_rm (stateRoot cwd teamName)) (λ _, mret tt)) w1 = (w', r)).
  { intros Hwritable. revert Hrun. unfold shutdownTeam.
    rewrite (run_bind_Ok _ _ w w (now w)) by reflexivity.
    run_ok (writeJson_ok _ _ w Hmarker Hwritable).
    set (w1 := set_fs _ w).
    rewrite (run_bind_Ok _ _ w1 w1 (now w)) by reflexivity.
    run_ok (readJsonSafe_run _ w1).
    assert (Hcfg : parsed (fs w1) (stateRoot cwd teamName ++ ["config.json"])
                   = parsed (fs w) (stateRoot cwd teamName ++ ["config.json"])).
    { subst w1. cbn [fs set_fs].
      rewrite parsed_insert_ne by (intros ?; simplify_list_eq).
      apply more_dirs_parsed, mkdir_p_more_dirs. }
    rewrite Hcfg. intros Hrun. by exists w1. }
  split; [|split; [|split]].
  - intros Hwritable n Hlen Hn.
    destruct (Hwritten Hwritable) as (w1 & Hmux1 & Hnow1 & Hrest).
    unfold persistedLength in Hlen. unfold LengthOfArrayLike in Hrest.
    rewrite Hlen in Hrest.
    rewrite (run_bind_Ok _ _ w1 w1 n) in Hrest by reflexivity.
    destruct (shutdownTeam_tail teamName name cwd timeoutMs (now w) n w1 Hn)
      as (w2 & Htail & Hgone & Hfs & Hnow & Hend); [lia|].
    cbn zeta in Htail. rewrite Htail in Hrest. injection Hrest as <- <-.
    split; [reflexivity|]. split; [exact Hgone|]. split; [exact Hfs|]. lia.
  - intros Hblocked. revert Hrun. unfold shutdownTeam.
    rewrite (run_bind_Ok _ _ w w (now w)) by reflexivity.
    destruct (writeJson_fails _ (JObj [("requestedAt", JStr (Date_toISOString (now w)));
                                       ("teamName", JStr teamName)]) w Hmarker Hblocked)
      as (w1 & code & q & Hwrite & Hmux1).
    rewrite (run_bind_Throw _ _ _ _ _ Hwrite). intros [= <- <-].
    split; [by eexists _, _ | exact Hmux1].
  - intros Hwritable Hlen.
    destruct (Hwritten Hwritable) as (w1 & Hmux1 & Hnow1 & Hrest).
    unfold persistedLength in Hlen. unfold LengthOfArrayLike in Hrest.
    rewrite Hlen in Hrest.
    rewrite (run_bind_Throw _ _ w1 w1 (TypeError "Cannot convert object to primitive value"))
      in Hrest by reflexivity.
    injection Hrest as <- <-. by split.
  - intros Hwritable n Hlen Hn.
    destruct (Hwritten Hwritable) as (w1 & Hmux1 & Hnow1 & Hrest).
    unfold persistedLength in Hlen. unfold LengthOfArrayLike in Hrest.
    rewrite Hlen in Hrest.
    rewrite (run_bind_Ok _ _ w1 w1 n) in Hrest by reflexivity.
    unfold Array_from_length in Hrest.
    destruct (Z.ltb_spec 4294967295 n) as [_|Hsmall]; [|lia].
    rewrite (run_bind_Throw _ _ w1 w1 (RangeError "Invalid array length"))
      in Hrest by reflexivity.
    injection Hrest as <- <-. by split.
Qed.

End Shutdown.

(** C7, the claim as stated, fails: with [.omc] a regular file the
    shutdown request cannot be written; [shutdownTeam] throws and the
    session is still there.  And with a persisted worker count of
    [4294967296], written as a string, the array of expected acks cannot
    be made: [shutdownTeam] throws with the session still there. *)
Lemma shutdownTeam_counterexample :
  (let '(w', r) :=
     shutdownTeam (H := Demo.host) "t1" "omc-team-t1" "/p" 1000 blocked_state_world in
   r = Throw (FsError "ENOTDIR" (path_of "/p" ++ [".omc"]))
   ∧ (Tmux.panes <$> Tmux.sessions (mux w') !! "omc-team-t1") = Some ["%0"; "%1"; "%2"])
  ∧ (let '(w', r) :=
       shutdownTeam (H := Demo.host) "t1" "omc-team-t1" "/p" 1000 huge_count_world in
     r = Throw (RangeError "Invalid array length")
     ∧ (Tmux.panes <$> Tmux.sessions (mux w') !! "omc-team-t1")
       = Some ["%0"; "%1"; "%2"]).
Proof. vm_compute. done. Qed.

(** Witness for C7: a running team whose workers never ack, shut down
    with a timeout of 1000 ms. *)
Lemma shutdownTeam_returns_witness :
  ∃ w',
    shutdownTeam (H := Demo.host) "t1" "omc-team-t1" "/p" 1000 started_world = (w', Ok tt)
    ∧ Tmux.sessions (mux w') !! "omc-team-t1" = None
    ∧ fs w' !! (stateRoot "/p" "t1" ++ ["config.json"]) = None
    ∧ now w' < now started_world + 1500.
Proof.
  destruct (shutdownTeam_returns (H := Demo.host) "t1" "t1" "/p" 1000 started_world)
    as (w' & r & Hrun & Hgood & _).
  destruct (Hgood ltac:(split; [apply creatableb_spec; vm_compute; reflexivity
                               | vm_compute; discriminate]) 2 ltac:(vm_compute; reflexivity)
                  ltac:(lia))
    as (-> & Hgone & Hfs & Hnow).
  exists w'. split; [exact Hrun|]. split; [exact Hgone|].
  split; [apply Hfs; by exists ["config.json"] | lia].
Defined.

(** ** The panes of a new session *)

#[local] Instance pane_id_inj : Inj (=) (=) Tmux.pane_id.
Proof. intros a b Heq. unfold Tmux.pane_id in Heq. simpl in Heq. injection Heq as Heq. by apply (inj pretty). Qed.

Lemma panes_upto_S n0 i :
  panes_upto n0 (S i) = panes_upto n0 i ++ [Tmux.pane_id (n0 + 1 + N.of_nat i)].
Proof. unfold panes_upto. by rewrite seq_S, map_app. Qed.

Lemma panes_upto_length n0 i : List.length (panes_upto n0 i) = i.
Proof. unfold panes_upto. by rewrite length_map, length_seq. Qed.

Lemma panes_upto_elem n0 i id :
  id ∈ panes_upto n0 i ↔ ∃ k, (k < i)%nat ∧ id = Tmux.pane_id (n0 + 1 + N.of_nat k).
Proof.
  unfold panes_upto. rewrite list_elem_of_fmap. split.
  - intros (k & -> & Hk). exists k. split; [|done].
    apply list_elem_of_In, in_seq in Hk. lia.
  - intros (k & Hk & ->). exists k. split; [done|].
    apply list_elem_of_In, in_seq. lia.
Qed.

Lemma panes_NoDup n0 i : NoDup (Tmux.pane_id n0 :: panes_upto n0 i).
Proof.
  apply NoDup_cons. split.
  - rewrite panes_upto_elem. intros (k & _ & Heq). apply (inj _) in Heq. lia.
  - unfold panes_upto. apply NoDup_fmap_2_strong; [|apply NoDup_ListNoDup, seq_NoDup].
    intros a b _ _ Heq. apply (inj _) in Heq. lia.
Qed.

Lemma insert_after_last (l : list string) (a new : string) :
  NoDup (l ++ [a]) → Tmux.insert_after a new (l ++ [a]) = l ++ [a; new].
Proof.
  induction l as [|x l IH]; intros Hnd; simpl.
  - by rewrite String.eqb_refl.
  - apply NoDup_cons in Hnd as [Hx Hnd].
    destruct (String.eqb_spec x a) as [->|_]; [|by rewrite IH].
    exfalso. apply Hx. apply elem_of_app. right. by left.
Qed.

Lemma last_default (l : list string) (d1 d2 : string) :
  l ≠ [] → List.last l d1 = List.last l d2.
Proof.
  induction l as [|x [|y l] IH]; intros Hne; [done | done |].
  change (List.last (y :: l) d1 = List.last (y :: l) d2). by apply IH.
Qed.

Lemma cons_snoc_last (x : string) (l : list string) :
  x :: l = removelast (x :: l) ++ [List.last l x].
Proof.
  revert x. induction l as [|y l IH]; intros x; [done|].
  change (removelast (x :: y :: l)) with (x :: removelast (y :: l)).
  cbn [app]. f_equal. rewrite (IH y) at 1. f_equal. f_equal.
  destruct l as [|z l]; [done|].
  change (List.last (y :: z :: l) x) with (List.last (z :: l) x).
  by apply last_default.
Qed.

Lemma find_new_pane (leader new : string) (known : list string) :
  new ≠ leader → new ∉ known →
  List.find (λ p, negb (String.eqb p leader) && negb (includes known p))
            (leader :: known ++ [new]) = Some new.
Proof.
  intros Hl Hk. simpl. rewrite String.eqb_refl. simpl.
  assert (Hskip : ∀ l, (∀ x, x ∈ l → x ∈ known) →
            List.find (λ p, negb (String.eqb p leader) && negb (includes known p))
                      (l ++ [new]) = Some new).
  { induction l as [|x l IH]; intros Hin; simpl.
    - apply String.eqb_neq in Hl. rewrite Hl. unfold includes.
      by rewrite bool_decide_eq_false_2.
    - unfold includes at 1. rewrite (bool_decide_eq_true_2 (x ∈ known)) by (apply Hin; by left).
      rewrite andb_false_r. apply IH. intros y Hy. apply Hin. by right. }
  by apply Hskip.
Qed.

Lemma stdout_lines_panes (l : list string) :
  Forall (λ id, ∃ n, id = Tmux.pane_id n) l → stdout_lines l = l.
Proof.
  unfold stdout_lines. induction 1 as [|id l [n ->] _ IH]; [done|].
  rewrite filter_cons_True by done. by rewrite IH.
Qed.

Section CreatePanes.
Variables (name cwd : string) (n0 : N).
Local Abbreviation sname := ("omc-team-" +:+ name).
Local Abbreviation leader := (Tmux.pane_id n0).

Lemma resolve_pane s k p :
  Tmux.pane_info s !! Tmux.pane_id k = Some p →
  Tmux.resolve (Tmux.pane_id k) s = Some (Tmux.pane_session p, Tmux.pane_id k).
Proof. intros Hp. unfold Tmux.resolve, Tmux.pane_id in *. cbn in *. by rewrite Hp. Qed.

Lemma split_window_exec s ses target (i : nat) :
  Tmux.resolve target s = Some (sname, Tmux.active ses) →
  Tmux.sessions s !! sname = Some ses →
  Tmux.exec ["split-window"; match i with O => "-h" | S _ => "-v" end; "-t"; target;
             "-c"; cwd] s
  = ({| Tmux.sessions :=
          <[sname := {| Tmux.panes :=
                          Tmux.insert_after (Tmux.active ses)
                            (Tmux.pane_id (Tmux.next_pane s)) (Tmux.panes ses);
                        Tmux.active := Tmux.pane_id (Tmux.next_pane s) |}]>
            (Tmux.sessions s);
        Tmux.pane_info :=
          <[Tmux.pane_id (Tmux.next_pane s) := Tmux.fresh_pane sname]> (Tmux.pane_info s);
        Tmux.next_pane := N.succ (Tmux.next_pane s) |}, Ok []).
Proof.
  intros Hres Hses. unfold Tmux.exec.
  replace (Tmux.run _ s) with (Tmux.split_window target s) by (by destruct i).
  unfold Tmux.split_window. by rewrite Hres, Hses.
Qed.

Lemma list_panes_exec s ses :
  Tmux.sessions s !! sname = Some ses →
  Tmux.exec ["list-panes"; "-t"; sname; "-F"; "#{pane_id}"] s = (s, Ok (Tmux.panes ses)).
Proof.
  intros Hses. unfold Tmux.exec.
  change (Tmux.run ["list-panes"; "-t"; sname; "-F"; "#{pane_id}"] s)
    with (s, Tmux.list_panes sname s).
  unfold Tmux.list_panes. rewrite (resolve_session _ _ _ Hses), Hses. reflexivity.
Qed.

Lemma createWorkerPane_run (i : nat) (w : World) :
  session_inv sname n0 i (mux w) →
  ∃ w', createWorkerPane sname leader cwd (panes_upto n0 i) i w
        = (w', Ok (panes_upto n0 (S i)))
        ∧ session_inv sname n0 (S i) (mux w')
        ∧ fs w' = fs w ∧ now w' = now w.
Proof.
  intros (Hses & Hnext & Hinfo).
  set (ses := {| Tmux.panes := leader :: panes_upto n0 i;
                 Tmux.active := List.last (panes_upto n0 i) leader |}) in *.
  set (new := Tmux.pane_id (n0 + 1 + N.of_nat i)).
  assert (Hnew_leader : new ≠ leader).
  { intros Heq. apply (inj _) in Heq. lia. }
  assert (Hnew_known : new ∉ panes_upto n0 i).
  { rewrite panes_upto_elem. intros (k & Hk & Heq). apply (inj _) in Heq. lia. }
  assert (Htarget : ∃ target,
    (match i with
     | O => mret sname
     | S j => defined "args[3]" (panes_upto n0 i !! j)
     end : M string) w = (w, Ok target)
    ∧ Tmux.resolve target (mux w) = Some (sname, Tmux.active ses)).
  { destruct i as [|j].
    - exists sname. split; [reflexivity|]. by apply resolve_session.
    - exists (Tmux.pane_id (n0 + 1 + N.of_nat j)).
      rewrite panes_upto_S in *.
      rewrite list_lookup_middle by (by rewrite panes_upto_length).
      split; [reflexivity|].
      destruct (Hinfo (Tmux.pane_id (n0 + 1 + N.of_nat j))) as (p & Hp & Hps).
      { right. apply elem_of_app. right. by left. }
      rewrite (resolve_pane _ _ _ Hp), Hps. subst ses. cbn [Tmux.active].
      by rewrite ?panes_upto_S, last_last. }
  destruct Htarget as (target & Hrun_target & Hresolve).
  unfold createWorkerPane.
  run_ok Hrun_target.
  pose proof (split_window_exec (mux w) ses target i Hresolve Hses) as Hsplit.
  rewrite Hnext in Hsplit. fold new in Hsplit.
  assert (Hpanes : Tmux.insert_after (Tmux.active ses) new (Tmux.panes ses)
                   = leader :: panes_upto n0 i ++ [new]).
  { subst ses. cbn [Tmux.active Tmux.panes].
    change (leader :: panes_upto n0 i ++ [new]) with ((leader :: panes_upto n0 i) ++ [new]).
    pose proof (panes_NoDup n0 i) as Hnd.
    pose proof (cons_snoc_last leader (panes_upto n0 i)) as Hl.
    revert Hnd Hl. generalize (leader :: panes_upto n0 i) as l.
    intros l Hnd Hl. rewrite Hl in Hnd |- *.
    rewrite insert_after_last by done. by rewrite <- app_assoc. }
  rewrite Hpanes in Hsplit.
  set (s1 := {| Tmux.sessions := _ |}) in Hsplit.
  assert (Hsplit_run :
    tmux ["split-window"; match i with O => "-h" | S _ => "-v" end; "-t"; target; "-c"; cwd] w
    = (set_mux s1 w, Ok [])).
  { unfold tmux. by rewrite Hsplit. }
  run_ok Hsplit_run.
  assert (Hses1 : Tmux.sessions s1 !! sname
                  = Some {| Tmux.panes := leader :: panes_upto n0 i ++ [new];
                            Tmux.active := new |})
    by apply lookup_insert_eq.
  assert (Hlist_run :
    tmux ["list-panes"; "-t"; sname; "-F"; "#{pane_id}"] (set_mux s1 w)
    = (set_mux s1 w, Ok (leader :: panes_upto n0 i ++ [new]))).
  { unfold tmux. cbn [mux set_mux]. rewrite (list_panes_exec _ _ Hses1).
    cbn [Tmux.panes]. by destruct w. }
  run_ok Hlist_run.
  rewrite stdout_lines_panes.
  2:{ apply Forall_cons. split; [by eexists|]. apply Forall_app. split.
      - apply Forall_forall. intros id (k & _ & ->)%panes_upto_elem. by eexists.
      - apply Forall_singleton. by eexists. }
  rewrite (find_new_pane _ _ _ Hnew_leader Hnew_known).
  exists (set_mux s1 w). split; [by rewrite panes_upto_S|].
  split; [|by destruct w].
  unfold session_inv. cbn [mux set_mux]. rewrite panes_upto_S. split; [|split].
  - rewrite Hses1. by rewrite last_last.
  - subst s1. cbn [Tmux.next_pane]. lia.
  - intros id Hid. subst s1. cbn [Tmux.pane_info].
    destruct (decide (id = new)) as [->|Hne].
    + exists (Tmux.fresh_pane sname). by rewrite lookup_insert_eq.
    + rewrite lookup_insert_ne by done. apply Hinfo.
      rewrite app_comm_cons in Hid. apply elem_of_app in Hid as [Hid|Hid]; [done|].
      apply list_elem_of_singleton in Hid. done.
Qed.

Lemma createWorkerPanes_run (n : nat) (w : World) :
  session_inv sname n0 0 (mux w) →
  ∃ w', foldM (seq 0 n) (createWorkerPane sname leader cwd) [] w
        = (w', Ok (panes_upto n0 n))
        ∧ session_inv sname n0 n (mux w')
        ∧ fs w' = fs w ∧ now w' = now w.
Proof.
  intros Hinv.
  assert (Hgen : ∀ k i w1, session_inv sname n0 i (mux w1) →
    ∃ w', foldM (seq i k) (createWorkerPane sname leader cwd) (panes_upto n0 i) w1
          = (w', Ok (panes_upto n0 (i + k)))
          ∧ session_inv sname n0 (i + k) (mux w')
          ∧ fs w' = fs w1 ∧ now w' = now w1).
  { induction k as [|k IH]; intros i w1 Hi.
    - exists w1. rewrite Nat.add_0_r. split; [reflexivity|]. by split; [exact Hi|].
    - destruct (createWorkerPane_run i w1 Hi) as (w2 & Hrun & Hinv2 & Hfs2 & Hnow2).
      destruct (IH (S i) w2 Hinv2) as (w3 & Hrest & Hinv3 & Hfs3 & Hnow3).
      exists w3. cbn [seq foldM]. rewrite (run_bind_Ok _ _ _ _ _ Hrun), Hrest.
      replace (i + S k)%nat with (S i + k)%nat by lia.
      split; [reflexivity|]. split; [exact Hinv3|]. split; congruence. }
  apply (Hgen n 0%nat w Hinv).
Qed.

End CreatePanes.

(** What [createTeamSession] returns when the name is accepted and the
    session does not exist yet. *)
Lemma createTeamSession_run (teamName : string) (workerCount : Z) (cwd : string)
    (w : World) (name : string) :
  sanitizeName teamName = Ok name →
  Tmux.sessions (mux w) !! ("omc-team-" +:+ name) = None →
  ∃ w' session,
    createTeamSession teamName workerCount cwd w = (w', Ok session)
    ∧ sessionName session = "omc-team-" +:+ name
    ∧ List.length (workerPaneIds session) = Z.to_nat workerCount
    ∧ NoDup (leaderPaneId session :: workerPaneIds session)
    ∧ (Tmux.panes <$> Tmux.sessions (mux w') !! sessionName session)
      = Some (leaderPaneId session :: workerPaneIds session).
Proof.
  intros Hname Hfree. unfold createTeamSession.
  rewrite (run_bind_Ok _ _ w w name) by (unfold lift; by rewrite Hname).
  set (n0 := Tmux.next_pane (mux w)).
  set (s1 := {| Tmux.sessions :=
                  <[("omc-team-" +:+ name) := {| Tmux.panes := [Tmux.pane_id n0];
                                Tmux.active := Tmux.pane_id n0 |}]> (Tmux.sessions (mux w));
                Tmux.pane_info :=
                  <[Tmux.pane_id n0 := Tmux.fresh_pane ("omc-team-" +:+ name)]> (Tmux.pane_info (mux w));
                Tmux.next_pane := N.succ n0 |}).
  assert (Hnew : tmux ["new-session"; "-d"; "-s"; ("omc-team-" +:+ name); "-x"; "220"; "-y"; "50"; "-c"; cwd] w
                 = (set_mux s1 w, Ok [])).
  { unfold tmux, Tmux.exec.
    change (Tmux.run _ (mux w)) with (Tmux.new_session ("omc-team-" +:+ name) (mux w)).
    unfold Tmux.new_session. by rewrite Hfree. }
  run_ok Hnew.
  assert (Hinv : session_inv ("omc-team-" +:+ name) n0 0 s1).
  { split; [apply lookup_insert_eq|]. split; [subst s1; cbn; lia|].
    intros id Hid. apply list_elem_of_singleton in Hid as ->.
    exists (Tmux.fresh_pane ("omc-team-" +:+ name)). split; [apply lookup_insert_eq | done]. }
  assert (Hleader : tmux ["display-message"; "-t"; ("omc-team-" +:+ name); "-p"; "#{pane_id}"] (set_mux s1 w)
                    = (set_mux s1 w, Ok [Tmux.pane_id n0])).
  { unfold tmux, Tmux.exec. cbn [mux set_mux].
    change (Tmux.run _ s1) with (s1, Tmux.display_message ("omc-team-" +:+ name) "#{pane_id}" s1).
    unfold Tmux.display_message.
    destruct Hinv as (Hses & _). rewrite (resolve_session _ _ _ Hses).
    cbn. by destruct w. }
  run_ok Hleader.
  change (stdout_trim [Tmux.pane_id n0]) with (Tmux.pane_id n0).
  destruct (createWorkerPanes_run name cwd n0 (Z.to_nat workerCount) (set_mux s1 w) Hinv)
    as (w2 & Hloop & (Hses2 & _) & _).
  unfold range. run_ok Hloop.
  assert (Hexec : Tmux.exec ["select-layout"; "-t"; "omc-team-" +:+ name; "main-vertical"]
                            (mux w2) = (mux w2, Ok [])).
  { unfold Tmux.exec.
    change (Tmux.run _ (mux w2))
      with (mux w2, match Tmux.resolve ("omc-team-" +:+ name) (mux w2) with
                    | Some _ => Some ([] : list string) | None => None end).
    by rewrite (resolve_session _ _ _ Hses2). }
  assert (Hlayout : try_catch (tmux ["select-layout"; "-t"; "omc-team-" +:+ name;
                                     "main-vertical"];; mret tt) (λ _, mret tt) w2
                    = (w2, Ok tt)).
  { apply run_try_Ok. rewrite (run_bind_Ok _ _ w2 w2 []); [reflexivity|].
    unfold tmux. rewrite Hexec. by rewrite set_mux_same. }
  run_ok Hlayout.
  exists w2. eexists. split; [reflexivity|]. cbn [sessionName leaderPaneId workerPaneIds].
  split; [reflexivity|]. split; [apply panes_upto_length|].
  split; [apply panes_NoDup|]. by rewrite Hses2.
Qed.

(** Otherwise it throws: at [sanitizeName], or at [new-session] for a
    session that exists. *)
Lemma createTeamSession_fails (teamName : string) (workerCount : Z) (cwd : string)
    (w : World) :
  (∀ name, sanitizeName teamName = Ok name →
           Tmux.sessions (mux w) !! ("omc-team-" +:+ name) ≠ None) →
  is_Ok (createTeamSession teamName workerCount cwd w).2 = false.
Proof.
  intros Hbad. unfold createTeamSession, lift. unfold mbind at 1. unfold M_bind, bind.
  destruct (sanitizeName teamName) as [name| |] eqn:Hname; [|reflexivity..].
  specialize (Hbad name eq_refl).
  destruct (Tmux.sessions (mux w) !! ("omc-team-" +:+ name)) as [ses|] eqn:Hses; [|done].
  erewrite run_bind_Throw; [reflexivity|].
  unfold tmux, Tmux.exec.
  change (Tmux.run _ (mux w)) with (Tmux.new_session ("omc-team-" +:+ name) (mux w)).
  unfold Tmux.new_session. by rewrite Hses.
Qed.

(** C8.  On the modelled server, where every split succeeds and yields a
    fresh pane: whenever [createTeamSession] returns, for any worker
    count N it returns N worker pane identifiers (none for a negative N)
    and a leader pane identifier, all distinct, which are the panes of the
    session; and it does return whenever [sanitizeName] accepts the team
    name and the session does not exist yet. *)
Theorem createTeamSession_panes (teamName : string) (workerCount : Z) (cwd : string)
    (w : World) :
  (∀ w' session,
     createTeamSession teamName workerCount cwd w = (w', Ok session) →
     List.length (workerPaneIds session) = Z.to_nat workerCount
     ∧ NoDup (leaderPaneId session :: workerPaneIds session)
     ∧ (Tmux.panes <$> Tmux.sessions (mux w') !! sessionName session)
       = Some (leaderPaneId session :: workerPaneIds session))
  ∧ (∀ name,
       sanitizeName teamName = Ok name →
       Tmux.sessions (mux w) !! ("omc-team-" +:+ name) = None →
       ∃ w' session, createTeamSession teamName workerCount cwd w = (w', Ok session)).
Proof.
  split.
  - intros w' session Hrun.
    destruct (sanitizeName teamName) as [name| |] eqn:Hname.
    + destruct (Tmux.sessions (mux w) !! ("omc-team-" +:+ name)) as [ses|] eqn:Hses.
      * pose proof (createTeamSession_fails teamName workerCount cwd w) as Hfail.
        rewrite Hrun in Hfail. discriminate Hfail.
        intros name' Hname'. assert (name' = name) as -> by congruence. by rewrite Hses.
      * destruct (createTeamSession_run _ workerCount cwd _ _ Hname Hses)
          as (w1 & session1 & Hrun1 & _ & Hlen & Hnd & Hpanes).
        rewrite Hrun in Hrun1. by injection Hrun1 as <- <-.
    + pose proof (createTeamSession_fails teamName workerCount cwd w) as Hfail.
      rewrite Hrun in Hfail. discriminate Hfail. intros name' Hname'. congruence.
    + pose proof (createTeamSession_fails teamName workerCount cwd w) as Hfail.
      rewrite Hrun in Hfail. discriminate Hfail. intros name' Hname'. congruence.
  - intros name Hname Hfree.
    destruct (createTeamSession_run _ workerCount cwd _ _ Hname Hfree)
      as (w' & session & Hrun & _). eauto.
Qed.

(** Witness for C8: three workers for the team [my_team] on a fresh
    server. *)
Lemma createTeamSession_panes_witness :
  ∃ w' session,
    createTeamSession "my_team" 3 "/p" Demo.world0 = (w', Ok session)
    ∧ List.length (workerPaneIds session) = 3%nat
    ∧ NoDup (leaderPaneId session :: workerPaneIds session).
Proof.
  destruct (createTeamSession_panes "my_team" 3 "/p" Demo.world0) as [Hret Hruns].
  destruct (Hruns "myteam") as (w' & session & Hrun); [reflexivity | reflexivity |].
  destruct (Hret w' session Hrun) as (Hlen & Hnd & _).
  exists w', session. split; [exact Hrun|]. split; [exact Hlen | exact Hnd].
Defined.

(** ** The waits return *)

Lemma waitForWorkerReady_loop_returns sentinelPath deadline (fuel : nat) : ∀ w,
  (1 ≤ fuel)%nat →
  deadline - now w ≤ 500 * (Z.of_nat fuel - 1) →
  ∃ w' ready,
    waitForWorkerReady_loop fuel sentinelPath deadline w = (w', Ok ready)
    ∧ mux w' = mux w ∧ now w ≤ now w'
    ∧ (ready = true → existsSync (fs w') sentinelPath = true).
Proof.
  induction fuel as [|fuel IH]; intros w Hfuel Hroom; [lia|].
  cbn [waitForWorkerReady_loop]. rewrite (run_bind_Ok _ _ w w (now w)) by reflexivity.
  destruct (Z.ltb_spec (now w) deadline) as [Hlt|Hge].
  - destruct (existsSync (fs w) sentinelPath) eqn:Hex.
    + rewrite (run_bind_Ok _ _ w w true).
      * exists w, true. repeat split; [lia | done].
      * apply run_try_Ok. rewrite (run_bind_Ok _ _ w w tt); [reflexivity|].
        unfold fs_access. by rewrite Hex.
    + set (w1 := after_sleep 500 w).
      rewrite (run_bind_Ok _ _ w w1 false).
      * destruct (IH w1) as (w' & ready & Hrun & Hmux & Hnow & Hready);
          [lia | subst w1; cbn [now after_sleep]; lia |].
        exists w', ready. split; [exact Hrun|]. subst w1. cbn [mux now after_sleep] in *.
        repeat split; [done | lia | done].
      * erewrite run_try_Throw; [reflexivity|].
        apply run_bind_Throw. unfold fs_access. by rewrite Hex.
  - exists w, false. repeat split; [lia | done].
Qed.

(** [waitForWorkerReady] returns for every timeout, and only says
    [true] when the sentinel is there. *)
Lemma waitForWorkerReady_returns (teamName workerName cwd : string) (timeoutMs : Z)
    (w : World) :
  ∃ w' ready,
    TmuxSession.waitForWorkerReady teamName workerName cwd timeoutMs w = (w', Ok ready)
    ∧ (ready = true
       → existsSync (fs w') (readySentinel teamName workerName cwd) = true).
Proof.
  unfold TmuxSession.waitForWorkerReady.
  rewrite (run_bind_Ok _ _ w w (now w)) by reflexivity.
  destruct (poll_fuel_enough timeoutMs) as [Hfuel1 Hfuel2].
  destruct (waitForWorkerReady_loop_returns
              (readySentinel teamName workerName cwd) (now w + timeoutMs)
              (poll_fuel timeoutMs) w) as (w' & ready & Hrun & _ & _ & Hready);
    [exact Hfuel1 | lia |].
  by exists w', ready.
Qed.

Lemma waitAllReady_loop_returns deadline (fuel : nat) : ∀ waits w,
  (1 ≤ fuel)%nat →
  deadline - now w ≤ 500 * (Z.of_nat fuel - 1) →
  ∃ w' ready,
    waitAllReady_loop fuel deadline waits w = (w', Ok ready)
    ∧ List.length ready = List.length waits.
Proof.
  induction fuel as [|fuel IH]; intros waits w Hfuel Hroom; [lia|].
  cbn [waitAllReady_loop]. rewrite (run_bind_Ok _ _ w w (now w)) by reflexivity.
  destruct (Z.ltb_spec (now w) deadline) as [Hlt|Hge].
  - set (look := λ (acc : list (Path * option bool)) (pr : Path * option bool),
                   acc ++ [(pr.1, match pr.2 with
                                  | Some b => Some b
                                  | None => if existsSync (fs w) pr.1 then Some true
                                            else None
                                  end)]).
    assert (Hlook : ∀ l acc, List.length (foldl look acc l)
                             = (List.length acc + List.length l)%nat).
    { induction l as [|x l IHl]; intros acc; cbn [foldl List.length]; [lia|].
      rewrite IHl. unfold look. rewrite length_app. simpl. lia. }
    erewrite run_bind_Ok.
    2:{ apply foldM_pure with (g := look). intros acc [p [b|]]; reflexivity. }
    destruct (forallb _ (foldl look [] waits)).
    + eexists _, _. split; [reflexivity|]. by rewrite length_map, Hlook.
    + set (w1 := after_sleep 500 w).
      rewrite (run_bind_Ok _ _ w w1 tt) by reflexivity.
      destruct (IH (foldl look [] waits) w1) as (w' & ready & Hrun & Hlen);
        [lia | subst w1; cbn [now after_sleep]; lia |].
      exists w', ready. split; [exact Hrun|]. by rewrite Hlen, Hlook.
  - eexists _, _. split; [reflexivity|]. by rewrite length_map.
Qed.

(** The joint wait of [startTeam] returns one answer per worker. *)
Lemma waitAllReady_returns (teamName : string) (workerNames : list string)
    (cwd : string) (timeoutMs : Z) (w : World) :
  ∃ w' ready,
    waitAllReady teamName workerNames cwd timeoutMs w = (w', Ok ready)
    ∧ List.length ready = List.length workerNames.
Proof.
  unfold waitAllReady. rewrite (run_bind_Ok _ _ w w (now w)) by reflexivity.
  destruct (poll_fuel_enough timeoutMs) as [Hfuel1 Hfuel2].
  destruct (waitAllReady_loop_returns (now w + timeoutMs) (poll_fuel timeoutMs)
              (map (λ wName, (readySentinel teamName wName cwd, None)) workerNames) w)
    as (w' & ready & Hrun & Hlen); [exact Hfuel1 | lia |].
  exists w', ready. split; [exact Hrun|]. by rewrite Hlen, length_map.
Qed.

(** ** The joint wait and the single waits *)

Lemma waitAll_poll (waits : list (Path * option bool)) (w : World) :
  foldM waits (λ acc '(p, r),
                 match r with
                 | Some b => mret (acc ++ [(p, Some b)])
                 | None =>
                     found ← fs_existsSync p;
                     mret (acc ++ [(p, if found : bool then Some true else None)])
                 end) [] w
  = (w, Ok (map (look (fs w)) waits)).
Proof.
  erewrite foldM_pure with (g := λ acc pr, acc ++ [look (fs w) pr]).
  - f_equal. f_equal.
    assert (Hgen : ∀ acc, foldl (λ acc pr, acc ++ [look (fs w) pr]) acc waits
                          = acc ++ map (look (fs w)) waits).
    { induction waits as [|x l IH]; intros acc; cbn [foldl map].
      - by rewrite app_nil_r.
      - rewrite IH. by rewrite <- app_assoc. }
    apply (Hgen []).
  - intros acc [p [b|]]; reflexivity.
Qed.

(** In the joint wait every worker gets the answer its own
    [waitForWorkerReady] loop would give from the same world. *)
Lemma waitForWorkerReady_loop_step p deadline (fuel : nat) w :
  waitForWorkerReady_loop (S fuel) p deadline w
  = if now w <? deadline then
      if existsSync (fs w) p then (w, Ok true)
      else waitForWorkerReady_loop fuel p deadline (after_sleep 500 w)
    else (w, Ok false).
Proof.
  cbn [waitForWorkerReady_loop].
  rewrite (run_bind_Ok _ _ w w (now w)) by reflexivity.
  destruct (now w <? deadline); [|reflexivity].
  destruct (existsSync (fs w) p) eqn:Hex.
  - rewrite (run_bind_Ok _ _ w w true); [reflexivity|].
    apply run_try_Ok. rewrite (run_bind_Ok _ _ w w tt); [reflexivity|].
    unfold fs_access. by rewrite Hex.
  - rewrite (run_bind_Ok _ _ w (after_sleep 500 w) false); [reflexivity|].
    erewrite run_try_Throw; [reflexivity|].
    apply run_bind_Throw. unfold fs_access. by rewrite Hex.
Qed.

(** In the joint wait every worker gets the answer its own
    [waitForWorkerReady] loop would give from the same world. *)
Lemma waitAllReady_loop_agrees deadline (fuel : nat) : ∀ waits w,
  (1 ≤ fuel)%nat →
  deadline - now w ≤ 500 * (Z.of_nat fuel - 1) →
  ∃ w1 ready,
    waitAllReady_loop fuel deadline waits w = (w1, Ok ready)
    ∧ ∀ i p r, waits !! i = Some (p, r) →
        ∃ w2 alone,
          waitForWorkerReady_loop fuel p deadline w = (w2, Ok alone)
          ∧ ready !! i = Some (default alone r).
Proof.
  induction fuel as [|fuel IH]; intros waits w Hfuel Hroom; [lia|].
  cbn [waitAllReady_loop].
  rewrite (run_bind_Ok _ _ w w (now w)) by reflexivity.
  assert (Hdecided : ∀ i p b, waits !! i = Some (p, Some b) → ∀ ready : list bool,
            ready !! i = Some b →
            ∃ w2 alone, waitForWorkerReady_loop (S fuel) p deadline w = (w2, Ok alone)
                        ∧ ready !! i = Some (default alone (Some b))).
  { intros i p b _ ready Hready.
    destruct (waitForWorkerReady_loop_returns p deadline (S fuel) w Hfuel Hroom)
      as (w2 & alone & Hrun & _).
    by exists w2, alone. }
  destruct (Z.ltb_spec (now w) deadline) as [Hlt|Hge].
  - run_ok (waitAll_poll waits w).
    set (w1 := after_sleep 500 w).
    assert (Halone : ∀ p,
      waitForWorkerReady_loop (S fuel) p deadline w
      = if existsSync (fs w) p then (w, Ok true)
        else waitForWorkerReady_loop fuel p deadline w1).
    { intros p. rewrite waitForWorkerReady_loop_step.
      destruct (Z.ltb_spec (now w) deadline); [reflexivity | lia]. }
    destruct (forallb _ (map (look (fs w)) waits)) eqn:Hall.
    + eexists _, _. split; [reflexivity|]. intros i p r Hi.
      destruct r as [b|].
      * apply (Hdecided i p b Hi).
        rewrite !list_lookup_fmap, Hi. reflexivity.
      * rewrite Halone. rewrite !list_lookup_fmap, Hi.
        cbn [fmap option_fmap option_map look fst snd].
        destruct (existsSync (fs w) p) eqn:Hex.
        -- exists w, true. by split.
        -- exfalso. rewrite forallb_forall in Hall.
           assert (Hin : In (look (fs w) (p, None)) (map (look (fs w)) waits)).
           { apply list_elem_of_In, list_elem_of_fmap. exists (p, None).
             split; [reflexivity | by eapply list_elem_of_lookup_2]. }
           apply Hall in Hin. unfold look in Hin. cbn [fst snd] in Hin.
           rewrite Hex in Hin. discriminate Hin.
    + rewrite (run_bind_Ok _ _ w w1 tt) by reflexivity.
      destruct (IH (map (look (fs w)) waits) w1) as (w' & ready & Hrun & Hagree);
        [lia | subst w1; cbn [now after_sleep]; lia |].
      exists w', ready. split; [exact Hrun|]. intros i p r Hi.
      destruct (Hagree i p (look (fs w) (p, r)).2) as (w2 & alone & Hrun2 & Hready).
      { rewrite list_lookup_fmap, Hi. reflexivity. }
      unfold look in Hready. cbn [fst snd] in Hready.
      destruct r as [b|].
      * by apply (Hdecided i p b Hi).
      * rewrite Halone. destruct (existsSync (fs w) p).
        -- exists w, true. by split.
        -- exists w2, alone. by split.
  - eexists _, _. split; [reflexivity|]. intros i p r Hi.
    exists w, false. split.
    + rewrite waitForWorkerReady_loop_step.
      destruct (Z.ltb_spec (now w) deadline); [lia | reflexivity].
    + rewrite list_lookup_fmap, Hi. by destruct r.
Qed.

(** [Promise.all] of the waits, in lock step: the answer for each worker
    is the one its own [waitForWorkerReady] gives from the same world. *)
Lemma waitAllReady_agrees (teamName : string) (workerNames : list string)
    (cwd : string) (timeoutMs : Z) (w : World) :
  ∃ w1 ready,
    waitAllReady teamName workerNames cwd timeoutMs w = (w1, Ok ready)
    ∧ ∀ i wName, workerNames !! i = Some wName →
        ∃ w2 alone,
          TmuxSession.waitForWorkerReady teamName wName cwd timeoutMs w = (w2, Ok alone)
          ∧ ready !! i = Some alone.
Proof.
  unfold waitAllReady, TmuxSession.waitForWorkerReady.
  rewrite (run_bind_Ok _ _ w w (now w)) by reflexivity.
  destruct (poll_fuel_enough timeoutMs) as [Hfuel1 Hfuel2].
  destruct (waitAllReady_loop_agrees (now w + timeoutMs) (poll_fuel timeoutMs)
              (map (λ wName, (readySentinel teamName wName cwd, None)) workerNames) w)
    as (w1 & ready & Hrun & Hagree); [exact Hfuel1 | lia |].
  exists w1, ready. split; [exact Hrun|]. intros i wName Hi.
  destruct (Hagree i (readySentinel teamName wName cwd) None) as (w2 & alone & Hrun2 & Hr).
  { rewrite list_lookup_fmap, Hi. reflexivity. }
  exists w2, alone. split; [|exact Hr].
  by rewrite (run_bind_Ok _ _ w w (now w)).
Qed.

(** ** The scenarios of the specification, evaluated *)

Example startTeam_scenario :
  let '(w, r) :=
    startTeam (H := Demo.host) (H0 := Demo.collaborators) scenario_team scenario_world in
  (rt_workerNames <$> (match r with Ok rt => Some rt | _ => None end))
    = Some ["worker-1"; "worker-2"]
  ∧ parsed (fs w) (taskPathOf "/p" "t1" "1.json")
    = JObj [("id", JStr "1"); ("subject", JStr "a"); ("description", JStr "d");
            ("status", JStr "pending"); ("owner", JNull); ("result", JNull);
            ("createdAt", JStr "1000")]
  ∧ console w = [] ∧ now w = 1500.
Proof. vm_compute. done. Qed.

Example assignTask_scenario :
  let w0 :=
    (startTeam (H := Demo.host) (H0 := Demo.collaborators) scenario_team scenario_world).1 in
  let '(w, r) :=
    assignTask (H := Demo.host) "t1" "1" "worker-1" "%1" "omc-team-t1" "/p" w0 in
  r = Ok tt
  ∧ get "status" (parsed (fs w) (taskPathOf "/p" "t1" "1.json")) = Some (JStr "in_progress")
  ∧ get "owner" (parsed (fs w) (taskPathOf "/p" "t1" "1.json")) = Some (JStr "worker-1")
  ∧ content_at (fs w) (stateRoot "/p" "t1" ++ ["workers"; "worker-1"; "inbox.md"])
    = [PText (welcome "t1" "worker-1"); PText (assignmentBlock "t1" "1")].
Proof. vm_compute. done. Qed.

Example shutdownTeam_scenario :
  let w0 :=
    (startTeam (H := Demo.host) (H0 := Demo.collaborators) scenario_team scenario_world).1 in
  let '(w, r) := shutdownTeam (H := Demo.host) "t1" "omc-team-t1" "/p" 1000 w0 in
  r = Ok tt ∧ now w = now w0 + 1000
  ∧ Tmux.sessions (mux w) !! "omc-team-t1" = None
  ∧ existsSync (fs w) (stateRoot "/p" "t1") = false.
Proof. vm_compute. done. Qed.

(** * Further properties of the sources *)

(** ** Trimming *)

Lemma trimEnd_head (c : ascii) (s : string) :
  trimEnd (String c s) = "" ∨ ∃ s', trimEnd (String c s) = String c s'.
Proof. simpl. destruct (trimEnd s); [destruct (is_space c)|]; eauto. Qed.

Lemma trimEnd_app (a b : string) :
  trimEnd (a +:+ b) = match trimEnd b with
                      | EmptyString => trimEnd a
                      | b' => a +:+ b'
                      end.
Proof.
  induction a as [|c a IH]; [change ("" +:+ b) with b; by destruct (trimEnd b)|].
  rewrite string_app_cons. simpl. rewrite IH.
  destruct (trimEnd b) as [|d b']; [reflexivity|]. by destruct a.
Qed.

Lemma trimEnd_keeps (a : string) (c : ascii) :
  is_space c = false → trimEnd (a +:+ String c "") = a +:+ String c "".
Proof. intros Hc. rewrite trimEnd_app. simpl. by rewrite Hc. Qed.

Lemma trimStart_keeps (c : ascii) (s : string) :
  is_space c = false → trimStart (String c s) = String c s.
Proof. intros Hc. simpl. by rewrite Hc. Qed.

Lemma name_char_not_space (c : ascii) : name_char c = true → is_space c = false.
Proof. destruct c as [[] [] [] [] [] [] [] []]; by vm_compute. Qed.

Lemma forall_chars_impl (p q : ascii → bool) (s : string) :
  (∀ c, p c = true → q c = true) → forall_chars p s = true → forall_chars q s = true.
Proof.
  intros Hpq. unfold forall_chars. induction s as [|c s IH]; [reflexivity|].
  simpl. intros [Hc Hs]%andb_prop. by rewrite (Hpq c Hc), IH.
Qed.

Lemma string_snoc (s : string) : s ≠ "" → ∃ s0 c, s = s0 +:+ String c "".
Proof.
  induction s as [|c s IH]; [done|]. intros _. destruct s as [|d s].
  - by exists "", c.
  - destruct IH as (s0 & c' & ->); [done|]. by exists (String c s0), c'.
Qed.

(** ** One session per worker *)

Lemma sanitizeName_out (name out : string) :
  sanitizeName name = Ok out →
  forall_chars name_char out = true ∧ (2 ≤ String.length out ≤ 50)%nat.
Proof.
  intros [-> Hlen]%sanitizeName_inv. split.
  - apply slice0_chars, filter_chars_keeps.
  - rewrite slice0_length. lia.
Qed.

Lemma sanitizeName_returns_or_throws (name : string) : sanitizeName name ≠ OutOfFuel.
Proof.
  unfold sanitizeName.
  by destruct (String.length (filter_chars name_char name) =? 0)%nat,
              (String.length (filter_chars name_char name) <? 2)%nat.
Qed.

Lemma workerSessionName_inv (teamName workerName name : string) :
  workerSessionName teamName workerName = Ok name →
  ∃ team worker,
    sanitizeName teamName = Ok team ∧ sanitizeName workerName = Ok worker
    ∧ name = "omc-team-" +:+ team +:+ "-" +:+ worker.
Proof.
  unfold workerSessionName.
  destruct (sanitizeName teamName) as [team| |]; [|discriminate..].
  destruct (sanitizeName workerName) as [worker| |]; [|discriminate..].
  intros [= <-]. by exists team, worker.
Qed.

(** X1.  The session name of a worker is made of the prefix and the two
    sanitized names, so it holds no character outside [[A-Za-z0-9-]]
    and at most 110 characters; the call throws what [sanitizeName]
    throws, for the team name first. *)
Theorem workerSessionName_spec (teamName workerName : string) :
  match workerSessionName teamName workerName with
  | Ok name =>
      ∃ team worker,
        sanitizeName teamName = Ok team ∧ sanitizeName workerName = Ok worker
        ∧ name = "omc-team-" +:+ team +:+ "-" +:+ worker
        ∧ forall_chars name_char name = true
        ∧ (14 ≤ String.length name ≤ 110)%nat
  | Throw e =>
      sanitizeName teamName = Throw e
      ∨ (∃ team, sanitizeName teamName = Ok team) ∧ sanitizeName workerName = Throw e
  | OutOfFuel => False
  end.
Proof.
  destruct (workerSessionName teamName workerName) as [name|e|] eqn:Hname.
  - destruct (workerSessionName_inv _ _ _ Hname) as (team & worker & Ht & Hw & ->).
    destruct (sanitizeName_out _ _ Ht) as [Htc Htl].
    destruct (sanitizeName_out _ _ Hw) as [Hwc Hwl].
    exists team, worker. repeat split; try done.
    + rewrite !forall_chars_app, Htc, Hwc. reflexivity.
    + rewrite !string_app_length. simpl. lia.
    + rewrite !string_app_length. simpl. lia.
  - unfold workerSessionName in Hname.
    destruct (sanitizeName teamName) as [team|e'|]; [| left; congruence | discriminate].
    destruct (sanitizeName workerName) as [worker|e'|]; [discriminate | | discriminate].
    right. split; [by exists team | congruence].
  - unfold workerSessionName in Hname.
    destruct (sanitizeName teamName) as [team|e'|] eqn:Ht;
      [| discriminate | by apply sanitizeName_returns_or_throws in Ht].
    destruct (sanitizeName workerName) as [worker|e'|] eqn:Hw;
      [discriminate | discriminate | by apply sanitizeName_returns_or_throws in Hw].
Qed.

Lemma session_names (s : Tmux.Server) (n : string) :
  n ∈ (map_to_list (Tmux.sessions s)).*1 ↔ is_Some (Tmux.sessions s !! n).
Proof.
  rewrite list_elem_of_fmap. split.
  - intros ([n' ses] & -> & Hin). apply elem_of_map_to_list in Hin. by eexists.
  - intros [ses Hses]. exists (n, ses). split; [done|]. by apply elem_of_map_to_list.
Qed.

Lemma aloneb_spec (name : string) (s : Tmux.Server) : aloneb name s = true → alone name s.
Proof.
  unfold aloneb. rewrite forallb_forall. intros Hall n Hn%session_names Hpre.
  specialize (Hall n (proj1 (list_elem_of_In _ _) Hn)). rewrite Hpre in Hall.
  by apply String.eqb_eq.
Qed.

Lemma killed_gone (rest : string) (s : Tmux.Server) :
  Tmux.sessions (killed ("omc-team-" +:+ rest) s) !! ("omc-team-" +:+ rest) = None.
Proof. apply kill_session_gone. Qed.

Lemma killed_subset (name : string) (s : Tmux.Server) (n : string) :
  is_Some (Tmux.sessions (killed name s) !! n) → is_Some (Tmux.sessions s !! n).
Proof.
  unfold killed, Tmux.kill_session.
  destruct (Tmux.resolve name s) as [[n' p]|]; cbn [fst]; [|done].
  rewrite without_sessions. intros [ses Hses].
  apply lookup_delete_Some in Hses as [_ Hses]. by eexists.
Qed.

Lemma name_char_target (c : ascii) : name_char c = true → target_char c = true.
Proof. destruct c as [[] [] [] [] [] [] [] []]; by vm_compute. Qed.

Lemma target_char_literal (c : ascii) :
  target_char c = true →
  Ascii.eqb c "*" = false ∧ Ascii.eqb c "?" = false
  ∧ Ascii.eqb c "\" = false ∧ Ascii.eqb c "[" = false.
Proof. destruct c as [[] [] [] [] [] [] [] []]; by vm_compute. Qed.

(** A pattern without pattern characters matches itself only. *)
Lemma glob_literal (fuel : nat) : ∀ p s,
  forall_chars target_char p = true → Tmux.glob fuel p s = true → s = p.
Proof.
  induction fuel as [|fuel IH]; intros p s Hp Hmatch; [discriminate|].
  destruct p as [|c p].
  - simpl in Hmatch. by destruct s.
  - unfold forall_chars in Hp. simpl in Hp. apply andb_prop in Hp as [Hc Hp].
    destruct (target_char_literal c Hc) as (Hstar & Hany & Hquote & Hbracket).
    cbn [Tmux.glob] in Hmatch. rewrite Hstar in Hmatch.
    destruct s as [|d s]; [discriminate|].
    rewrite Hany, Hquote, Hbracket in Hmatch.
    apply andb_prop in Hmatch as [->%Ascii.eqb_eq Hrest].
    f_equal. by apply IH.
Qed.

Lemma filter_none {A} (P : A → bool) (l : list A) :
  (∀ x, x ∈ l → P x = false) → List.filter P l = [].
Proof.
  induction l as [|x l IH]; intros Hall; [reflexivity|].
  simpl. rewrite (Hall x) by (by left). apply IH. intros y Hy. apply Hall. by right.
Qed.

Lemma startsWith_refl (s : string) : startsWith s s = true.
Proof. induction s as [|c s IH]; [done|]. simpl. by rewrite Ascii.eqb_refl. Qed.

(** A target without pattern characters that no session name starts
    with names no session. *)
Lemma find_session_none (target : string) (s : Tmux.Server) :
  forall_chars target_char target = true →
  (∀ n, is_Some (Tmux.sessions s !! n) → startsWith n target = false) →
  Tmux.find_session target s = None.
Proof.
  intros Hchars Hnone. unfold Tmux.find_session.
  destruct (Tmux.sessions s !! target) as [ses|] eqn:Hs.
  { pose proof (Hnone target ltac:(by eexists)) as Hself.
    by rewrite startsWith_refl in Hself. }
  rewrite !filter_none; [reflexivity | |].
  - intros n Hn%session_names. destruct (Tmux.fnmatch target n) eqn:Hmatch; [|done].
    apply glob_literal in Hmatch as ->; [|done]. destruct Hn as [? ?]. congruence.
  - intros n Hn%session_names. by apply Hnone.
Qed.

Lemma find_session_alone (name : string) (s : Tmux.Server) :
  forall_chars name_char name = true → alone name s →
  Tmux.find_session name s
  = match Tmux.sessions s !! name with Some _ => Some name | None => None end.
Proof.
  intros Hchars Halone.
  destruct (Tmux.sessions s !! name) as [ses|] eqn:Hs;
    [by apply (find_session_exact _ _ ses)|].
  apply find_session_none.
  - by apply (forall_chars_impl name_char), Hchars; apply name_char_target.
  - intros n Hn. destruct (startsWith n name) eqn:Hpre; [|done].
    rewrite (Halone n Hn Hpre) in Hn. destruct Hn as [? ?]. congruence.
Qed.

Lemma killed_alone (rest : string) (s : Tmux.Server) :
  forall_chars name_char ("omc-team-" +:+ rest) = true →
  alone ("omc-team-" +:+ rest) s →
  killed ("omc-team-" +:+ rest) s
  = match Tmux.sessions s !! ("omc-team-" +:+ rest) with
    | Some _ => Tmux.without ("omc-team-" +:+ rest) s
    | None => s
    end.
Proof.
  intros Hchars Halone. unfold killed, Tmux.kill_session.
  rewrite resolve_name, (find_session_alone _ _ Hchars Halone).
  destruct (Tmux.sessions s !! ("omc-team-" +:+ rest)) as [ses|] eqn:Hs; [|done].
  by rewrite Hs.
Qed.

Lemma alone_fewer (name : string) (s s' : Tmux.Server) :
  (∀ n, is_Some (Tmux.sessions s' !! n) → n = name ∨ is_Some (Tmux.sessions s !! n)) →
  alone name s → alone name s'.
Proof.
  intros Hsub Halone n Hn Hpre. destruct (Hsub n Hn) as [->|Hn']; [done|].
  by apply Halone.
Qed.

Lemma kill_session_try (name : string) (w : World) :
  try_catch (tmux_sync ["kill-session"; "-t"; name];; mret tt) (λ _, mret tt) w
  = (set_mux (killed name (mux w)) w, Ok tt).
Proof.
  unfold try_catch, mbind, M_bind, bind, tmux_sync, Tmux.exec_sync, killed.
  change (Tmux.run_sync ["kill-session"; "-t"; name] (mux w))
    with (Tmux.kill_session name (mux w)).
  unfold Tmux.kill_session.
  destruct (Tmux.resolve name (mux w)) as [[n p]|]; [reflexivity|].
  cbn. by rewrite set_mux_same.
Qed.

Lemma new_session_sync (rest : string) (workingDirectory : option string) (w : World) :
  let name := "omc-team-" +:+ rest in
  Tmux.sessions (mux w) !! name = None →
  tmux_sync (match workingDirectory with
             | Some dir =>
                 if String.eqb dir ""
                 then ["new-session"; "-d"; "-s"; name; "-x"; "200"; "-y"; "50"]
                 else ["new-session"; "-d"; "-s"; name; "-x"; "200"; "-y"; "50"]
                      ++ ["-c"; dir]
             | None => ["new-session"; "-d"; "-s"; name; "-x"; "200"; "-y"; "50"]
             end) w
  = (set_mux (with_session name (mux w)) w, Ok []).
Proof.
  intros name Hfree. unfold tmux_sync, Tmux.exec_sync, with_session.
  replace (Tmux.run_sync _ (mux w)) with (Tmux.new_session name (mux w)).
  - unfold Tmux.new_session. by rewrite Hfree.
  - destruct workingDirectory as [dir|]; [|reflexivity].
    by destruct (String.eqb dir "").
Qed.

Lemma set_mux_twice (s1 s2 : Tmux.Server) (w : World) :
  set_mux s2 (set_mux s1 w) = set_mux s2 w.
Proof. reflexivity. Qed.

(** What [createSession] does for names that [sanitizeName] accepts. *)
Lemma createSession_run (teamName workerName : string)
    (workingDirectory : option string) (w : World) (name : string) :
  workerSessionName teamName workerName = Ok name →
  createSession teamName workerName workingDirectory w
  = (set_mux (with_session name (killed name (mux w))) w, Ok name).
Proof.
  intros Hname. unfold createSession.
  rewrite (run_bind_Ok _ _ w w name) by (unfold lift; by rewrite Hname).
  run_ok (kill_session_try name w).
  destruct (workerSessionName_inv _ _ _ Hname) as (team & worker & _ & _ & ->).
  rewrite (run_bind_Ok _ _ _ _ _
             (new_session_sync _ workingDirectory (set_mux (killed _ (mux w)) w)
                ltac:(cbn; apply killed_gone))).
  reflexivity.
Qed.

(** The session [createSession] makes on the server left by the kill. *)
Lemma with_session_killed (rest : string) (s : Tmux.Server) :
  let name := "omc-team-" +:+ rest in
  let id := Tmux.pane_id (Tmux.next_pane (killed name s)) in
  with_session name (killed name s)
  = {| Tmux.sessions := <[name := {| Tmux.panes := [id]; Tmux.active := id |}]>
                          (Tmux.sessions (killed name s));
       Tmux.pane_info := <[id := Tmux.fresh_pane name]> (Tmux.pane_info (killed name s));
       Tmux.next_pane := N.succ (Tmux.next_pane (killed name s)) |}.
Proof. cbn zeta. unfold with_session, Tmux.new_session. by rewrite killed_gone. Qed.

Lemma workerSessionName_chars (teamName workerName name : string) :
  workerSessionName teamName workerName = Ok name →
  name ≠ "" ∧ forall_chars name_char name = true.
Proof.
  intros (team & worker & Ht & Hw & ->)%workerSessionName_inv.
  split; [done|].
  rewrite !forall_chars_app, (proj1 (sanitizeName_out _ _ Ht)),
    (proj1 (sanitizeName_out _ _ Hw)). reflexivity.
Qed.

(** X2.  [createSession] returns for every pair of names that [sanitizeName]
    accepts, whether or not the session exists already.  When no other
    session has a name that starts with the name of the session:
    afterwards the session has one pane, new and untouched (pane [%0]
    when the stale session was the only one of the server, which ended
    with it); a stale session of the same name is gone with its panes;
    the other sessions and their panes are as they were, and so is
    everything but the server. *)
Theorem createSession_replaces (teamName workerName : string)
    (workingDirectory : option string) (w : World) (name : string) :
  workerSessionName teamName workerName = Ok name →
  alone name (mux w) →
  let id := Tmux.pane_id (if only_session name (mux w) then 0%N
                          else Tmux.next_pane (mux w)) in
  ∃ s', createSession teamName workerName workingDirectory w = (set_mux s' w, Ok name)
    ∧ Tmux.sessions s' !! name = Some {| Tmux.panes := [id]; Tmux.active := id |}
    ∧ Tmux.pane_info s' !! id = Some (Tmux.fresh_pane name)
    ∧ (∀ other, other ≠ name → Tmux.sessions s' !! other = Tmux.sessions (mux w) !! other)
    ∧ (∀ p info, p ≠ id → Tmux.pane_info (mux w) !! p = Some info →
                 Tmux.pane_session info ≠ name →
                 is_Some (Tmux.sessions (mux w) !! Tmux.pane_session info) →
                 Tmux.pane_info s' !! p = Some info)
    ∧ (∀ p info, p ≠ id → is_Some (Tmux.sessions (mux w) !! name) →
                 Tmux.pane_info s' !! p = Some info → Tmux.pane_session info ≠ name).
Proof.
  intros Hname Halone id. eexists. split; [by apply createSession_run|].
  destruct (workerSessionName_chars _ _ _ Hname) as [_ Hchars].
  destruct (workerSessionName_inv _ _ _ Hname) as (team & worker & _ & _ & Heq).
  subst name. subst id.
  rewrite with_session_killed, (killed_alone _ _ Hchars Halone).
  set (name' := "omc-team-" +:+ team +:+ "-" +:+ worker) in *.
  unfold only_session.
  destruct (Tmux.sessions (mux w) !! name') as [ses|] eqn:Hses.
  - rewrite (bool_decide_eq_true_2 (is_Some (Some ses))) by (by eexists). cbn [andb].
    unfold Tmux.without. destruct (bool_decide (delete name' _ = ∅)) eqn:Hlast.
    + apply bool_decide_eq_true in Hlast.
      cbn [Tmux.sessions Tmux.pane_info Tmux.next_pane Tmux.empty].
      split; [apply lookup_insert_eq|]. split; [apply lookup_insert_eq|].
      split; [|split].
      * intros other Hne. rewrite lookup_insert_ne, lookup_empty by done.
        rewrite <- (lookup_delete_ne (Tmux.sessions (mux w)) name' other) by done.
        by rewrite Hlast.
      * intros p info _ _ Hother [ses' Hses'].
        rewrite <- (lookup_delete_ne (Tmux.sessions (mux w)) name') in Hses' by done.
        by rewrite Hlast in Hses'.
      * intros p info Hp _. by rewrite lookup_insert_ne, lookup_empty.
    + cbn [Tmux.sessions Tmux.pane_info Tmux.next_pane].
      split; [apply lookup_insert_eq|]. split; [apply lookup_insert_eq|].
      split; [|split].
      * intros other Hne. rewrite lookup_insert_ne by done. by apply lookup_delete_ne.
      * intros p info Hp Hinfo Hother _. rewrite lookup_insert_ne by done.
        by apply map_lookup_filter_Some_2.
      * intros p info Hp _ Hinfo. rewrite lookup_insert_ne in Hinfo by done.
        by apply map_lookup_filter_Some in Hinfo as [_ ?].
  - rewrite (bool_decide_eq_false_2 (is_Some None)) by (by intros [? ?]). cbn [andb].
    cbn [Tmux.sessions Tmux.pane_info Tmux.next_pane].
    split; [apply lookup_insert_eq|]. split; [apply lookup_insert_eq|].
    split; [|split].
    + intros other Hne. by rewrite lookup_insert_ne.
    + intros p info Hp Hinfo _ _. by rewrite lookup_insert_ne.
    + by intros p info _ [? ?].
Qed.

(** Witness for X2: the worker [w#1] of the team [my team], twice in a row. *)
Lemma createSession_replaces_witness :
  ∃ s', createSession "my team" "w#1" None
          (createSession "my team" "w#1" None Demo.world0).1
        = (set_mux s' (createSession "my team" "w#1" None Demo.world0).1,
           Ok "omc-team-myteam-w1")
      ∧ Tmux.sessions s' !! "omc-team-myteam-w1"
        = Some {| Tmux.panes := ["%0"]; Tmux.active := "%0" |}.
Proof.
  destruct (createSession_replaces "my team" "w#1" None
              (createSession "my team" "w#1" None Demo.world0).1 "omc-team-myteam-w1"
              eq_refl ltac:(apply aloneb_spec; vm_compute; reflexivity))
    as (s' & Hrun & Hses & _).
  exists s'. split; [exact Hrun | exact Hses].
Defined.

Lemma has_session_try (rest : string) (w : World) :
  let name := "omc-team-" +:+ rest in
  try_catch (tmux_sync ["has-session"; "-t"; name];; mret true) (λ _, mret false) w
  = (w, Ok (bool_decide (is_Some (Tmux.find_session name (mux w))))).
Proof.
  intros name.
  unfold try_catch, mbind, M_bind, bind, tmux_sync, Tmux.exec_sync.
  change (Tmux.run_sync ["has-session"; "-t"; name] (mux w))
    with (mux w, match Tmux.resolve name (mux w) with
                 | Some _ => Some ([] : list string)
                 | None => None
                 end).
  unfold name. rewrite resolve_name.
  destruct (Tmux.find_session _ (mux w)) as [n|] eqn:Hfind; cbn.
  - destruct (find_session_alive _ _ _ Hfind) as [ses Hses]. rewrite Hses. cbn.
    by rewrite set_mux_same.
  - by rewrite set_mux_same.
Qed.

Lemma killSession_run (teamName workerName : string) (w : World) (name : string) :
  workerSessionName teamName workerName = Ok name →
  killSession teamName workerName w = (set_mux (killed name (mux w)) w, Ok tt).
Proof.
  intros Hname. unfold killSession.
  rewrite (run_bind_Ok _ _ w w name) by (unfold lift; by rewrite Hname).
  apply kill_session_try.
Qed.

Lemma isSessionAlive_run (teamName workerName : string) (w : World) (name : string) :
  workerSessionName teamName workerName = Ok name →
  isSessionAlive teamName workerName w
  = (w, Ok (bool_decide (is_Some (Tmux.find_session name (mux w))))).
Proof.
  intros Hname. unfold isSessionAlive.
  rewrite (run_bind_Ok _ _ w w name) by (unfold lift; by rewrite Hname).
  destruct (workerSessionName_inv _ _ _ Hname) as (team & worker & _ & _ & ->).
  apply has_session_try.
Qed.

(** X3.  The life of a worker session, for names that [sanitizeName] accepts:
    [isSessionAlive] is true after [createSession], and [killSession]
    never throws.  When no other session has a name that starts with the
    name of the session, [isSessionAlive] is false after [killSession],
    and where there is no such session [killSession] changes nothing. *)
Theorem worker_session_lifecycle (teamName workerName : string)
    (workingDirectory : option string) (w : World) (name : string) :
  workerSessionName teamName workerName = Ok name →
  let w1 := (createSession teamName workerName workingDirectory w).1 in
  let w2 := (killSession teamName workerName w1).1 in
  isSessionAlive teamName workerName w1 = (w1, Ok true)
  ∧ killSession teamName workerName w1 = (w2, Ok tt)
  ∧ (alone name (mux w) →
     isSessionAlive teamName workerName w2 = (w2, Ok false)
     ∧ killSession teamName workerName w2 = (w2, Ok tt)).
Proof.
  intros Hname w1 w2. subst w2 w1.
  rewrite (createSession_run _ _ workingDirectory w _ Hname). cbn [fst].
  rewrite !(killSession_run _ _ _ _ Hname). cbn [fst mux set_mux].
  rewrite !(isSessionAlive_run _ _ _ _ Hname). cbn [mux set_mux].
  destruct (workerSessionName_chars _ _ _ Hname) as [_ Hchars].
  destruct (workerSessionName_inv _ _ _ Hname) as (team & worker & _ & _ & Heq).
  rewrite Heq in Hchars |- *.
  set (name' := "omc-team-" +:+ team +:+ "-" +:+ worker) in *.
  assert (Hmade : is_Some (Tmux.sessions (with_session name' (killed name' (mux w)))
                             !! name')).
  { unfold name'. rewrite with_session_killed. cbn [Tmux.sessions].
    rewrite lookup_insert_eq. by eexists. }
  split; [|split; [reflexivity|]].
  - rewrite bool_decide_eq_true_2; [done|].
    destruct Hmade as [ses Hses]. rewrite (find_session_exact _ _ _ Hses). by eexists.
  - intros Halone.
    assert (Halone2 : alone name'
                        (killed name' (with_session name' (killed name' (mux w))))).
    { eapply alone_fewer; [|exact Halone]. intros n Hn%killed_subset.
      unfold name' in Hn. rewrite with_session_killed in Hn. cbn [Tmux.sessions] in Hn.
      destruct (decide (n = name')) as [->|Hne]; [by left|]. right.
      rewrite lookup_insert_ne in Hn by done. by apply killed_subset in Hn. }
    assert (Hnone : Tmux.find_session name'
                      (killed name' (with_session name' (killed name' (mux w)))) = None).
    { rewrite (find_session_alone _ _ Hchars Halone2). unfold name'.
      by rewrite killed_gone. }
    split.
    + rewrite bool_decide_eq_false_2; [done|]. rewrite Hnone. by intros [? ?].
    + f_equal. unfold set_mux. cbn. f_equal.
      unfold killed at 1. unfold Tmux.kill_session. unfold name' at 1.
      rewrite resolve_name. fold name'. by rewrite Hnone.
Qed.

(** Witness for X3: a worker of the team [t1] on a server with no session. *)
Lemma worker_session_lifecycle_witness :
  let w1 := (createSession "t1" "worker-1" (Some "/p") Demo.world0).1 in
  isSessionAlive "t1" "worker-1" w1 = (w1, Ok true)
  ∧ isSessionAlive "t1" "worker-1" (killSession "t1" "worker-1" w1).1
    = ((killSession "t1" "worker-1" w1).1, Ok false).
Proof.
  destruct (worker_session_lifecycle "t1" "worker-1" (Some "/p") Demo.world0
              "omc-team-t1-worker-1" eq_refl) as (Halive & _ & Hdead).
  split; [exact Halive|].
  apply Hdead. apply aloneb_spec. vm_compute. reflexivity.
Defined.

(** X4.  A name that [sanitizeName] rejects makes the four functions that
    take a team or worker name throw its error before tmux is asked
    anything: [killSession] and [isSessionAlive] then do not answer that
    there is no such session, and [listActiveSessions] does not answer
    with the empty list. *)
Theorem worker_session_invalid_name (teamName workerName : string)
    (workingDirectory : option string) (w : World) :
  (∀ e, workerSessionName teamName workerName = Throw e →
        createSession teamName workerName workingDirectory w = (w, Throw e)
        ∧ killSession teamName workerName w = (w, Throw e)
        ∧ isSessionAlive teamName workerName w = (w, Throw e))
  ∧ (∀ e, sanitizeName teamName = Throw e →
          listActiveSessions teamName w = (w, Throw e)
          ∧ workerSessionName teamName workerName = Throw e).
Proof.
  split.
  - intros e He. unfold createSession, killSession, isSessionAlive.
    by rewrite !(run_bind_Throw _ _ w w e) by (unfold lift; by rewrite He).
  - intros e He. unfold listActiveSessions, workerSessionName.
    rewrite !(run_bind_Throw _ _ w w e) by (unfold lift; by rewrite He).
    by rewrite He.
Qed.

(** ** Listing the sessions of a team *)

Lemma listActiveSessions_run (teamName team : string) (w : World) :
  sanitizeName teamName = Ok team →
  listActiveSessions teamName w = (w, Ok (listed team (mux w))).
Proof.
  intros Hteam. unfold listActiveSessions.
  rewrite (run_bind_Ok _ _ w w team) by (unfold lift; by rewrite Hteam).
  unfold try_catch, mbind, M_bind, bind, tmux_sync, Tmux.exec_sync, listed.
  change (Tmux.run_sync ["list-sessions"; "-F"; "#{session_name}"] (mux w))
    with (mux w, Tmux.list_sessions (mux w)).
  destruct (Tmux.list_sessions (mux w)) as [output|]; cbn; by rewrite set_mux_same.
Qed.

Lemma stdout_text_app (a b : list string) :
  stdout_text (a ++ b) = stdout_text a +:+ stdout_text b.
Proof.
  induction a as [|l a IH]; [reflexivity|].
  cbn [app stdout_text]. by rewrite IH, !string_app_assoc.
Qed.

Lemma stdout_text_ends (a : list string) :
  stdout_text a = "" ∨ ∃ b, stdout_text a = b +:+ nl.
Proof.
  destruct a as [|l a _] using rev_ind; [by left|]. right.
  exists (stdout_text a +:+ l). rewrite stdout_text_app. cbn [stdout_text].
  by rewrite string_app_nil_r, string_app_assoc.
Qed.

Lemma delimited_line (n : string) (names : list string) :
  n ∈ names → delimited n (stdout_text names).
Proof.
  intros (before & after & ->)%list_elem_of_split.
  exists (stdout_text before), (nl +:+ stdout_text after).
  rewrite stdout_text_app. cbn [stdout_text].
  split; [reflexivity|]. split; [apply stdout_text_ends|]. right. by eexists.
Qed.

Lemma delimited_split (n text : string) :
  forall_chars (λ c, negb (Ascii.eqb c "010")) n = true →
  delimited n text → n ∈ split "010" text.
Proof.
  intros Hn (before & after & -> & Hbefore & Hafter).
  assert (Hrest : n ∈ split "010" (n +:+ after)).
  { destruct Hafter as [->|[a ->]].
    - rewrite string_app_nil_r, (split_whole _ _ Hn). by left.
    - change (nl +:+ a) with (String "010" a).
      rewrite split_app, (split_whole _ _ Hn). by left. }
  destruct Hbefore as [->|[b ->]]; [exact Hrest|].
  rewrite string_app_assoc. change (nl +:+ n +:+ after) with (String "010" (n +:+ after)).
  rewrite split_app. apply elem_of_app. by right.
Qed.

Lemma delimited_trimStart (c : ascii) (n text : string) :
  is_space c = false → delimited (String c n) text → delimited (String c n) (trimStart text).
Proof.
  intros Hc (before & after & -> & Hbefore & Hafter).
  revert Hbefore. induction before as [|d before IH]; intros Hbefore.
  - change ("" +:+ String c n +:+ after) with (String c (n +:+ after)).
    rewrite (trimStart_keeps _ _ Hc). exists "", after. by repeat split; [left|].
  - rewrite string_app_cons. simpl. destruct (is_space d) eqn:Hd.
    + apply IH. destruct Hbefore as [?|[b Hb]]; [done|].
      destruct b as [|e b]; [left | right; exists b];
        rewrite ?string_app_cons in Hb; by injection Hb.
    + exists (String d before), after. by rewrite !string_app_cons.
Qed.

Lemma delimited_trimEnd (n : string) (c : ascii) (text : string) :
  is_space c = false →
  delimited (n +:+ String c "") text → delimited (n +:+ String c "") (trimEnd text).
Proof.
  intros Hc (before & after & -> & Hbefore & Hafter).
  rewrite <- string_app_assoc, trimEnd_app.
  destruct (trimEnd after) as [|d after'] eqn:Htrim.
  - rewrite <- string_app_assoc, (trimEnd_keeps _ _ Hc), string_app_assoc.
    exists before, "". rewrite string_app_nil_r. by repeat split; [|left].
  - exists before, (String d after'). rewrite string_app_assoc.
    split; [reflexivity|]. split; [exact Hbefore|]. right.
    destruct Hafter as [->|[a ->]]; [discriminate|].
    change (nl +:+ a) with (String "010" a) in Htrim.
    destruct (trimEnd_head "010" a) as [Hnil|[s' Hs']]; [congruence|].
    rewrite Hs' in Htrim. injection Htrim as <- <-. by exists s'.
Qed.

Lemma list_sessions_names (s : Tmux.Server) (n : string) :
  is_Some (Tmux.sessions s !! n) →
  ∃ names, Tmux.list_sessions s = Some names
           ∧ NoDup names ∧ ∀ m, m ∈ names ↔ is_Some (Tmux.sessions s !! m).
Proof.
  intros Hn. unfold Tmux.list_sessions.
  assert (Hnames : ∀ m, m ∈ (map_to_list (Tmux.sessions s)).*1
                        ↔ is_Some (Tmux.sessions s !! m)).
  { intros m. rewrite list_elem_of_fmap. split.
    - intros ([m' ses] & -> & Hin). apply elem_of_map_to_list in Hin. by eexists.
    - intros [ses Hses]. exists (m, ses). split; [done|]. by apply elem_of_map_to_list. }
  pose proof (NoDup_fst_map_to_list (Tmux.sessions s)) as Hnd.
  destruct ((map_to_list (Tmux.sessions s)).*1) as [|m names] eqn:Hl.
  - apply Hnames in Hn. by apply elem_of_nil in Hn.
  - by eexists.
Qed.

Lemma listed_elem (team x : string) (lines : list string) :
  worker_prefix team +:+ x ∈ lines →
  x ∈ map (slice_from (String.length (worker_prefix team)))
          (List.filter (λ n, startsWith n (worker_prefix team)) lines).
Proof.
  intros Hin. apply list_elem_of_In, in_map_iff.
  exists (worker_prefix team +:+ x). split; [apply slice_from_app|].
  apply filter_In. split; [by apply list_elem_of_In | apply startsWith_app].
Qed.

Lemma listed_complete (team x : string) (s : Tmux.Server) :
  forall_chars name_char team = true →
  forall_chars name_char x = true →
  is_Some (Tmux.sessions s !! (worker_prefix team +:+ x)) →
  x ∈ listed team s.
Proof.
  intros Hteam Hx Hses. unfold listed.
  destruct (list_sessions_names _ _ Hses) as (names & -> & _ & Hnames).
  apply listed_elem. set (n := worker_prefix team +:+ x).
  assert (Hchars : forall_chars name_char n = true).
  { subst n. unfold worker_prefix. by rewrite !forall_chars_app, Hteam, Hx. }
  assert (Hline : delimited n (stdout_text names)) by (by apply delimited_line, Hnames).
  apply delimited_split.
  { apply (forall_chars_impl name_char); [|exact Hchars].
    intros c Hc. destruct c as [[] [] [] [] [] [] [] []]; by vm_compute in Hc |- *. }
  unfold trim.
  destruct (string_snoc n) as (n0 & c & Hn0); [by subst n|].
  rewrite Hn0 in Hchars |- *. rewrite forall_chars_app in Hchars.
  apply andb_prop in Hchars as [_ Hc]. unfold forall_chars in Hc. simpl in Hc.
  rewrite andb_true_r in Hc.
  apply delimited_trimEnd; [by apply name_char_not_space|].
  rewrite <- Hn0. unfold n, worker_prefix.
  change (("omc-team-" +:+ team +:+ "-") +:+ x)
    with (String "o" (("mc-team-" +:+ team +:+ "-") +:+ x)).
  apply delimited_trimStart; [reflexivity|].
  exact Hline.
Qed.

Lemma no_space_no_newline (n : string) :
  forall_chars (λ c, negb (is_space c)) n = true →
  forall_chars (λ c, negb (Ascii.eqb c "010")) n = true.
Proof.
  apply forall_chars_impl. intros c Hc.
  destruct c as [[] [] [] [] [] [] [] []]; by vm_compute in Hc |- *.
Qed.

Lemma split_lines (init : list string) (last : string) :
  Forall (λ n, forall_chars (λ c, negb (is_space c)) n = true) (init ++ [last]) →
  split "010" (stdout_text init +:+ last) = init ++ [last].
Proof.
  induction init as [|l init IH]; intros Hall.
  - cbn [app] in Hall. rewrite Forall_singleton in Hall.
    change (stdout_text [] +:+ last) with last.
    by apply split_whole, no_space_no_newline.
  - cbn [app] in Hall. apply Forall_cons in Hall as [Hl Hall].
    cbn [stdout_text app]. rewrite !string_app_assoc.
    change (nl +:+ stdout_text init +:+ last)
      with (String "010" (stdout_text init +:+ last)).
    rewrite split_app, (split_whole _ _ (no_space_no_newline _ Hl)).
    by rewrite (IH Hall).
Qed.

Lemma trim_lines (names : list string) :
  names ≠ [] →
  Forall (λ n, n ≠ "" ∧ forall_chars (λ c, negb (is_space c)) n = true) names →
  split "010" (trim (stdout_text names)) = names.
Proof.
  intros Hne Hall.
  assert (Hstart : trimStart (stdout_text names) = stdout_text names).
  { destruct names as [|[|c n] names]; [done| |].
    - by apply Forall_cons in Hall as [[? _] _].
    - apply Forall_cons in Hall as [[_ Hn] _].
      unfold forall_chars in Hn. simpl in Hn. apply andb_prop in Hn as [Hc _].
      apply negb_true_iff in Hc. cbn [stdout_text]. rewrite string_app_cons.
      by apply trimStart_keeps. }
  unfold trim. rewrite Hstart. clear Hstart.
  destruct names as [|last init _] using rev_ind; [done|].
  assert (Hspaces : Forall (λ n, forall_chars (λ c, negb (is_space c)) n = true)
                           (init ++ [last])).
  { eapply Forall_impl; [exact Hall|]. by intros n [_ ?]. }
  apply Forall_app in Hall as [_ Hlast]. rewrite Forall_singleton in Hlast. destruct Hlast as [Hlast Hchars].
  rewrite stdout_text_app. cbn [stdout_text]. rewrite string_app_nil_r.
  rewrite <- string_app_assoc, trimEnd_app. change (trimEnd nl) with "".
  destruct (string_snoc last Hlast) as (l0 & c & ->).
  rewrite forall_chars_app in Hchars. apply andb_prop in Hchars as [_ Hc].
  unfold forall_chars in Hc. simpl in Hc. rewrite andb_true_r in Hc.
  apply negb_true_iff in Hc.
  rewrite <- string_app_assoc, (trimEnd_keeps _ _ Hc), string_app_assoc.
  by apply split_lines.
Qed.

Lemma listed_exact (team : string) (s : Tmux.Server) :
  tidy_names s →
  NoDup (listed team s)
  ∧ ∀ x, x ∈ listed team s ↔ is_Some (Tmux.sessions s !! (worker_prefix team +:+ x)).
Proof.
  intros Htidy. unfold listed, Tmux.list_sessions.
  pose proof (NoDup_fst_map_to_list (Tmux.sessions s)) as Hnd.
  assert (Hnames : ∀ m, m ∈ (map_to_list (Tmux.sessions s)).*1
                        ↔ is_Some (Tmux.sessions s !! m)).
  { intros m. rewrite list_elem_of_fmap. split.
    - intros ([m' ses] & -> & Hin). apply elem_of_map_to_list in Hin. by eexists.
    - intros [ses Hses]. exists (m, ses). split; [done|]. by apply elem_of_map_to_list. }
  destruct ((map_to_list (Tmux.sessions s)).*1) as [|m names] eqn:Hl.
  - split; [constructor|]. intros x. split; [by intros ?%elem_of_nil|].
    intros Hx%Hnames. by apply elem_of_nil in Hx.
  - rewrite trim_lines; [|done|].
    2:{ apply Forall_forall. intros n Hn. by apply Htidy, Hnames. }
    set (prefix := worker_prefix team) in *.
    assert (Helem : ∀ n, n ∈ List.filter (λ n, startsWith n prefix) (m :: names)
                         ↔ n ∈ m :: names ∧ startsWith n prefix = true).
    { intros n. by rewrite !list_elem_of_In, filter_In. }
    split.
    + apply (NoDup_fmap_2_strong (slice_from (String.length prefix))).
      * intros a b [_ Ha]%Helem [_ Hb]%Helem Heq.
        rewrite (startsWith_inv _ _ Ha), (startsWith_inv _ _ Hb). by f_equal.
      * apply NoDup_ListNoDup, List.NoDup_filter, NoDup_ListNoDup, Hnd.
    + intros x. rewrite <- Hnames. split.
      * intros Hx. apply list_elem_of_In, in_map_iff in Hx as (n & <- & Hn).
        apply list_elem_of_In, Helem in Hn as [Hn Hpre].
        by rewrite <- (startsWith_inv _ _ Hpre).
      * intros Hx. by apply listed_elem.
Qed.

Lemma worker_prefix_app (team x : string) :
  worker_prefix team +:+ x = "omc-team-" +:+ team +:+ "-" +:+ x.
Proof. unfold worker_prefix. by rewrite !string_app_assoc. Qed.

(** X5.  For a team name that [sanitizeName] accepts, [listActiveSessions]
    never throws and changes nothing; whatever else the server holds,
    its answer has every worker whose session is alive, for worker names
    written in [[A-Za-z0-9-]]; on a server without sessions the answer
    is empty. *)
Theorem listActiveSessions_complete (teamName team : string) (w : World) :
  sanitizeName teamName = Ok team →
  ∃ l, listActiveSessions teamName w = (w, Ok l)
     ∧ (∀ worker,
          forall_chars name_char worker = true →
          is_Some (Tmux.sessions (mux w) !! ("omc-team-" +:+ team +:+ "-" +:+ worker)) →
          worker ∈ l)
     ∧ (Tmux.sessions (mux w) = ∅ → l = []).
Proof.
  intros Hteam. exists (listed team (mux w)).
  split; [by apply listActiveSessions_run|]. split.
  - intros worker Hworker Hses. rewrite <- worker_prefix_app in Hses.
    apply listed_complete; [|done..]. by apply (sanitizeName_out teamName).
  - intros Hempty. unfold listed, Tmux.list_sessions. by rewrite Hempty, map_to_list_empty.
Qed.

(** Witness for X5: the session of [worker-1] among the sessions of two
    teams. *)
Lemma listActiveSessions_complete_witness :
  let w := (createSession "t2" "worker-1" None
              (createSession "t1" "worker-1" None Demo.world0).1).1 in
  ∃ l, listActiveSessions "t1" w = (w, Ok l) ∧ "worker-1" ∈ l.
Proof.
  intros w.
  destruct (listActiveSessions_complete "t1" "t1" w eq_refl) as (l & Hrun & Hin & _).
  exists l. split; [exact Hrun|]. apply Hin; [reflexivity|]. vm_compute. by eexists.
Defined.

Lemma tidy_names_empty : tidy_names Tmux.empty.
Proof. intros n [ses Hses]. cbn in Hses. by rewrite lookup_empty in Hses. Qed.

Lemma tidy_names_killed (name : string) (s : Tmux.Server) :
  tidy_names s → tidy_names (killed name s).
Proof. intros Htidy n Hn. by apply Htidy, (killed_subset name). Qed.

Lemma tidy_names_with_session (name : string) (s : Tmux.Server) :
  name ≠ "" → forall_chars name_char name = true →
  tidy_names s → tidy_names (with_session name s).
Proof.
  intros Hne Hchars Htidy n Hn. unfold with_session, Tmux.new_session in Hn.
  destruct (Tmux.sessions s !! name) as [ses|] eqn:Hses; [by apply Htidy|].
  cbn in Hn. destruct (decide (n = name)) as [->|Hother].
  - split; [done|]. apply (forall_chars_impl name_char); [|done].
    intros c Hc. by rewrite (name_char_not_space c Hc).
  - rewrite lookup_insert_ne in Hn by done. by apply Htidy.
Qed.

Lemma createSession_tidy (teamName workerName : string)
    (workingDirectory : option string) (w : World) :
  tidy_names (mux w) →
  tidy_names (mux (createSession teamName workerName workingDirectory w).1).
Proof.
  intros Htidy.
  destruct (workerSessionName teamName workerName) as [name|e|] eqn:Hname.
  - rewrite (createSession_run _ _ _ _ _ Hname). cbn.
    destruct (workerSessionName_chars _ _ _ Hname).
    by apply tidy_names_with_session, tidy_names_killed.
  - unfold createSession.
    by rewrite (run_bind_Throw _ _ w w e) by (unfold lift; by rewrite Hname).
  - unfold createSession.
    by rewrite (run_bind_OutOfFuel _ _ w w) by (unfold lift; by rewrite Hname).
Qed.

(** X6.  On a server where no session name holds white space,
    [listActiveSessions] answers with the workers whose session is alive
    and no other, each once. *)
Theorem listActiveSessions_exact (teamName team : string) (w : World) :
  sanitizeName teamName = Ok team →
  tidy_names (mux w) →
  ∃ l, listActiveSessions teamName w = (w, Ok l)
     ∧ NoDup l
     ∧ ∀ x, x ∈ l
            ↔ is_Some (Tmux.sessions (mux w) !! ("omc-team-" +:+ team +:+ "-" +:+ x)).
Proof.
  intros Hteam Htidy. exists (listed team (mux w)).
  split; [by apply listActiveSessions_run|].
  destruct (listed_exact team (mux w) Htidy) as [Hnd Hiff].
  split; [exact Hnd|]. intros x. by rewrite <- worker_prefix_app.
Qed.

(** Witness for X6: two workers of [t1] and one of [t2]. *)
Lemma listActiveSessions_exact_witness :
  let w := (createSession "t1" "worker-2" None
              (createSession "t2" "worker-1" None
                 (createSession "t1" "worker-1" None Demo.world0).1).1).1 in
  ∃ l, listActiveSessions "t1" w = (w, Ok l)
     ∧ "worker-1" ∈ l ∧ "worker-2" ∈ l ∧ "worker-3" ∉ l.
Proof.
  intros w.
  destruct (listActiveSessions_exact "t1" "t1" w eq_refl) as (l & Hrun & _ & Hiff).
  { do 3 apply createSession_tidy. apply tidy_names_empty. }
  exists l. split; [exact Hrun|]. repeat split.
  - apply Hiff. vm_compute. by eexists.
  - apply Hiff. vm_compute. by eexists.
  - intros Hin%Hiff. vm_compute in Hin. by destruct Hin.
Defined.

(** X7.  The listing does not tell the teams apart when the name of one
    continues the name of the other after a hyphen: the session of a
    worker of the team [team-suffix] is listed for the team [team], as a
    worker named [suffix-worker]. *)
Theorem listActiveSessions_other_team (team suffix worker : string)
    (workingDirectory : option string) (w : World) :
  sanitizeName team = Ok team →
  sanitizeName (team +:+ "-" +:+ suffix) = Ok (team +:+ "-" +:+ suffix) →
  sanitizeName worker = Ok worker →
  let w1 := (createSession (team +:+ "-" +:+ suffix) worker workingDirectory w).1 in
  ∃ l, listActiveSessions team w1 = (w1, Ok l) ∧ suffix +:+ "-" +:+ worker ∈ l.
Proof.
  intros Hteam Hother Hworker w1.
  exists (listed team (mux w1)). split; [by apply listActiveSessions_run|].
  assert (Hname : workerSessionName (team +:+ "-" +:+ suffix) worker
                  = Ok ("omc-team-" +:+ (team +:+ "-" +:+ suffix) +:+ "-" +:+ worker)).
  { unfold workerSessionName. by rewrite Hother, Hworker. }
  destruct (sanitizeName_out _ _ Hother) as [Hchars _].
  rewrite !forall_chars_app in Hchars.
  apply andb_prop in Hchars as [Ht [_ Hs]%andb_prop].
  apply listed_complete; [done | |].
  - by rewrite !forall_chars_app, Hs, (proj1 (sanitizeName_out _ _ Hworker)).
  - subst w1. rewrite (createSession_run _ _ _ _ _ Hname). cbn [fst mux set_mux].
    rewrite worker_prefix_app, with_session_killed. cbn [Tmux.sessions].
    rewrite !string_app_assoc, lookup_insert_eq. by eexists.
Qed.

(** Witness for X7: the teams [qa] and [qa-eu]. *)
Lemma listActiveSessions_other_team_witness :
  let w1 := (createSession "qa-eu" "worker-1" None Demo.world0).1 in
  ∃ l, listActiveSessions "qa" w1 = (w1, Ok l) ∧ "eu-worker-1" ∈ l.
Proof.
  exact (listActiveSessions_other_team "qa" "eu" "worker-1" None Demo.world0
           eq_refl eq_refl eq_refl).
Defined.

(** X8.  A worker is listed after [createSession] and no longer after
    [killSession], on a server where no session name holds white
    space. *)
Theorem listActiveSessions_follows (teamName workerName team worker : string)
    (workingDirectory : option string) (w : World) :
  sanitizeName teamName = Ok team →
  sanitizeName workerName = Ok worker →
  tidy_names (mux w) →
  let w1 := (createSession teamName workerName workingDirectory w).1 in
  let w2 := (killSession teamName workerName w1).1 in
  (∃ l, listActiveSessions teamName w1 = (w1, Ok l) ∧ worker ∈ l)
  ∧ (∃ l, listActiveSessions teamName w2 = (w2, Ok l) ∧ worker ∉ l).
Proof.
  intros Hteam Hworker Htidy w1 w2.
  assert (Hname : workerSessionName teamName workerName
                  = Ok ("omc-team-" +:+ team +:+ "-" +:+ worker)).
  { unfold workerSessionName. by rewrite Hteam, Hworker. }
  assert (Htidy1 : tidy_names (mux w1)) by (by apply createSession_tidy).
  assert (Hmux2 : mux w2 = killed ("omc-team-" +:+ team +:+ "-" +:+ worker) (mux w1)).
  { subst w2. by rewrite (killSession_run _ _ _ _ Hname). }
  split.
  - exists (listed team (mux w1)). split; [by apply listActiveSessions_run|].
    apply (listed_exact team (mux w1) Htidy1). rewrite worker_prefix_app.
    subst w1. rewrite (createSession_run _ _ _ _ _ Hname). cbn [fst mux set_mux].
    rewrite with_session_killed. cbn [Tmux.sessions]. rewrite lookup_insert_eq. by eexists.
  - exists (listed team (mux w2)). split; [by apply listActiveSessions_run|].
    assert (Htidy2 : tidy_names (mux w2)) by (rewrite Hmux2; by apply tidy_names_killed).
    rewrite (proj2 (listed_exact team (mux w2) Htidy2)), worker_prefix_app, Hmux2.
    rewrite killed_gone. by intros [? ?].
Qed.

(** Witness for X8: [worker-1] of [t1] beside a session of [t2]. *)
Lemma listActiveSessions_follows_witness :
  let w := (createSession "t2" "worker-1" None Demo.world0).1 in
  let w1 := (createSession "t1" "worker 1" None w).1 in
  let w2 := (killSession "t1" "worker 1" w1).1 in
  (∃ l, listActiveSessions "t1" w1 = (w1, Ok l) ∧ "worker1" ∈ l)
  ∧ (∃ l, listActiveSessions "t1" w2 = (w2, Ok l) ∧ "worker1" ∉ l).
Proof.
  intros w.
  apply (listActiveSessions_follows "t1" "worker 1" "t1" "worker1" None w eq_refl eq_refl).
  apply createSession_tidy, tidy_names_empty.
Defined.

(** ** Starting the bridge of a worker *)

Lemma send_keys_session (rest : string) (k : Tmux.Key) (s : Tmux.Server)
    (ses : Tmux.Session) (p : Tmux.Pane) :
  let name := "omc-team-" +:+ rest in
  Tmux.sessions s !! name = Some ses →
  Tmux.pane_info s !! Tmux.active ses = Some p →
  Tmux.send_keys name k s
  = ({| Tmux.sessions := Tmux.sessions s;
        Tmux.pane_info :=
          <[Tmux.active ses := {| Tmux.pane_session := Tmux.pane_session p;
                                  Tmux.pane_dead := Tmux.pane_dead p;
                                  Tmux.pane_keys := Tmux.pane_keys p ++ [k] |}]>
            (Tmux.pane_info s);
        Tmux.next_pane := Tmux.next_pane s |}, Some []).
Proof.
  intros name Hses Hp. subst name. unfold Tmux.send_keys.
  by rewrite (resolve_session _ _ _ Hses), Hp.
Qed.

Lemma send_keys_no_session (rest : string) (k : Tmux.Key) (s : Tmux.Server) :
  let name := "omc-team-" +:+ rest in
  Tmux.find_session name s = None → Tmux.send_keys name k s = (s, None).
Proof.
  intros name Hnone. subst name. unfold Tmux.send_keys.
  by rewrite resolve_name, Hnone.
Qed.

(** X9.  [spawnBridgeInSession] on the session that [createSession] made
    types the [node] command, the two paths between double quotes, and
    then Enter into the one pane of the session, and changes nothing
    else; once the session is killed it throws the error of tmux and
    types nothing, when no other session has a name that starts with
    the name of the session. *)
Theorem spawnBridgeInSession_types (teamName workerName : string)
    (workingDirectory : option string) (bridgeScriptPath configFilePath : string)
    (w : World) (name : string) :
  workerSessionName teamName workerName = Ok name →
  let w1 := (createSession teamName workerName workingDirectory w).1 in
  let w2 := (killSession teamName workerName w1).1 in
  let cmd := "node " +:+ dquote +:+ bridgeScriptPath +:+ dquote +:+ " --config "
             +:+ dquote +:+ configFilePath +:+ dquote in
  (∃ id s',
     Tmux.sessions (mux w1) !! name = Some {| Tmux.panes := [id]; Tmux.active := id |}
     ∧ spawnBridgeInSession name bridgeScriptPath configFilePath w1
       = (set_mux s' w1, Ok tt)
     ∧ Tmux.sessions s' = Tmux.sessions (mux w1)
     ∧ Tmux.pane_info s'
       = <[id := {| Tmux.pane_session := name; Tmux.pane_dead := false;
                    Tmux.pane_keys := [Tmux.KeyName cmd; Tmux.KeyName "Enter"] |}]>
           (Tmux.pane_info (mux w1)))
  ∧ (alone name (mux w) →
     spawnBridgeInSession name bridgeScriptPath configFilePath w2
     = (w2, Throw (TmuxError ["send-keys"; "-t"; name; cmd; "Enter"]))).
Proof.
  intros Hname w1 w2 cmd.
  assert (Hw1 : w1 = set_mux (with_session name (killed name (mux w))) w).
  { subst w1. by rewrite (createSession_run _ _ _ _ _ Hname). }
  assert (Hw2 : w2 = set_mux (killed name (mux w1)) w1).
  { subst w2. by rewrite (killSession_run _ _ _ _ Hname). }
  destruct (workerSessionName_chars _ _ _ Hname) as [_ Hchars].
  destruct (workerSessionName_inv _ _ _ Hname) as (team & worker & _ & _ & Heq).
  set (id := Tmux.pane_id (Tmux.next_pane (killed name (mux w)))).
  assert (Hses1 : Tmux.sessions (mux w1) !! name
                  = Some {| Tmux.panes := [id]; Tmux.active := id |}).
  { rewrite Hw1. cbn [mux set_mux]. subst id. rewrite Heq.
    rewrite with_session_killed. apply lookup_insert_eq. }
  assert (Hpane1 : Tmux.pane_info (mux w1) !! id = Some (Tmux.fresh_pane name)).
  { rewrite Hw1. cbn [mux set_mux]. subst id. rewrite Heq.
    rewrite with_session_killed. apply lookup_insert_eq. }
  assert (Hrun : ∀ w0,
    spawnBridgeInSession name bridgeScriptPath configFilePath w0
    = let '(s, r) := Tmux.send_keys2 name (Tmux.KeyName cmd) (Tmux.KeyName "Enter")
                       (mux w0) in
      (set_mux s w0,
       match r with
       | Some _ => Ok tt
       | None => Throw (TmuxError ["send-keys"; "-t"; name; cmd; "Enter"])
       end)).
  { intros w0. unfold spawnBridgeInSession, mbind, M_bind, bind, tmux_sync, Tmux.exec_sync.
    fold cmd.
    change (Tmux.run_sync ["send-keys"; "-t"; name; cmd; "Enter"] (mux w0))
      with (Tmux.send_keys2 name (Tmux.KeyName cmd) (Tmux.KeyName "Enter") (mux w0)).
    by destruct (Tmux.send_keys2 _ _ _ _) as [s [out|]]. }
  split.
  - exists id. rewrite Hrun. unfold Tmux.send_keys2. clearbody id. subst name.
    rewrite (send_keys_session _ _ _ _ _ Hses1 Hpane1).
    erewrite send_keys_session; [|exact Hses1|apply lookup_insert_eq].
    eexists. split; [exact Hses1|]. split; [reflexivity|]. split; [reflexivity|]. cbn.
    by rewrite insert_insert_eq.
  - intros Halone. rewrite Hrun. unfold Tmux.send_keys2.
    assert (Hnone : Tmux.find_session name (mux w2) = None).
    { rewrite find_session_alone; [|done|].
      - rewrite Hw2. cbn [mux set_mux]. rewrite Heq. by rewrite killed_gone.
      - eapply alone_fewer; [|exact Halone]. rewrite Hw2. cbn [mux set_mux].
        intros n Hn%killed_subset. rewrite Hw1 in Hn. cbn [mux set_mux] in Hn.
        rewrite Heq in Hn |- *. rewrite with_session_killed in Hn.
        cbn [Tmux.sessions] in Hn.
        destruct (decide (n = "omc-team-" +:+ team +:+ "-" +:+ worker)) as [->|Hne];
          [by left|].
        right. rewrite lookup_insert_ne in Hn by done. by apply killed_subset in Hn. }
    clearbody id. subst name. rewrite (send_keys_no_session _ _ _ Hnone).
    cbn. by rewrite set_mux_same.
Qed.

(** Witness for X9: the bridge of [worker-1] of the team [t1]. *)
Lemma spawnBridgeInSession_types_witness :
  let w1 := (createSession "t1" "worker-1" None Demo.world0).1 in
  ∃ id s',
    Tmux.sessions (mux w1) !! "omc-team-t1-worker-1"
    = Some {| Tmux.panes := [id]; Tmux.active := id |}
    ∧ spawnBridgeInSession "omc-team-t1-worker-1" "/opt/bridge.js" "/tmp/w1.json" w1
      = (set_mux s' w1, Ok tt)
    ∧ (Tmux.pane_keys <$> Tmux.pane_info s' !! id)
      = Some [Tmux.KeyName ("node " +:+ dquote +:+ "/opt/bridge.js" +:+ dquote
                            +:+ " --config " +:+ dquote +:+ "/tmp/w1.json" +:+ dquote);
              Tmux.KeyName "Enter"].
Proof.
  intros w1.
  destruct (spawnBridgeInSession_types "t1" "worker-1" None "/opt/bridge.js" "/tmp/w1.json"
              Demo.world0 "omc-team-t1-worker-1" eq_refl)
    as [(id & s' & Hses & Hrun & _ & Hinfo) _].
  exists id, s'. split; [exact Hses|]. split; [exact Hrun|].
  rewrite Hinfo. by rewrite lookup_insert_eq.
Defined.

(** ** Workers whose session names start alike *)

Lemma filter_unique {A} (P : A → bool) (l : list A) (a : A) :
  NoDup l → a ∈ l → P a = true → (∀ x, x ∈ l → P x = true → x = a) →
  List.filter P l = [a].
Proof.
  induction l as [|y l IH]; intros Hnd Hin Ha Hall; [by apply elem_of_nil in Hin|].
  apply NoDup_cons in Hnd as [Hy Hnd]. simpl. destruct (P y) eqn:Hpy.
  - assert (y = a) as -> by (apply Hall; [by left | done]).
    f_equal. apply filter_none. intros x Hx. destruct (P x) eqn:Hpx; [|done].
    destruct Hy. by rewrite <- (Hall x (list_elem_of_further _ _ _ Hx) Hpx).
  - apply IH; [done | | done |].
    + apply elem_of_cons in Hin as [->|?]; [congruence | done].
    + intros x Hx. apply Hall. by right.
Qed.

(** Where no session has the name of the target, the target names the
    one session whose name starts with it. *)
Lemma find_session_prefix (name sibling : string) (s : Tmux.Server) :
  sibling ≠ name →
  is_Some (Tmux.sessions s !! sibling) →
  startsWith sibling name = true →
  (∀ n, is_Some (Tmux.sessions s !! n) → startsWith n name = true → n = sibling) →
  Tmux.find_session name s = Some sibling.
Proof.
  intros Hne Hsib Hpre Hone. unfold Tmux.find_session.
  destruct (Tmux.sessions s !! name) as [ses|] eqn:Hs.
  { destruct Hne. symmetry. apply Hone; [by eexists | apply startsWith_refl]. }
  rewrite (filter_unique _ _ sibling); [reflexivity | | | done |].
  - apply NoDup_fst_map_to_list.
  - by apply session_names.
  - intros n Hn%session_names. by apply Hone.
Qed.

(** X28.  The functions that manage one session per worker name the session
    as a target, and tmux takes a target for the one session whose name
    starts with it when no session has that very name.  So when the
    session of a worker does not exist and exactly one other session has
    a name that starts with its name (as [omc-team-t-worker-10] starts
    with [omc-team-t-worker-1]): [isSessionAlive] answers true for the
    worker, [killSession] kills that other session, and so does
    [createSession] before it makes the session of the worker. *)
Theorem worker_session_prefix (teamName workerName : string)
    (workingDirectory : option string) (w : World) (name sibling : string) :
  workerSessionName teamName workerName = Ok name →
  sibling ≠ name →
  is_Some (Tmux.sessions (mux w) !! sibling) →
  startsWith sibling name = true →
  (∀ n, is_Some (Tmux.sessions (mux w) !! n) → startsWith n name = true → n = sibling) →
  isSessionAlive teamName workerName w = (w, Ok true)
  ∧ (∃ s', killSession teamName workerName w = (set_mux s' w, Ok tt)
         ∧ Tmux.sessions s' = delete sibling (Tmux.sessions (mux w)))
  ∧ (∃ s', createSession teamName workerName workingDirectory w = (set_mux s' w, Ok name)
         ∧ Tmux.sessions s' !! sibling = None
         ∧ is_Some (Tmux.sessions s' !! name)).
Proof.
  intros Hname Hne [ses Hsib] Hpre Hone.
  pose proof (find_session_prefix name sibling (mux w) Hne ltac:(by eexists) Hpre Hone)
    as Hfind.
  destruct (workerSessionName_inv _ _ _ Hname) as (team & worker & _ & _ & Heq).
  assert (Hkilled : killed name (mux w) = Tmux.without sibling (mux w)).
  { unfold killed, Tmux.kill_session. rewrite Heq, resolve_name, <- Heq.
    by rewrite Hfind, Hsib. }
  split; [|split].
  - rewrite (isSessionAlive_run _ _ _ _ Hname), Hfind.
    by rewrite bool_decide_eq_true_2 by (by eexists).
  - exists (Tmux.without sibling (mux w)).
    rewrite (killSession_run _ _ _ _ Hname), Hkilled.
    split; [reflexivity | apply without_sessions].
  - eexists. split; [by apply createSession_run|].
    rewrite Heq, with_session_killed, <- Heq. cbn [Tmux.sessions].
    rewrite lookup_insert_ne by done. rewrite lookup_insert_eq.
    split; [|by eexists]. rewrite Hkilled, without_sessions. apply lookup_delete_eq.
Qed.

(** Witness for X28: [worker-1] of the team [t1] where only [worker-10] has a
    session. *)
Lemma worker_session_prefix_witness :
  let w := (createSession "t1" "worker-10" None Demo.world0).1 in
  isSessionAlive "t1" "worker-1" w = (w, Ok true)
  ∧ ∃ s', killSession "t1" "worker-1" w = (set_mux s' w, Ok tt)
        ∧ Tmux.sessions s' !! "omc-team-t1-worker-10" = None.
Proof.
  intros w.
  destruct (worker_session_prefix "t1" "worker-1" None w "omc-team-t1-worker-1"
              "omc-team-t1-worker-10" eq_refl ltac:(discriminate)
              ltac:(vm_compute; by eexists) eq_refl)
    as (Halive & (s' & Hkill & Hses) & _).
  { intros n Hn%session_names Hpre. vm_compute in Hn.
    apply list_elem_of_singleton in Hn. exact Hn. }
  split; [exact Halive|]. exists s'. split; [exact Hkill|].
  rewrite Hses. apply lookup_delete_eq.
Defined.

(** ** Spawning and respawning a worker in a pane *)

Section Respawn.
Context `{Host}.

Lemma spawnWorkerInPane_keys (sessionName paneId : string) (config : WorkerPaneConfig) :
  spawnWorkerInPane sessionName paneId config
  = (tmux ["send-keys"; "-t"; paneId; "-l"; startCommand config];;
     tmux ["send-keys"; "-t"; paneId; "Enter"];;
     mret tt).
Proof. reflexivity. Qed.

(** What [spawnWorkerInPane] does to a pane the server knows. *)
Lemma spawnWorkerInPane_run (sessionName : string) (k : N) (config : WorkerPaneConfig)
    (w : World) (p : Tmux.Pane) :
  Tmux.pane_info (mux w) !! Tmux.pane_id k = Some p →
  spawnWorkerInPane sessionName (Tmux.pane_id k) config w
  = (set_mux
       {| Tmux.sessions := Tmux.sessions (mux w);
          Tmux.pane_info :=
            <[Tmux.pane_id k :=
                {| Tmux.pane_session := Tmux.pane_session p;
                   Tmux.pane_dead := Tmux.pane_dead p;
                   Tmux.pane_keys := Tmux.pane_keys p
                                     ++ [Tmux.Literal (startCommand config);
                                         Tmux.KeyName "Enter"] |}]>
              (Tmux.pane_info (mux w));
          Tmux.next_pane := Tmux.next_pane (mux w) |} w, Ok tt).
Proof.
  intros Hp. rewrite spawnWorkerInPane_keys.
  unfold mbind, M_bind, bind, tmux, Tmux.exec.
  change (Tmux.run ["send-keys"; "-t"; Tmux.pane_id k; "-l"; startCommand config] (mux w))
    with (Tmux.send_keys (Tmux.pane_id k) (Tmux.Literal (startCommand config)) (mux w)).
  unfold Tmux.send_keys at 1. rewrite (resolve_pane _ _ _ Hp), Hp. cbn [mux set_mux].
  match goal with
  | |- context [Tmux.run _ ?s] =>
      change (Tmux.run ["send-keys"; "-t"; Tmux.pane_id k; "Enter"] s)
        with (Tmux.send_keys (Tmux.pane_id k) (Tmux.KeyName "Enter") s)
  end.
  unfold Tmux.send_keys.
  erewrite resolve_pane by (cbn; apply lookup_insert_eq).
  cbn. rewrite lookup_insert_eq, insert_insert_eq. cbn [Tmux.pane_session Tmux.pane_dead Tmux.pane_keys].
  rewrite <- app_assoc. reflexivity.
Qed.

Lemma insert_after_mid (init : list string) (a new : string) (rest : list string) :
  a ∉ init → Tmux.insert_after a new (init ++ a :: rest) = init ++ a :: new :: rest.
Proof.
  induction init as [|x init IH]; intros Ha; simpl.
  - by rewrite String.eqb_refl.
  - apply not_elem_of_cons in Ha as [Hx Ha].
    destruct (String.eqb_spec x a) as [->|_]; [done|]. by rewrite IH.
Qed.

Lemma stdout_lines_nonempty (l : list string) :
  Forall (λ id, id ≠ "") l → stdout_lines l = l.
Proof.
  unfold stdout_lines. induction 1 as [|id l Hid _ IH]; [done|].
  rewrite filter_cons_True by done. by rewrite IH.
Qed.

(** What [respawnWorkerInPane] does on a session whose active pane stands
    at [init ++ a :: rest] in the layout, when the pane listed last
    after the split is [%k] and the server knows it. *)
Lemma respawnWorkerInPane_run (name : string) (config : WorkerPaneConfig) (w : World)
    (init rest : list string) (a : string) (k : N) (p : Tmux.Pane) (before : list string) :
  let sname := "omc-team-" +:+ name in
  let new := Tmux.pane_id (Tmux.next_pane (mux w)) in
  let s1 :=
    {| Tmux.sessions :=
         <[sname := {| Tmux.panes := init ++ a :: new :: rest; Tmux.active := new |}]>
           (Tmux.sessions (mux w));
       Tmux.pane_info := <[new := Tmux.fresh_pane sname]> (Tmux.pane_info (mux w));
       Tmux.next_pane := N.succ (Tmux.next_pane (mux w)) |} in
  Tmux.sessions (mux w) !! sname
  = Some {| Tmux.panes := init ++ a :: rest; Tmux.active := a |} →
  a ∉ init →
  Forall (λ id, id ≠ "") (init ++ a :: rest) →
  init ++ a :: new :: rest = before ++ [Tmux.pane_id k] →
  Tmux.pane_info s1 !! Tmux.pane_id k = Some p →
  respawnWorkerInPane sname config w
  = (set_mux
       {| Tmux.sessions := Tmux.sessions s1;
          Tmux.pane_info :=
            <[Tmux.pane_id k :=
                {| Tmux.pane_session := Tmux.pane_session p;
                   Tmux.pane_dead := Tmux.pane_dead p;
                   Tmux.pane_keys := Tmux.pane_keys p
                                     ++ [Tmux.Literal (startCommand config);
                                         Tmux.KeyName "Enter"] |}]>
              (Tmux.pane_info s1);
          Tmux.next_pane := Tmux.next_pane s1 |} w, Ok (Tmux.pane_id k)).
Proof.
  intros sname new s1 Hses Ha Hids Hlast Hp. subst sname. unfold respawnWorkerInPane.
  assert (Hsplit : tmux ["split-window"; "-v"; "-t"; "omc-team-" +:+ name; "-c";
                         TmuxSession.cwd config] w
                   = (set_mux s1 w, Ok [])).
  { unfold tmux.
    rewrite (split_window_exec name (TmuxSession.cwd config) (mux w) _ _ 1
               (resolve_session _ _ _ Hses) Hses).
    cbn [Tmux.panes Tmux.active]. by rewrite (insert_after_mid _ _ _ _ Ha). }
  run_ok Hsplit.
  assert (Hlist : tmux ["list-panes"; "-t"; "omc-team-" +:+ name; "-F"; "#{pane_id}"]
                       (set_mux s1 w)
                  = (set_mux s1 w, Ok (before ++ [Tmux.pane_id k]))).
  { unfold tmux. cbn [mux set_mux].
    rewrite (list_panes_exec name s1 _ ltac:(apply lookup_insert_eq)).
    cbn [Tmux.panes]. by rewrite Hlast. }
  run_ok Hlist.
  rewrite stdout_lines_nonempty.
  2:{ rewrite <- Hlast. apply Forall_app in Hids as [Hinit Hrest].
      apply Forall_cons in Hrest as [Hane Hrest].
      apply Forall_app. split; [done|]. apply Forall_cons. split; [done|].
      apply Forall_cons. by split. }
  rewrite last_snoc. rewrite (run_bind_Ok _ _ _ (set_mux s1 w) (Tmux.pane_id k)) by done.
  run_ok (spawnWorkerInPane_run _ k config (set_mux s1 w) p Hp).
  reflexivity.
Qed.

(** X10.  [respawnWorkerInPane] on a session whose active pane is the last of
    its panes: the split puts the new pane last, so the identifier
    returned is the one the server gave the new pane; the start command
    and Enter are typed into it; the session has its old panes and then
    the new one, and the other panes and sessions are as they were. *)
Theorem respawnWorkerInPane_fresh (name : string) (config : WorkerPaneConfig) (w : World)
    (init : list string) (a : string) :
  let sname := "omc-team-" +:+ name in
  let new := Tmux.pane_id (Tmux.next_pane (mux w)) in
  Tmux.sessions (mux w) !! sname
  = Some {| Tmux.panes := init ++ [a]; Tmux.active := a |} →
  NoDup (init ++ [a]) →
  Forall (λ id, id ≠ "") (init ++ [a]) →
  ∃ s', respawnWorkerInPane sname config w = (set_mux s' w, Ok new)
    ∧ Tmux.sessions s' !! sname
      = Some {| Tmux.panes := init ++ [a; new]; Tmux.active := new |}
    ∧ Tmux.pane_info s' !! new
      = Some {| Tmux.pane_session := sname; Tmux.pane_dead := false;
                Tmux.pane_keys := [Tmux.Literal (startCommand config);
                                   Tmux.KeyName "Enter"] |}
    ∧ (∀ p, p ≠ new → Tmux.pane_info s' !! p = Tmux.pane_info (mux w) !! p)
    ∧ (∀ other, other ≠ sname →
                Tmux.sessions s' !! other = Tmux.sessions (mux w) !! other).
Proof.
  intros sname new Hses Hnd Hids.
  apply NoDup_app in Hnd as (_ & Ha & _).
  eexists. split.
  - apply (respawnWorkerInPane_run name config w init [] a (Tmux.next_pane (mux w))
             (Tmux.fresh_pane sname) (init ++ [a])).
    + exact Hses.
    + intros Hin. apply (Ha a Hin). by left.
    + exact Hids.
    + by rewrite <- app_assoc.
    + apply lookup_insert_eq.
  - cbn. rewrite !lookup_insert_eq. split; [done|]. split; [done|]. split.
    + intros p Hp. by rewrite !lookup_insert_ne.
    + intros other Hother. by rewrite lookup_insert_ne.
Qed.

(** X11.  When the active pane is not the last pane of the session, the split
    puts the new pane right after the active one, and the pane listed
    last is an old one: [respawnWorkerInPane] returns the identifier of
    that old pane and types the start command and Enter into it, after
    what was typed there already; the new pane gets nothing. *)
Theorem respawnWorkerInPane_not_last (name : string) (config : WorkerPaneConfig) (w : World)
    (init rest : list string) (a : string) (k : N) (p : Tmux.Pane) :
  let sname := "omc-team-" +:+ name in
  let new := Tmux.pane_id (Tmux.next_pane (mux w)) in
  let old := Tmux.pane_id k in
  Tmux.sessions (mux w) !! sname
  = Some {| Tmux.panes := init ++ a :: rest ++ [old]; Tmux.active := a |} →
  NoDup (init ++ a :: rest ++ [old]) →
  Forall (λ id, id ≠ "") (init ++ a :: rest ++ [old]) →
  new ∉ init ++ a :: rest ++ [old] →
  Tmux.pane_info (mux w) !! old = Some p →
  ∃ s', respawnWorkerInPane sname config w = (set_mux s' w, Ok old)
    ∧ Tmux.sessions s' !! sname
      = Some {| Tmux.panes := init ++ a :: new :: rest ++ [old]; Tmux.active := new |}
    ∧ Tmux.pane_info s' !! new = Some (Tmux.fresh_pane sname)
    ∧ Tmux.pane_info s' !! old
      = Some {| Tmux.pane_session := Tmux.pane_session p;
                Tmux.pane_dead := Tmux.pane_dead p;
                Tmux.pane_keys := Tmux.pane_keys p
                                  ++ [Tmux.Literal (startCommand config);
                                      Tmux.KeyName "Enter"] |}.
Proof.
  intros sname new old Hses Hnd Hids Hnew Hp.
  assert (Hne : old ≠ new).
  { intros Heq. apply Hnew. rewrite <- Heq.
    apply elem_of_app. right. right. apply elem_of_app. right. by left. }
  apply NoDup_app in Hnd as (_ & Ha & _).
  eexists. split.
  - apply (respawnWorkerInPane_run name config w init (rest ++ [old]) a k p
             (init ++ a :: new :: rest)).
    + exact Hses.
    + intros Hin. apply (Ha a Hin). by left.
    + exact Hids.
    + by rewrite <- !app_assoc.
    + cbn. by rewrite lookup_insert_ne.
  - cbn. rewrite lookup_insert_eq. split; [done|].
    rewrite lookup_insert_ne, lookup_insert_eq by done. split; [done|].
    by rewrite lookup_insert_eq.
Qed.

End Respawn.

(** Witness for X10: the session of a team of two workers, as
    [createTeamSession] leaves it. *)
Lemma respawnWorkerInPane_fresh_witness :
  let w := (createTeamSession "t1" 2 "/p" Demo.world0).1 in
  ∃ s', respawnWorkerInPane (H := Demo.host) "omc-team-t1" respawn_config w
        = (set_mux s' w, Ok "%3")
      ∧ Tmux.sessions s' !! "omc-team-t1"
        = Some {| Tmux.panes := ["%0"; "%1"; "%2"; "%3"]; Tmux.active := "%3" |}.
Proof.
  intros w.
  destruct (respawnWorkerInPane_fresh (H := Demo.host) "t1" respawn_config w
              ["%0"; "%1"] "%2") as (s' & Hrun & Hses & _).
  - vm_compute. reflexivity.
  - apply (bool_decide_unpack _). vm_compute. reflexivity.
  - apply (bool_decide_unpack _). vm_compute. reflexivity.
  - exists s'. split; [exact Hrun | exact Hses].
Defined.

(** Witness for X11: the start command for a respawned worker lands in the
    pane [%2], where another worker runs. *)
Lemma respawnWorkerInPane_not_last_witness :
  ∃ s', respawnWorkerInPane (H := Demo.host) "omc-team-t1" respawn_config
          selected_pane_world
        = (set_mux s' selected_pane_world, Ok "%2")
      ∧ Tmux.sessions s' !! "omc-team-t1"
        = Some {| Tmux.panes := ["%0"; "%1"; "%3"; "%2"]; Tmux.active := "%3" |}
      ∧ Tmux.pane_info s' !! "%3" = Some (Tmux.fresh_pane "omc-team-t1").
Proof.
  destruct (respawnWorkerInPane_not_last (H := Demo.host) "t1" respawn_config
              selected_pane_world ["%0"] [] "%1" 2
              {| Tmux.pane_session := "omc-team-t1"; Tmux.pane_dead := false;
                 Tmux.pane_keys := [Tmux.Literal "claude"; Tmux.KeyName "Enter"] |})
    as (s' & Hrun & Hses & Hnew & _).
  - vm_compute. reflexivity.
  - apply (bool_decide_unpack _). vm_compute. reflexivity.
  - apply (bool_decide_unpack _). vm_compute. reflexivity.
  - apply (bool_decide_unpack _). vm_compute. reflexivity.
  - vm_compute. reflexivity.
  - exists s'. split; [exact Hrun|]. split; [exact Hses | exact Hnew].
Defined.

(** ** The session [createTeamSession] leaves behind *)


Lemma pane_id_nonempty (k : N) : Tmux.pane_id k ≠ "".
Proof. done. Qed.




(** ** Killing a team session *)

Lemma killTeamSession_exact (sessionName : string) (w : World) :
  killTeamSession sessionName w = (set_mux (killed sessionName (mux w)) w, Ok tt).
Proof. apply killTeamSession_result. Qed.

Lemma killed_exact (rest : string) (s : Tmux.Server) (ses : Tmux.Session) :
  Tmux.sessions s !! ("omc-team-" +:+ rest) = Some ses →
  killed ("omc-team-" +:+ rest) s = Tmux.without ("omc-team-" +:+ rest) s.
Proof.
  intros Hses. unfold killed, Tmux.kill_session.
  by rewrite (resolve_session _ _ _ Hses).
Qed.

(** The panes that are left when a session is killed: those of the
    sessions that are left. *)
Lemma without_pane_info (name : string) (s : Tmux.Server) (p : string) :
  Tmux.pane_info (Tmux.without name s) !! p
  = match Tmux.pane_info s !! p with
    | Some info =>
        if decide (Tmux.pane_session info = name) then None
        else if bool_decide (delete name (Tmux.sessions s) = ∅) then None
        else Some info
    | None => None
    end.
Proof.
  unfold Tmux.without. destruct (bool_decide (delete name _ = ∅)).
  - cbn. rewrite lookup_empty.
    destruct (Tmux.pane_info s !! p) as [info|]; [|done].
    by destruct (decide (Tmux.pane_session info = name)).
  - cbn. destruct (Tmux.pane_info s !! p) as [info|] eqn:Hp.
    + destruct (decide (Tmux.pane_session info = name)) as [Heq|Hne].
      * apply map_lookup_filter_None. right. intros info' Hp' Hkeep.
        rewrite Hp in Hp'. injection Hp' as <-. by apply Hkeep.
      * by apply map_lookup_filter_Some_2.
    + apply map_lookup_filter_None. by left.
Qed.

Lemma killed_pane_info (rest : string) (s : Tmux.Server) (p : string) (info : Tmux.Pane) :
  let name := "omc-team-" +:+ rest in
  is_Some (Tmux.sessions s !! name) →
  Tmux.pane_info s !! p = Some info →
  Tmux.pane_session info = name ∨ is_Some (Tmux.sessions s !! Tmux.pane_session info) →
  Tmux.pane_info (killed name s) !! p
  = if decide (Tmux.pane_session info = name) then None else Some info.
Proof.
  intros name [ses Hses] Hp Hlive. subst name.
  rewrite (killed_exact _ _ _ Hses), without_pane_info, Hp.
  destruct (decide (Tmux.pane_session info = "omc-team-" +:+ rest)) as [Heq|Hne];
    [done|].
  destruct Hlive as [?|[ses' Hses']]; [done|].
  rewrite bool_decide_eq_false_2; [done|]. intros Hempty.
  rewrite <- (lookup_delete_ne (Tmux.sessions s) ("omc-team-" +:+ rest)) in Hses'
    by done.
  by rewrite Hempty in Hses'.
Qed.

Lemma paneAlive_pane (s : Tmux.Server) (k : N) :
  paneAlive s (Tmux.pane_id k)
  = match Tmux.pane_info s !! Tmux.pane_id k with
    | Some info => negb (Tmux.pane_dead info)
    | None => false
    end.
Proof.
  unfold paneAlive, Tmux.display_message.
  destruct (Tmux.pane_info s !! Tmux.pane_id k) as [info|] eqn:Hp.
  - rewrite (resolve_pane _ _ _ Hp). cbn. rewrite Hp. by destruct (Tmux.pane_dead info).
  - unfold Tmux.resolve, Tmux.pane_id in *. cbn in *. by rewrite Hp.
Qed.

(** X13.  [killTeamSession] never throws.  On the session of a team that
    exists: the session is gone and the other sessions are as they
    were; [isWorkerAlive] then answers false for every pane that was in
    it, and for the panes of the other sessions what it answered before;
    nothing but the server changes; and killing it once more changes
    nothing, when the name is written in [[A-Za-z0-9-]] and no other
    session has a name that starts with it. *)
Theorem killTeamSession_workers_dead (name : string) (w : World) (ses : Tmux.Session) :
  let sessionName := "omc-team-" +:+ name in
  Tmux.sessions (mux w) !! sessionName = Some ses →
  ∃ s', killTeamSession sessionName w = (set_mux s' w, Ok tt)
    ∧ Tmux.sessions s' !! sessionName = None
    ∧ (∀ other, other ≠ sessionName →
                Tmux.sessions s' !! other = Tmux.sessions (mux w) !! other)
    ∧ (∀ k info,
         Tmux.pane_info (mux w) !! Tmux.pane_id k = Some info →
         Tmux.pane_session info = sessionName
         ∨ is_Some (Tmux.sessions (mux w) !! Tmux.pane_session info) →
         isWorkerAlive (Tmux.pane_id k) (set_mux s' w)
         = (set_mux s' w,
            Ok (if decide (Tmux.pane_session info = sessionName) then false
                else negb (Tmux.pane_dead info))))
    ∧ (forall_chars name_char name = true → alone sessionName (mux w) →
       killTeamSession sessionName (set_mux s' w) = (set_mux s' w, Ok tt)).
Proof.
  intros sessionName Hses. exists (killed sessionName (mux w)).
  split; [apply killTeamSession_exact|].
  split; [apply killed_gone|].
  split.
  { intros other Hne. unfold sessionName.
    rewrite (killed_exact _ _ _ Hses), without_sessions. by apply lookup_delete_ne. }
  split.
  - intros k info Hinfo Hlive. rewrite isWorkerAlive_run. cbn [mux set_mux].
    rewrite paneAlive_pane. unfold sessionName.
    rewrite (killed_pane_info _ _ _ info) by (done || by eexists).
    by destruct (decide (Tmux.pane_session info = "omc-team-" +:+ name)).
  - intros Hchars Halone. rewrite killTeamSession_exact. cbn [mux set_mux]. f_equal.
    unfold set_mux. cbn. f_equal. subst sessionName.
    assert (Hchars' : forall_chars name_char ("omc-team-" +:+ name) = true)
      by (by rewrite forall_chars_app, Hchars).
    assert (Halone' : alone ("omc-team-" +:+ name) (killed ("omc-team-" +:+ name) (mux w))).
    { eapply alone_fewer; [|exact Halone]. intros n Hn%killed_subset. by right. }
    rewrite (killed_alone _ (killed _ _) Hchars' Halone').
    by rewrite killed_gone.
Qed.

(** Witness for X13: the session of a team of two workers. *)
Lemma killTeamSession_workers_dead_witness :
  let w := (createTeamSession "t1" 2 "/p" Demo.world0).1 in
  isWorkerAlive "%1" w = (w, Ok true)
  ∧ ∃ s', killTeamSession "omc-team-t1" w = (set_mux s' w, Ok tt)
        ∧ isWorkerAlive "%1" (set_mux s' w) = (set_mux s' w, Ok false).
Proof.
  intros w. split; [vm_compute; reflexivity|].
  destruct (killTeamSession_workers_dead "t1" w
              {| Tmux.panes := ["%0"; "%1"; "%2"]; Tmux.active := "%2" |})
    as (s' & Hrun & _ & _ & Hdead & _); [vm_compute; reflexivity|].
  exists s'. split; [exact Hrun|].
  apply (Hdead 1%N (Tmux.fresh_pane "omc-team-t1")); [vm_compute; reflexivity|].
  by left.
Defined.

(** ** What [createTeamSession] refuses *)

Lemma createTeamSession_rejected (teamName : string) (workerCount : Z) (cwd : string)
    (w : World) (e : Error) :
  sanitizeName teamName = Throw e →
  createTeamSession teamName workerCount cwd w = (w, Throw e).
Proof.
  intros He. unfold createTeamSession.
  by rewrite (run_bind_Throw _ _ w w e) by (unfold lift; by rewrite He).
Qed.

Lemma createTeamSession_existing (teamName : string) (workerCount : Z) (cwd : string)
    (w : World) (name : string) :
  sanitizeName teamName = Ok name →
  is_Some (Tmux.sessions (mux w) !! ("omc-team-" +:+ name)) →
  createTeamSession teamName workerCount cwd w
  = (w, Throw (TmuxError ["new-session"; "-d"; "-s"; "omc-team-" +:+ name;
                          "-x"; "220"; "-y"; "50"; "-c"; cwd])).
Proof.
  intros Hname [ses Hses]. unfold createTeamSession.
  rewrite (run_bind_Ok _ _ w w name) by (unfold lift; by rewrite Hname).
  erewrite run_bind_Throw; [reflexivity|].
  unfold tmux, Tmux.exec.
  change (Tmux.run _ (mux w)) with (Tmux.new_session ("omc-team-" +:+ name) (mux w)).
  unfold Tmux.new_session. rewrite Hses. by rewrite set_mux_same.
Qed.

(** X14.  [createTeamSession] throws the error of [sanitizeName] before it
    asks tmux anything; and where the session exists already it throws the
    error of [new-session] and leaves the session as it is: it does not
    replace a stale session as [createSession] does. *)
Theorem createTeamSession_refuses (teamName : string) (workerCount : Z) (cwd : string)
    (w : World) :
  (∀ e, sanitizeName teamName = Throw e →
        createTeamSession teamName workerCount cwd w = (w, Throw e))
  ∧ (∀ name, sanitizeName teamName = Ok name →
             is_Some (Tmux.sessions (mux w) !! ("omc-team-" +:+ name)) →
             createTeamSession teamName workerCount cwd w
             = (w, Throw (TmuxError ["new-session"; "-d"; "-s"; "omc-team-" +:+ name;
                                     "-x"; "220"; "-y"; "50"; "-c"; cwd]))).
Proof.
  split.
  - intros e. apply createTeamSession_rejected.
  - intros name. apply createTeamSession_existing.
Qed.

(** ** Sending a trigger *)


(** ** Waiting for the ready sentinel *)

Lemma waitForWorkerReady_loop_spec (sentinelPath : Path) (deadline : Z) (fuel : nat) :
  ∀ w,
  (1 ≤ fuel)%nat →
  deadline - now w ≤ 500 * (Z.of_nat fuel - 1) →
  ∃ w' ready,
    waitForWorkerReady_loop fuel sentinelPath deadline w = (w', Ok ready)
    ∧ mux w' = mux w ∧ console w' = console w ∧ workers w' = workers w
    ∧ now w ≤ now w'
    ∧ (now w' = now w ∨ now w' < deadline + 500)
    ∧ (ready = true → existsSync (fs w') sentinelPath = true ∧ now w' < deadline)
    ∧ (ready = false → deadline ≤ now w')
    ∧ (deadline ≤ now w → w' = w ∧ ready = false)
    ∧ (now w < deadline → existsSync (fs w) sentinelPath = true → w' = w ∧ ready = true)
    ∧ (∀ P : FS → Prop, P (fs w) → (∀ k f, P f → P (workers w k f)) → P (fs w')).
Proof.
  induction fuel as [|fuel IH]; intros w Hfuel Hroom; [lia|].
  cbn [waitForWorkerReady_loop]. rewrite (run_bind_Ok _ _ w w (now w)) by reflexivity.
  destruct (Z.ltb_spec (now w) deadline) as [Hlt|Hge].
  - destruct (existsSync (fs w) sentinelPath) eqn:Hex.
    + rewrite (run_bind_Ok _ _ w w true).
      * exists w, true. split; [reflexivity|].
        repeat split; try done; try lia; by left.
      * apply run_try_Ok. rewrite (run_bind_Ok _ _ w w tt); [reflexivity|].
        unfold fs_access. by rewrite Hex.
    + set (w1 := after_sleep 500 w).
      rewrite (run_bind_Ok _ _ w w1 false).
      * destruct (IH w1) as (w' & ready & Hrun & Hmux & Hcon & Hwk & Hnow & Hend
                             & Htrue & Hfalse & _ & _ & Hinv);
          [lia | subst w1; cbn [now after_sleep]; lia |].
        exists w', ready. split; [exact Hrun|].
        subst w1. cbn [mux now console workers fs after_sleep] in *.
        split; [done|]. split; [done|]. split; [done|]. split; [lia|].
        split; [right; lia|]. split; [done|]. split; [done|].
        split; [lia|]. split; [done|].
        intros P HP Hstep. apply Hinv; [by apply Hstep | done].
      * erewrite run_try_Throw; [reflexivity|].
        apply run_bind_Throw. unfold fs_access. by rewrite Hex.
  - exists w, false. split; [reflexivity|].
    repeat split; try done; try lia; by left.
Qed.

(** X16.  [waitForWorkerReady] returns for every timeout.  It answers true
    only with the sentinel in place and before the deadline, and false
    only once the deadline has passed; the clock, which the 500 ms
    sleeps advance, ends less than 500 ms after the deadline.  With a
    timeout of zero or less it answers false at once without looking,
    also when the sentinel is there; with the sentinel there and a
    positive timeout it answers true at once; and where the workers
    never write the sentinel it answers false. *)
Theorem waitForWorkerReady_spec (teamName workerName cwd : string) (timeoutMs : Z)
    (w : World) :
  let sentinel := readySentinel teamName workerName cwd in
  ∃ w' ready,
    TmuxSession.waitForWorkerReady teamName workerName cwd timeoutMs w = (w', Ok ready)
    ∧ (ready = true → existsSync (fs w') sentinel = true ∧ now w' < now w + timeoutMs)
    ∧ (ready = false → now w + timeoutMs ≤ now w')
    ∧ now w ≤ now w' < now w + Z.max 0 timeoutMs + 500
    ∧ (timeoutMs ≤ 0 → w' = w ∧ ready = false)
    ∧ (0 < timeoutMs → existsSync (fs w) sentinel = true → w' = w ∧ ready = true)
    ∧ (existsSync (fs w) sentinel = false →
       (∀ k f, existsSync f sentinel = false →
               existsSync (workers w k f) sentinel = false) →
       ready = false)
    ∧ mux w' = mux w ∧ console w' = console w.
Proof.
  intros sentinel. unfold TmuxSession.waitForWorkerReady.
  rewrite (run_bind_Ok _ _ w w (now w)) by reflexivity.
  destruct (poll_fuel_enough timeoutMs) as [Hfuel1 Hfuel2].
  destruct (waitForWorkerReady_loop_spec sentinel (now w + timeoutMs)
              (poll_fuel timeoutMs) w)
    as (w' & ready & Hrun & Hmux & Hcon & _ & Hnow & Hend & Htrue & Hfalse & Hpast
        & Hthere & Hinv); [exact Hfuel1 | lia |].
  exists w', ready. split; [exact Hrun|].
  split; [exact Htrue|]. split; [exact Hfalse|]. split; [lia|].
  split; [intros Hle; apply Hpast; lia|].
  split; [intros Hpos; apply Hthere; lia|].
  split; [|done].
  intros Hnone Hnever. destruct ready; [|done].
  destruct Htrue as [Hex _]; [done|].
  rewrite (Hinv (λ f, existsSync f sentinel = false) Hnone Hnever) in Hex. done.
Qed.

(** ** Writing and reading a record *)

Lemma parsed_written (f : FS) (p : Path) (v : JSON) :
  p ≠ [] → f !! p = Some (File [PJson v]) → parsed f p = v.
Proof.
  intros Hp Hf. unfold parsed, readFile, node_at. destruct p; [done|]. by rewrite Hf.
Qed.

Lemma not_prefix_of_parent (p : Path) : p ≠ [] → ¬ p `prefix_of` parent p.
Proof.
  intros Hp [k Hk]. apply (f_equal List.length) in Hk.
  rewrite length_app, parent_length in Hk. destruct p; [done|]. simpl in Hk. lia.
Qed.

(** X17.  What [writeJson] has written [readJsonSafe] reads back: where the
    file can be written, [writeJson] returns, [readJsonSafe] of the same
    path then returns the value, and every other path reads as before;
    the directories of the path exist afterwards and nothing else has
    changed. *)
Theorem writeJson_readJsonSafe (p : Path) (data : JSON) (w : World) :
  p ≠ [] →
  writable (fs w) p →
  ∃ f', writeJson p data w = (set_fs f' w, Ok tt)
      ∧ readJsonSafe p (set_fs f' w) = (set_fs f' w, Ok data)
      ∧ (∀ q, q ≠ p → readJsonSafe q (set_fs f' w)
                      = (set_fs f' w, Ok (parsed (fs w) q)))
      ∧ node_at f' (parent p) = Some Dir
      ∧ (∀ q, q ≠ p → ¬ q `prefix_of` parent p → f' !! q = fs w !! q).
Proof.
  intros Hp Hwritable. eexists. split; [by apply writeJson_ok|].
  rewrite !readJsonSafe_run. cbn [fs set_fs].
  split; [by rewrite (parsed_written _ _ data Hp (lookup_insert_eq _ _ _))|].
  split; [|split].
  - intros q Hq. rewrite readJsonSafe_run. cbn [fs set_fs].
    rewrite parsed_insert_ne by done. by rewrite (more_dirs_parsed _ _ _ (mkdir_p_more_dirs _ _)).
  - destruct Hwritable as [Hdir _]. destruct (mkdir_p_ok _ _ Hdir) as [_ Hnode].
    unfold node_at in *. destruct (parent p) as [|x dir] eqn:Hparent; [done|].
    rewrite lookup_insert_ne; [done|]. rewrite <- Hparent. intros Heq.
    apply (not_prefix_of_parent p Hp). by rewrite <- Heq.
  - intros q Hq Hpre. rewrite lookup_insert_ne by done. by apply mkdir_p_elsewhere.
Qed.

(** Witness for X17: a first record in an empty file system. *)
Lemma writeJson_readJsonSafe_witness :
  ∃ f', writeJson (path_of "/p/state/a.json") (JObj [("n", JNum 1)]) Demo.world0
        = (set_fs f' Demo.world0, Ok tt)
      ∧ readJsonSafe (path_of "/p/state/a.json") (set_fs f' Demo.world0)
        = (set_fs f' Demo.world0, Ok (JObj [("n", JNum 1)])).
Proof.
  destruct (writeJson_readJsonSafe (path_of "/p/state/a.json") (JObj [("n", JNum 1)])
              Demo.world0) as (f' & Hwrite & Hread & _); [done | |].
  - split; [apply creatableb_spec; vm_compute; reflexivity | vm_compute; discriminate].
  - exists f'. split; [exact Hwrite | exact Hread].
Defined.

(** ** Assigning a task that has a record *)

Section AssignRecord.
Context `{Host}.

Lemma creatable_more_dirs (f f' : FS) (dir : Path) :
  more_dirs f f' → creatable f dir → creatable f' dir.
Proof.
  intros Hmd Hc q c Hq. destruct (Hmd q) as [->|[_ ->]]; [by apply Hc | discriminate].
Qed.

(** The inbox steps of [assignTask] where the inbox can be written. *)
Lemma inbox_steps_run (inboxPath : Path) (msg : list Piece)
    (sessionName paneId trigger : string) (w : World) :
  inboxPath ≠ [] →
  writable (fs w) inboxPath →
  ∃ w', (mkdir (parent inboxPath);; fs_appendFile inboxPath msg;;
         sendToWorker sessionName paneId trigger;; mret tt) w = (w', Ok tt)
      ∧ fs w' = <[inboxPath := File (content_at (fs w) inboxPath ++ msg)]>
                  (mkdir_p (parent inboxPath) (fs w)).1
      ∧ mux w' = typed paneId (cut200 trigger) (mux w)
      ∧ now w' = now w.
Proof.
  intros Hp [Hdir Hnd].
  destruct (mkdir_p_ok _ _ Hdir) as [Hok Hnode].
  destruct (mkdir_run (parent inboxPath) w) as (r & Hrun & Hr).
  rewrite (Hr Hok) in Hrun. set (f1 := (mkdir_p (parent inboxPath) (fs w)).1) in *.
  assert (Hsame : f1 !! inboxPath = fs w !! inboxPath)
    by (by apply mkdir_p_elsewhere, not_prefix_of_parent).
  assert (Happ : fs_appendFile inboxPath msg (set_fs f1 w)
                 = (set_fs (<[inboxPath := File (content_at (fs w) inboxPath ++ msg)]> f1) w,
                    Ok tt)).
  { unfold fs_appendFile, lift_fs. cbn [fs set_fs].
    rewrite appendFile_ok; [| done | exact Hnode | by rewrite Hsame].
    unfold content_at. rewrite Hsame. by destruct w. }
  destruct (sendToWorker_run sessionName paneId trigger
              (set_fs (<[inboxPath := File (content_at (fs w) inboxPath ++ msg)]> f1) w))
    as (w' & sent & Hsend & Hfs & Hnow & _ & Hmux).
  exists w'. split.
  - rewrite (run_bind_Ok _ _ _ _ _ Hrun), (run_bind_Ok _ _ _ _ _ Happ).
    by rewrite (run_bind_Ok _ _ _ _ _ Hsend).
  - by rewrite Hfs, Hnow, Hmux.
Qed.

Lemma parent_prefix (p : Path) : parent p `prefix_of` p.
Proof.
  destruct (decide (p = [])) as [->|Hne]; [done|].
  destruct (exists_last Hne) as (p0 & x & ->). rewrite parent_snoc. by exists [x].
Qed.

(** X18.  [assignTask] for a task whose file, at the path the task identifier
    joins to, holds a record, where the record and the inbox of the
    worker can be written and the inbox is not a directory on the way to
    the record: it returns; the record has the worker as [owner], the
    status [in_progress] and the time of the call as [assignedAt], and
    its other fields as they were; the inbox holds what it held and
    then the assignment block; the trigger and Enter are sent to the
    pane; and every other path holds what it held, or is a directory
    that was made. *)
Theorem assignTask_record (teamName taskId target paneId sessionName cwd : string)
    (w : World) (fields : list (string * JSON)) :
  let root := stateRoot cwd teamName in
  let taskPath := join root ["tasks"; taskId +:+ ".json"] in
  let inboxPath := join root ["workers"; target; "inbox.md"] in
  fs w !! taskPath = Some (File [PJson (JObj fields)]) →
  creatable (fs w) (parent taskPath) →
  writable (fs w) inboxPath →
  ¬ inboxPath `prefix_of` taskPath →
  ∃ w' record,
    assignTask teamName taskId target paneId sessionName cwd w = (w', Ok tt)
    ∧ fs w' !! taskPath = Some (File [PJson record])
    ∧ record = assignedRecord fields target (now w)
    ∧ get "owner" record = Some (JStr target)
    ∧ get "status" record = Some (JStr "in_progress")
    ∧ get "assignedAt" record = Some (JStr (Date_toISOString (now w)))
    ∧ (∀ k, k ∉ ["owner"; "status"; "assignedAt"] →
            get k record = get k (JObj fields))
    ∧ fs w' !! inboxPath
      = Some (File (content_at (fs w) inboxPath
                    ++ [PText (assignmentBlock teamName taskId)]))
    ∧ (∀ q, q ≠ taskPath → q ≠ inboxPath →
            fs w' !! q = fs w !! q ∨ (fs w !! q = None ∧ fs w' !! q = Some Dir))
    ∧ mux w' = typed paneId (cut200 ("new-task:" +:+ taskId)) (mux w)
    ∧ now w' = now w.
Proof.
  cbn zeta. intros Htask Htasks [Hinbox Hnd] Hapart.
  set (root := stateRoot cwd teamName) in *.
  set (taskPath := join root ["tasks"; taskId +:+ ".json"]) in *.
  set (inboxPath := join root ["workers"; target; "inbox.md"]) in *.
  set (record := assignedRecord fields target (now w)).
  destruct (join_suffixed root ["tasks"] taskId ".json") as (dir & piece & Hjoin);
    [reflexivity | simpl; lia |].
  cbn [app] in Hjoin. fold taskPath in Hjoin.
  assert (Hinbox_eq : inboxPath = join root ["workers"; target] ++ ["inbox.md"]).
  { unfold inboxPath.
    change ["workers"; target; "inbox.md"] with (["workers"; target] ++ ["inbox.md"]).
    by rewrite join_snoc. }
  assert (Htask_ne : taskPath ≠ []).
  { rewrite Hjoin. intros [_ ?]%app_eq_nil. discriminate. }
  assert (Hinbox_ne : inboxPath ≠ []).
  { rewrite Hinbox_eq. intros [_ ?]%app_eq_nil. discriminate. }
  assert (Hdiff : inboxPath ≠ taskPath).
  { rewrite Hinbox_eq, Hjoin. intros [_ Heq]%snoc_inj. by apply (json_not_inbox piece). }
  assert (Hwrite : writeJson taskPath record w
                   = (set_fs (<[taskPath := File [PJson record]]>
                                (mkdir_p (parent taskPath) (fs w)).1) w, Ok tt)).
  { apply writeJson_ok; [done|]. split; [done|]. by rewrite Htask. }
  set (f0 := (mkdir_p (parent taskPath) (fs w)).1) in *.
  set (f1 := <[taskPath := File [PJson record]]> f0) in *.
  assert (Hmd0 : more_dirs (fs w) f0) by apply mkdir_p_more_dirs.
  assert (Hinbox0 : f0 !! inboxPath = fs w !! inboxPath).
  { apply mkdir_p_elsewhere. intros Hpre. apply Hapart.
    etrans; [exact Hpre | apply parent_prefix]. }
  assert (Hwritable1 : writable f1 inboxPath).
  { split.
    - intros q c Hq. destruct (decide (q = taskPath)) as [->|Hne].
      + by destruct (Hinbox taskPath [PJson (JObj fields)] Hq).
      + subst f1. rewrite lookup_insert_ne by done.
        exact (creatable_more_dirs (fs w) _ _ Hmd0 Hinbox q c Hq).
    - subst f1. rewrite lookup_insert_ne by done. by rewrite Hinbox0. }
  destruct (inbox_steps_run inboxPath [PText (assignmentBlock teamName taskId)]
              sessionName paneId ("new-task:" +:+ taskId) (set_fs f1 w))
    as (w' & Hsteps & Hfs & Hmux & Hnow); [done | exact Hwritable1 |].
  cbn [fs mux now set_fs] in Hfs, Hmux, Hnow.
  assert (Hmd1 : more_dirs f1 (mkdir_p (parent inboxPath) f1).1)
    by apply mkdir_p_more_dirs.
  exists w', record. split.
  { unfold assignTask. fold root taskPath inboxPath.
    run_ok (readJsonSafe_run taskPath w).
    rewrite (parsed_written _ _ (JObj fields)) by done.
    cbn [truthy].
    rewrite (run_bind_Ok _ _ w (set_fs f1 w) tt); [exact Hsteps|].
    unfold assign. cbn [set_prop].
    rewrite (run_bind_Ok _ _ w w _) by reflexivity.
    rewrite (run_bind_Ok _ _ w w _) by reflexivity.
    rewrite (run_bind_Ok _ _ w w (now w)) by reflexivity.
    rewrite (run_bind_Ok _ _ w w _) by reflexivity.
    exact Hwrite. }
  assert (Htask' : fs w' !! taskPath = Some (File [PJson record])).
  { rewrite Hfs, lookup_insert_ne by done.
    destruct (Hmd1 taskPath) as [->|[Hnone _]].
    - subst f1. apply lookup_insert_eq.
    - subst f1. by rewrite lookup_insert_eq in Hnone. }
  split; [exact Htask'|]. split; [reflexivity|].
  split; [|split; [|split; [|split]]].
  - subst record. unfold assignedRecord, get.
    rewrite !assoc_set_other by discriminate. apply assoc_set_same.
  - subst record. unfold assignedRecord, get.
    rewrite assoc_set_other by discriminate. apply assoc_set_same.
  - subst record. unfold assignedRecord, get. apply assoc_set_same.
  - intros k Hk. subst record. unfold assignedRecord, get.
    rewrite !assoc_set_other; [done|..]; intros ->; apply Hk; set_solver.
  - split; [|split; [|by split]].
    + rewrite Hfs, lookup_insert_eq. do 3 f_equal. unfold content_at.
      subst f1. rewrite lookup_insert_ne by done. by rewrite Hinbox0.
    + intros q Hq Hqi. rewrite Hfs, lookup_insert_ne by done.
      assert (Hq1 : f1 !! q = f0 !! q) by (subst f1; by rewrite lookup_insert_ne).
      destruct (Hmd1 q) as [->|[Hnone ->]]; rewrite Hq1 in *.
      * destruct (Hmd0 q) as [?|[? ?]]; [by left | by right].
      * right. split; [|done]. destruct (Hmd0 q) as [<-|[? ?]]; [done | congruence].
Qed.

(** X19.  A task file that holds a number other than 0, a string other than
    the empty one, or [true] makes [assignTask] throw a TypeError at its
    first assignment: the file, the inbox of the worker and the pane are
    left as they were. *)
Theorem assignTask_not_a_record (teamName taskId target paneId sessionName cwd : string)
    (w : World) (v : JSON) :
  fs w !! join (stateRoot cwd teamName) ["tasks"; taskId +:+ ".json"]
  = Some (File [PJson v]) →
  truthy v = true →
  (∀ fields, v ≠ JObj fields) → (∀ items, v ≠ JArr items) →
  assignTask teamName taskId target paneId sessionName cwd w
  = (w, Throw (TypeError "Cannot create property 'owner'")).
Proof.
  intros Htask Htruthy Hobj Harr. unfold assignTask.
  run_ok (readJsonSafe_run _ w).
  rewrite (parsed_written _ _ v); [| |done].
  2:{ destruct (join_suffixed (stateRoot cwd teamName) ["tasks"] taskId ".json")
        as (dir & piece & Hjoin); [reflexivity | simpl; lia |].
      cbn [app] in Hjoin. rewrite Hjoin. intros [_ ?]%app_eq_nil. discriminate. }
  rewrite Htruthy.
  erewrite run_bind_Throw; [reflexivity|].
  erewrite run_bind_Throw; [reflexivity|].
  unfold assign. destruct v as [| | | |items|fields]; try reflexivity.
  - by destruct (Harr items).
  - by destruct (Hobj fields).
Qed.

End AssignRecord.

(** Witness for X18: task 1 of the started team, assigned to worker-2. *)
Lemma assignTask_record_witness :
  ∃ w' record,
    assignTask (H := Demo.host) "t1" "1" "worker-2" "%2" "omc-team-t1" "/p" started_world
    = (w', Ok tt)
    ∧ fs w' !! taskPathOf "/p" "t1" "1.json" = Some (File [PJson record])
    ∧ get "owner" record = Some (JStr "worker-2")
    ∧ get "status" record = Some (JStr "in_progress")
    ∧ get "subject" record = Some (JStr "a").
Proof.
  destruct (assignTask_record (H := Demo.host) "t1" "1" "worker-2" "%2" "omc-team-t1" "/p"
              started_world
              [("id", JStr "1"); ("subject", JStr "a"); ("description", JStr "d");
               ("status", JStr "pending"); ("owner", JNull); ("result", JNull);
               ("createdAt", JStr "0")])
    as (w' & record & Hrun & Hfile & -> & Howner & Hstatus & _).
  - vm_compute. reflexivity.
  - apply creatableb_spec. vm_compute. reflexivity.
  - split; [apply creatableb_spec; vm_compute; reflexivity | vm_compute; discriminate].
  - intros [k Hk]. vm_compute in Hk. discriminate Hk.
  - eexists w', _. split; [exact Hrun|]. split; [exact Hfile|].
    split; [exact Howner|]. split; [exact Hstatus|]. vm_compute. reflexivity.
Defined.

(** Witness for X19: a task file that holds the number 5. *)
Lemma assignTask_not_a_record_witness :
  assignTask (H := Demo.host) "t1" "1" "worker-1" "%1" "omc-team-t1" "/p" number_task_world
  = (number_task_world, Throw (TypeError "Cannot create property 'owner'")).
Proof.
  apply (assignTask_not_a_record (H := Demo.host) "t1" "1" "worker-1" "%1" "omc-team-t1"
           "/p" number_task_world (JNum 5)); [vm_compute; reflexivity | reflexivity | done..].
Defined.

(** ** The workers of a snapshot *)

Section MonitorWorkers.
Context `{Host}.

Lemma checkWorker_console (root : Path) (acc : list WorkerStatus * list string)
    (ip : nat * string) (w : World) :
  convertible (heartbeatOf (fs w) root ip.1) = true →
  ∃ w', checkWorker root acc ip w = (w', Ok (checkWorker_step w root acc ip))
        ∧ quiet_step w w'
        ∧ console w' = console w ++ (if stalled (statusOf w root ip)
                                     then [stallWarning (statusOf w root ip)] else []).
Proof.
  destruct acc as [ws dead], ip as [i p]. cbn [fst]. intros Hconv. unfold checkWorker.
  run_ok (isWorkerAlive_run p w).
  run_ok (readJsonSafe_run _ w).
  pose proof (detectStall_run (heartbeatOf (fs w) root i) w) as Hstall.
  rewrite Hconv in Hstall. unfold heartbeatOf in Hstall. run_ok Hstall.
  unfold checkWorker_step, statusOf, heartbeatOf, stallWarning. simpl.
  destruct (staleAt _ _) eqn:Hst.
  - eexists. split; [reflexivity|]. split; [by repeat split | reflexivity].
  - exists w. split; [reflexivity|]. split; [apply quiet_step_refl|].
    by rewrite app_nil_r.
Qed.

Lemma foldl_quiet (root : Path) (w w1 : World) (ips : list (nat * string))
    (acc : list WorkerStatus * list string) :
  quiet_step w w1 →
  foldl (checkWorker_step w1 root) acc ips = foldl (checkWorker_step w root) acc ips.
Proof.
  intros Hq. revert acc. induction ips as [|ip ips IH]; intros acc; [reflexivity|].
  simpl. unfold checkWorker_step at 2 4. rewrite (statusOf_quiet _ _ _ _ Hq). apply IH.
Qed.

Lemma checkWorkers_console (root : Path) (ips : list (nat * string)) :
  ∀ acc w,
  forallb (λ ip, convertible (heartbeatOf (fs w) root ip.1)) ips = true →
  ∃ w', foldM ips (checkWorker root) acc w
        = (w', Ok (foldl (checkWorker_step w root) acc ips))
        ∧ quiet_step w w'
        ∧ console w' = console w
                       ++ map stallWarning
                            (List.filter stalled (map (statusOf w root) ips)).
Proof.
  induction ips as [|ip ips IH]; intros acc w Hall.
  - exists w. split; [reflexivity|]. split; [apply quiet_step_refl|].
    simpl. by rewrite app_nil_r.
  - cbn [forallb] in Hall. apply andb_prop in Hall as [Hip Hall].
    destruct (checkWorker_console root acc ip w Hip) as (w1 & Hrun & Hq1 & Hc1).
    destruct (IH (checkWorker_step w root acc ip) w1) as (w2 & Hrest & Hq2 & Hc2).
    { destruct Hq1 as (-> & _). exact Hall. }
    exists w2. split; [|split; [by eapply quiet_step_trans|]].
    + cbn [foldM foldl]. rewrite (run_bind_Ok _ _ _ _ _ Hrun), Hrest.
      by rewrite (foldl_quiet _ _ _ _ _ Hq1).
    + rewrite Hc2, Hc1. cbn [map List.filter].
      assert (Hsame : map (statusOf w1 root) ips = map (statusOf w root) ips).
      { apply map_ext. intros ip'. by apply statusOf_quiet. }
      rewrite Hsame.
      destruct (stalled (statusOf w root ip)); cbn [map]; by rewrite <- app_assoc.
Qed.

(** X20.  [monitorTeam] returns, unless the [updatedAt] of a heartbeat it
    reads is an object that cannot be made a primitive: then it throws
    the TypeError of [new Date].  Its snapshot has one status for each
    pane it is given, in their order: the worker at index [i] is named
    [worker-(i+1)], carries the pane at that index and is alive when
    tmux knows the pane and does not report it dead; [deadWorkers] are
    the names of the workers reported not alive, in that order; and the
    call has logged one warning for each worker reported stalled.
    Either way the call writes no file and leaves the server and the
    clock alone. *)
Theorem monitorTeam_workers (teamName cwd : string) (workerPaneIds : list string)
    (w : World) :
  ∃ w' r,
    monitorTeam teamName cwd workerPaneIds w = (w', r)
    ∧ fs w' = fs w ∧ mux w' = mux w ∧ now w' = now w
    ∧ match r with
      | Ok snap =>
          readable (fs w) (stateRoot cwd teamName) workerPaneIds = true
          ∧ snap_teamName snap = teamName
          ∧ List.length (snap_workers snap) = List.length workerPaneIds
          ∧ (∀ i p, workerPaneIds !! i = Some p →
               ∃ st, snap_workers snap !! i = Some st
                   ∧ ws_workerName st = "worker-" +:+ String_of (Z.of_nat i + 1)
                   ∧ paneId st = p
                   ∧ alive st = paneAlive (mux w) p)
          ∧ deadWorkers snap
            = map ws_workerName (List.filter (λ st, negb (alive st)) (snap_workers snap))
          ∧ console w'
            = console w ++ map stallWarning (List.filter stalled (snap_workers snap))
      | Throw e =>
          readable (fs w) (stateRoot cwd teamName) workerPaneIds = false
          ∧ e = unconvertible
      | OutOfFuel => False
      end.
Proof.
  destruct (monitorTeam_run teamName cwd workerPaneIds w)
    as (w' & Hrun & (Hfs & Hmux & Hnow & _)).
  destruct (readable (fs w) (stateRoot cwd teamName) workerPaneIds) eqn:Hreadable.
  - destruct (checkWorkers_console (stateRoot cwd teamName)
                (imap (λ i p, (i, p)) workerPaneIds) ([], []) w Hreadable)
      as (w1 & Hrun1 & _ & Hcon).
    assert (Hsame : w1 = w').
    { revert Hrun. unfold monitorTeam. run_ok (readTaskCounts_run _ w).
      rewrite (run_bind_Ok _ _ _ _ _ Hrun1), checkWorker_steps.
      intros Heq. by injection Heq. }
    subst w1.
    exists w', (Ok (snapshotOf w teamName cwd workerPaneIds)).
    split; [exact Hrun|]. split; [exact Hfs|]. split; [exact Hmux|].
    split; [exact Hnow|]. split; [reflexivity|]. split; [reflexivity|].
    split; [unfold snapshotOf; cbn; by rewrite length_map, length_imap|].
    split.
    { intros i p Hi. eexists. split; [by apply snapshot_worker|]. done. }
    split; [reflexivity | exact Hcon].
  - exists w', (Throw unconvertible). by repeat split.
Qed.

End MonitorWorkers.

(** ** How long a shutdown waits *)

Lemma splice_head (x : string) (l : list string) : splice_indexOf x (x :: l) = l.
Proof. unfold splice_indexOf. cbn. by rewrite decide_True. Qed.

Lemma collectAcks_all (root : Path) (acks : list string) (w : World) :
  (∀ wName, wName ∈ acks → existsSync (fs w) (ackPath root wName) = true) →
  collectAcks root acks w = (w, Ok []).
Proof.
  intros Hall. unfold collectAcks.
  rewrite (foldM_pure _
             (λ acks wName,
                if existsSync (fs w) (ackPath root wName)
                then splice_indexOf wName acks else acks)) by (intros; reflexivity).
  do 2 f_equal.
  assert (Hgen : ∀ l rest, (∀ x, x ∈ l → existsSync (fs w) (ackPath root x) = true) →
            foldl (λ acks wName,
                     if existsSync (fs w) (ackPath root wName)
                     then splice_indexOf wName acks else acks) (l ++ rest) l = rest).
  { induction l as [|x l IH]; intros rest Hl; [reflexivity|].
    cbn [foldl app]. rewrite (Hl x) by (by left). rewrite splice_head.
    apply IH. intros y Hy. apply Hl. by right. }
  rewrite <- (app_nil_r acks) at 1. by apply Hgen.
Qed.

Lemma collectAcks_none (root : Path) (acks : list string) (w : World) :
  no_acks root acks (fs w) → collectAcks root acks w = (w, Ok acks).
Proof.
  intros Hnone. unfold collectAcks.
  rewrite (foldM_pure _
             (λ acks wName,
                if existsSync (fs w) (ackPath root wName)
                then splice_indexOf wName acks else acks)) by (intros; reflexivity).
  do 2 f_equal.
  assert (Hgen : ∀ l acc, (∀ x, x ∈ l → existsSync (fs w) (ackPath root x) = false) →
            foldl (λ acks wName,
                     if existsSync (fs w) (ackPath root wName)
                     then splice_indexOf wName acks else acks) acc l = acc).
  { induction l as [|x l IH]; intros acc Hl; [reflexivity|].
    cbn [foldl]. rewrite (Hl x) by (by left). apply IH. intros y Hy. apply Hl. by right. }
  by apply Hgen.
Qed.

(** The ack loop where nothing is to be waited for. *)
Lemma pollAcks_at_once (root : Path) (deadline : Z) (fuel : nat) (acks : list string)
    (w : World) :
  (2 ≤ fuel)%nat →
  deadline ≤ now w ∨ acks = []
  ∨ (∀ wName, wName ∈ acks → existsSync (fs w) (ackPath root wName) = true) →
  ∃ acks', pollAcks fuel root deadline acks w = (w, Ok acks').
Proof.
  intros Hfuel Hcase. destruct fuel as [|[|fuel]]; [lia..|].
  cbn [pollAcks]. rewrite (run_bind_Ok _ _ w w (now w)) by reflexivity.
  destruct ((now w <? deadline) && (0 <? List.length acks)%nat) eqn:Hcond;
    [|by eexists].
  apply andb_prop in Hcond as [Hlt%Z.ltb_lt Hne%Nat.ltb_lt].
  destruct Hcase as [Hpast|[->|Hall]]; [lia | simpl in Hne; lia |].
  run_ok (collectAcks_all root acks w Hall). cbn [List.length Nat.ltb Nat.leb].
  rewrite (run_bind_Ok _ _ w w tt) by reflexivity.
  rewrite (run_bind_Ok _ _ w w (now w)) by reflexivity.
  rewrite andb_false_r. by eexists.
Qed.

(** The ack loop where no ack ever comes: it ends with the deadline. *)
Lemma pollAcks_no_acks (root : Path) (deadline : Z) (acks : list string) (fuel : nat) :
  ∀ w,
  (1 ≤ fuel)%nat →
  deadline - now w ≤ 500 * (Z.of_nat fuel - 1) →
  acks ≠ [] →
  no_acks root acks (fs w) →
  (∀ k f, no_acks root acks f → no_acks root acks (workers w k f)) →
  ∃ w', pollAcks fuel root deadline acks w = (w', Ok acks)
      ∧ mux w' = mux w ∧ now w ≤ now w' ∧ deadline ≤ now w'
      ∧ (now w' = now w ∨ now w' < deadline + 500).
Proof.
  induction fuel as [|fuel IH]; intros w Hfuel Hroom Hne Hnone Hnever; [lia|].
  cbn [pollAcks]. rewrite (run_bind_Ok _ _ w w (now w)) by reflexivity.
  assert (Hlen : (0 <? List.length acks)%nat = true).
  { apply Nat.ltb_lt. destruct acks; [done | simpl; lia]. }
  rewrite Hlen, andb_true_r.
  destruct (Z.ltb_spec (now w) deadline) as [Hlt|Hge].
  - run_ok (collectAcks_none root acks w Hnone). rewrite Hlen.
    set (w1 := after_sleep 500 w).
    rewrite (run_bind_Ok _ _ w w1 tt) by reflexivity.
    destruct (IH w1) as (w' & Hrun & Hmux & Hnow & Hend & Hlate);
      [lia | subst w1; cbn [now after_sleep]; lia | done
       | subst w1; cbn [fs after_sleep]; by apply Hnever | exact Hnever |].
    exists w'. split; [exact Hrun|]. subst w1. cbn [mux now after_sleep] in *.
    split; [done|]. split; [lia|]. split; [done|]. right. lia.
  - exists w. split; [reflexivity|]. split; [done|]. split; [lia|]. split; [lia|]. by left.
Qed.

Section ShutdownMore.
Context `{Host}.

(** [shutdownTeam] from the ack loop on. *)
Lemma shutdownTeam_steps (teamName sessionName cwd : string) (timeoutMs : Z) (w : World)
    (n : Z) :
  let root := stateRoot cwd teamName in
  let marker := root ++ ["shutdown.json"] in
  let request := JObj [("requestedAt", JStr (Date_toISOString (now w)));
                       ("teamName", JStr teamName)] in
  let w1 := set_fs (<[marker := File [PJson request]]> (mkdir_p (parent marker) (fs w)).1) w in
  writable (fs w) marker →
  persistedLength (fs w) root = Some n →
  n ≤ 4294967295 →
  ∀ w2 acks,
    pollAcks (poll_fuel timeoutMs) root (now w + timeoutMs) (expectedAcks n) w1
    = (w2, Ok acks) →
    shutdownTeam teamName sessionName cwd timeoutMs w
    = (set_fs (rm_rf root (fs w2)) (set_mux (killed sessionName (mux w2)) w2), Ok tt).
Proof.
  cbn zeta. intros Hwritable Hlen Hcount w2 acks Hpoll. unfold shutdownTeam.
  rewrite (run_bind_Ok _ _ w w (now w)) by reflexivity.
  pose proof (state_root_file cwd teamName "shutdown.json") as Hmarker.
  run_ok (writeJson_ok _ _ w Hmarker Hwritable).
  set (w1 := set_fs _ w) in *.
  rewrite (run_bind_Ok _ _ w1 w1 (now w)) by reflexivity.
  run_ok (readJsonSafe_run _ w1).
  assert (Hcfg : parsed (fs w1) (stateRoot cwd teamName ++ ["config.json"])
                 = parsed (fs w) (stateRoot cwd teamName ++ ["config.json"])).
  { subst w1. cbn [fs set_fs]. rewrite parsed_insert_ne by (intros ?; simplify_list_eq).
    apply more_dirs_parsed, mkdir_p_more_dirs. }
  rewrite Hcfg. unfold persistedLength in Hlen. unfold LengthOfArrayLike.
  rewrite Hlen. rewrite (run_bind_Ok _ _ w1 w1 n) by reflexivity.
  unfold Array_from_length.
  destruct (Z.ltb_spec 4294967295 n) as [Hbig|_]; [lia|].
  rewrite (run_bind_Ok _ _ w1 w1 _) by reflexivity.
  fold (expectedAcks n).
  run_ok Hpoll. run_ok (killTeamSession_exact sessionName w2).
  reflexivity.
Qed.

Lemma marker_keeps_acks (teamName cwd : string) (request : JSON) (f : FS) (wName : string) :
  let root := stateRoot cwd teamName in
  existsSync (<[root ++ ["shutdown.json"] := File [PJson request]]>
                (mkdir_p (parent (root ++ ["shutdown.json"])) f).1) (ackPath root wName)
  = existsSync f (ackPath root wName).
Proof.
  cbn zeta. unfold existsSync, node_at, ackPath.
  destruct (stateRoot cwd teamName ++ ["workers"; wName; "shutdown-ack.json"]) eqn:Hp;
    [by apply app_eq_nil in Hp as [_ ?]|].
  rewrite <- Hp. rewrite lookup_insert_ne by (intros ?; simplify_list_eq).
  rewrite mkdir_p_elsewhere; [done|]. rewrite parent_snoc.
  intros [k Hk]. apply (f_equal List.length) in Hk.
  rewrite !length_app in Hk. simpl in Hk. lia.
Qed.

(** X21.  [shutdownTeam] on the session of a team, where the shutdown request
    can be written and the persisted worker count comes to an array
    length of at most 2^32 - 1, does not wait where there is nothing to
    wait for: with a timeout of zero or less, with a length of zero
    (also when the config is missing or does not parse), or with the ack
    of every expected worker in place, it returns without a sleep, the
    session killed and the state directory removed. *)
Theorem shutdownTeam_no_wait (teamName name cwd : string) (timeoutMs : Z) (w : World)
    (n : Z) :
  let root := stateRoot cwd teamName in
  let sessionName := "omc-team-" +:+ name in
  writable (fs w) (root ++ ["shutdown.json"]) →
  persistedLength (fs w) root = Some n →
  n ≤ 4294967295 →
  timeoutMs ≤ 0 ∨ n = 0
  ∨ (∀ wName, wName ∈ expectedAcks n → existsSync (fs w) (ackPath root wName) = true) →
  ∃ w', shutdownTeam teamName sessionName cwd timeoutMs w = (w', Ok tt)
      ∧ now w' = now w ∧ naps w' = naps w
      ∧ Tmux.sessions (mux w') !! sessionName = None
      ∧ (∀ q, root `prefix_of` q → fs w' !! q = None).
Proof.
  cbn zeta. intros Hwritable Hlen Hcount Hcase.
  set (root := stateRoot cwd teamName) in *.
  set (w1 := set_fs (<[root ++ ["shutdown.json"] :=
                         File [PJson (JObj [("requestedAt", JStr (Date_toISOString (now w)));
                                            ("teamName", JStr teamName)])]]>
                       (mkdir_p (parent (root ++ ["shutdown.json"])) (fs w)).1) w).
  destruct (pollAcks_at_once root (now w + timeoutMs) (poll_fuel timeoutMs)
              (expectedAcks n) w1) as (acks & Hpoll).
  { unfold poll_fuel. lia. }
  { destruct Hcase as [Hle|[->|Hall]].
    - left. subst w1. cbn [now set_fs]. lia.
    - right. by left.
    - right. right. intros wName Hw. subst w1. cbn [fs set_fs].
      rewrite (marker_keeps_acks teamName cwd). by apply Hall. }
  eexists. split; [exact (shutdownTeam_steps _ _ _ _ _ _ Hwritable Hlen Hcount _ _ Hpoll)|].
  cbn [fs mux now naps set_fs set_mux]. split; [done|]. split; [done|].
  split; [apply killed_gone|].
  intros q Hq. by apply rm_rf_gone.
Qed.

(** X22.  [shutdownTeam] waits out its timeout where workers are expected and
    none of them ever acks: it returns once the timeout has passed and
    less than 500 ms after it. *)
Theorem shutdownTeam_waits (teamName sessionName cwd : string) (timeoutMs : Z)
    (w : World) :
  let root := stateRoot cwd teamName in
  let acks := expectedAcks (persistedCount (fs w) root) in
  writable (fs w) (root ++ ["shutdown.json"]) →
  1 ≤ persistedCount (fs w) root ≤ 4294967295 →
  no_acks root acks (fs w) →
  (∀ k f, no_acks root acks f → no_acks root acks (workers w k f)) →
  ∃ w', shutdownTeam teamName sessionName cwd timeoutMs w = (w', Ok tt)
      ∧ now w + Z.max 0 timeoutMs ≤ now w' < now w + Z.max 0 timeoutMs + 500.
Proof.
  cbn zeta. intros Hwritable [Hone Hcount] Hnone Hnever.
  set (root := stateRoot cwd teamName) in *.
  assert (Hlen : persistedLength (fs w) root = Some (persistedCount (fs w) root)).
  { unfold persistedCount in *. destruct (persistedLength (fs w) root); [done|].
    simpl in Hone. lia. }
  set (acks := expectedAcks (persistedCount (fs w) root)) in *.
  set (w1 := set_fs (<[root ++ ["shutdown.json"] :=
                         File [PJson (JObj [("requestedAt", JStr (Date_toISOString (now w)));
                                            ("teamName", JStr teamName)])]]>
                       (mkdir_p (parent (root ++ ["shutdown.json"])) (fs w)).1) w).
  destruct (poll_fuel_enough timeoutMs) as [Hfuel1 Hfuel2].
  destruct (pollAcks_no_acks root (now w + timeoutMs) acks (poll_fuel timeoutMs) w1)
    as (w2 & Hpoll & _ & Hnow & Hend & Hlate); [exact Hfuel1 | | | | exact Hnever |].
  { subst w1. cbn [now set_fs]. lia. }
  { subst acks. unfold expectedAcks, range.
    destruct (Z.to_nat (persistedCount (fs w) root)) eqn:Hn; [lia | done]. }
  { intros wName Hw. subst w1. cbn [fs set_fs].
    rewrite (marker_keeps_acks teamName cwd). by apply Hnone. }
  eexists. split; [exact (shutdownTeam_steps _ _ _ _ _ _ Hwritable Hlen Hcount _ _ Hpoll)|].
  cbn [now set_fs set_mux]. subst w1. cbn [now set_fs] in *. lia.
Qed.

End ShutdownMore.

(** Witness for X21: the started team of two workers, shut down with a timeout
    of zero. *)
Lemma shutdownTeam_no_wait_witness :
  ∃ w', shutdownTeam (H := Demo.host) "t1" "omc-team-t1" "/p" 0 started_world
        = (w', Ok tt)
      ∧ now w' = now started_world
      ∧ Tmux.sessions (mux w') !! "omc-team-t1" = None.
Proof.
  destruct (shutdownTeam_no_wait (H := Demo.host) "t1" "t1" "/p" 0 started_world 2)
    as (w' & Hrun & Hnow & _ & Hgone & _).
  - split; [apply creatableb_spec; vm_compute; reflexivity | vm_compute; discriminate].
  - vm_compute. reflexivity.
  - lia.
  - left. lia.
  - exists w'. split; [exact Hrun|]. split; [exact Hnow | exact Hgone].
Defined.

(** Witness for X22: the started team of two workers, who never ack, shut down
    with a timeout of 1200 ms. *)
Lemma shutdownTeam_waits_witness :
  ∃ w', shutdownTeam (H := Demo.host) "t1" "omc-team-t1" "/p" 1200 started_world
        = (w', Ok tt)
      ∧ now started_world + 1200 ≤ now w' < now started_world + 1700.
Proof.
  destruct (shutdownTeam_waits (H := Demo.host) "t1" "omc-team-t1" "/p" 1200
              started_world) as (w' & Hrun & Hnow).
  - split; [apply creatableb_spec; vm_compute; reflexivity | vm_compute; discriminate].
  - vm_compute. split; discriminate.
  - intros wName Hw. vm_compute in Hw.
    apply elem_of_cons in Hw as [->|Hw]; [vm_compute; reflexivity|].
    apply elem_of_cons in Hw as [->|Hw]; [vm_compute; reflexivity|].
    by apply elem_of_nil in Hw.
  - intros k f Hf. exact Hf.
  - exists w'. split; [exact Hrun | exact Hnow].
Defined.

(** ** A snapshot after the shutdown *)

Section AfterShutdown.
Context `{Host}.

Lemma gone_not_stalled (l : list string) :
  List.filter stalled (imap goneStatus l) = [].
Proof.
  assert (Hgen : ∀ g : nat → nat,
            List.filter stalled (imap (λ i p, goneStatus (g i) p) l) = []).
  { induction l as [|p l IH]; intros g; [done|]. cbn. apply (IH (g ∘ S)). }
  exact (Hgen id).
Qed.

Lemma gone_all_dead (l : list string) :
  map ws_workerName (List.filter (λ st, negb (alive st)) (imap goneStatus l))
  = imap (λ i _, "worker-" +:+ String_of (Z.of_nat i + 1)) l.
Proof.
  assert (Hgen : ∀ g : nat → nat,
            map ws_workerName
                (List.filter (λ st, negb (alive st)) (imap (λ i p, goneStatus (g i) p) l))
            = imap (λ i _, "worker-" +:+ String_of (Z.of_nat (g i) + 1)) l).
  { induction l as [|p l IH]; intros g; [done|]. cbn. f_equal. apply (IH (g ∘ S)). }
  exact (Hgen id).
Qed.

Lemma node_at_snoc (f : FS) (p : Path) (x : string) :
  node_at f (p ++ [x]) = f !! (p ++ [x]).
Proof. unfold node_at. by destruct p. Qed.

(** X23.  [monitorTeam] after [shutdownTeam]: where the shutdown request can
    be written, the persisted worker count comes to an array length of
    at most 2^32 - 1 and the session of the team exists, the shutdown
    returns, and a snapshot taken then, for panes that were in the
    session, reports every worker dead and none stalled, finds no task
    and no heartbeat, names the phase [executing], and logs nothing. *)
Theorem monitorTeam_after_shutdown (teamName name cwd : string) (timeoutMs : Z)
    (workerPaneIds : list string) (w : World) (n : Z) :
  let root := stateRoot cwd teamName in
  let sessionName := "omc-team-" +:+ name in
  writable (fs w) (root ++ ["shutdown.json"]) →
  persistedLength (fs w) root = Some n →
  n ≤ 4294967295 →
  is_Some (Tmux.sessions (mux w) !! sessionName) →
  Forall (λ p, ∃ k info, p = Tmux.pane_id k
                         ∧ Tmux.pane_info (mux w) !! p = Some info
                         ∧ Tmux.pane_session info = sessionName) workerPaneIds →
  ∃ w1 snap,
    shutdownTeam teamName sessionName cwd timeoutMs w = (w1, Ok tt)
    ∧ monitorTeam teamName cwd workerPaneIds w1 = (w1, Ok snap)
    ∧ phase snap = "executing"
    ∧ taskCounts snap = noTasks
    ∧ snap_workers snap = imap goneStatus workerPaneIds
    ∧ deadWorkers snap
      = imap (λ i _, "worker-" +:+ String_of (Z.of_nat i + 1)) workerPaneIds.
Proof.
  cbn zeta. intros Hwritable Hlen Hcount Hses Hpanes.
  set (w0 := set_fs (<[stateRoot cwd teamName ++ ["shutdown.json"] :=
                         File [PJson (JObj [("requestedAt", JStr (Date_toISOString (now w)));
                                            ("teamName", JStr teamName)])]]>
                       (mkdir_p (parent (stateRoot cwd teamName ++ ["shutdown.json"]))
                                (fs w)).1) w).
  destruct (poll_fuel_enough timeoutMs) as [Hfuel1 Hfuel2].
  destruct (pollAcks_run (stateRoot cwd teamName) (now w + timeoutMs) (poll_fuel timeoutMs)
              (expectedAcks n) w0)
    as (w2 & acks & Hpoll & Hmux2 & _); [exact Hfuel1 | right; subst w0; cbn; lia |].
  set (w1 := set_fs (rm_rf (stateRoot cwd teamName) (fs w2))
                    (set_mux (killed ("omc-team-" +:+ name) (mux w2)) w2)).
  assert (Hgone : ∀ q, stateRoot cwd teamName `prefix_of` q → fs w1 !! q = None)
    by (intros q Hq; by apply rm_rf_gone).
  assert (Hmux1 : mux w1 = killed ("omc-team-" +:+ name) (mux w))
    by (subst w1 w0; cbn [mux set_fs set_mux] in *; by rewrite Hmux2).
  assert (Hcounts : countsOf (fs w1) (stateRoot cwd teamName) = noTasks).
  { unfold countsOf, readdir. rewrite node_at_snoc.
    by rewrite (Hgone (stateRoot cwd teamName ++ ["tasks"]) ltac:(by exists ["tasks"])). }
  assert (Hbeats : ∀ i, heartbeatOf (fs w1) (stateRoot cwd teamName) i = JNull).
  { intros i. unfold heartbeatOf. apply parsed_missing; [|apply Hgone; by eexists].
    intros [_ ?]%app_eq_nil. discriminate. }
  assert (Hstatuses : map (statusOf w1 (stateRoot cwd teamName))
                          (imap (λ i p, (i, p)) workerPaneIds)
                      = imap goneStatus workerPaneIds).
  { apply list_eq. intros i.
    change (map (statusOf w1 (stateRoot cwd teamName)) (imap (λ i p, (i, p)) workerPaneIds))
      with (statusOf w1 (stateRoot cwd teamName) <$> imap (λ i p, (i, p)) workerPaneIds).
    rewrite list_lookup_fmap, !list_lookup_imap.
    destruct (workerPaneIds !! i) as [p|] eqn:Hi; [|done]. cbn [fmap option_fmap option_map].
    f_equal. unfold statusOf, goneStatus. rewrite Hbeats.
    rewrite Forall_forall in Hpanes.
    destruct (Hpanes p) as (k & info & -> & Hinfo & Hin);
      [by eapply list_elem_of_lookup_2|].
    rewrite Hmux1, paneAlive_pane, (killed_pane_info _ _ _ info) by (done || by left).
    rewrite decide_True by done. reflexivity. }
  destruct (checkWorkers_console (stateRoot cwd teamName)
              (imap (λ i p, (i, p)) workerPaneIds) ([], []) w1)
    as (w4 & Hloop & (Hf4 & Hm4 & Hn4 & Hz4 & Hk4) & Hc4).
  { apply forallb_forall. intros ip _. by rewrite Hbeats. }
  rewrite Hstatuses, gone_not_stalled, app_nil_r in Hc4.
  assert (Hsame : w4 = w1) by (destruct w4, w1; cbn in *; congruence).
  subst w4.
  exists w1, (snapshotOf w1 teamName cwd workerPaneIds). split.
  { exact (shutdownTeam_steps _ _ _ _ _ _ Hwritable Hlen Hcount _ _ Hpoll). }
  split.
  { unfold monitorTeam. run_ok (readTaskCounts_run _ w1).
    rewrite (run_bind_Ok _ _ _ _ _ Hloop), checkWorker_steps. reflexivity. }
  unfold snapshotOf. cbn [phase taskCounts snap_workers deadWorkers].
  rewrite Hcounts, Hstatuses. split; [reflexivity|]. split; [reflexivity|].
  split; [reflexivity|]. apply gone_all_dead.
Qed.

End AfterShutdown.

(** Witness for X23: the started team of two workers, shut down and looked at
    again. *)
Lemma monitorTeam_after_shutdown_witness :
  ∃ w1 snap,
    shutdownTeam (H := Demo.host) "t1" "omc-team-t1" "/p" 1000 started_world = (w1, Ok tt)
    ∧ monitorTeam (H := Demo.host) "t1" "/p" ["%1"; "%2"] w1 = (w1, Ok snap)
    ∧ phase snap = "executing"
    ∧ deadWorkers snap = ["worker-1"; "worker-2"].
Proof.
  destruct (monitorTeam_after_shutdown (H := Demo.host) "t1" "t1" "/p" 1000
              ["%1"; "%2"] started_world 2)
    as (w1 & snap & Hshut & Hmon & Hphase & _ & _ & Hdead).
  - split; [apply creatableb_spec; vm_compute; reflexivity | vm_compute; discriminate].
  - vm_compute. reflexivity.
  - lia.
  - vm_compute. by eexists.
  - apply Forall_cons. split.
    { exists 1%N, (Tmux.fresh_pane "omc-team-t1"). by vm_compute. }
    apply Forall_cons. split; [|by apply Forall_nil].
    exists 2%N, (Tmux.fresh_pane "omc-team-t1"). by vm_compute.
  - exists w1, snap. split; [exact Hshut|]. split; [exact Hmon|].
    split; [exact Hphase | exact Hdead].
Defined.

(** ** Resuming a team after its session was created *)

Section Absent.
Variable other : string.


Lemma absent_lift {A} (r : Result A) : keeps_absent other (lift r).
Proof. intros w w' r' Hw [= <- _]. exact Hw. Qed.








End Absent.








(** ** Resuming a team whose name is a pattern *)




(** ** What [startTeam] leaves behind and what it returns *)

Lemma run_bind_inv {A B} (m : M A) (k : A → M B) (w w' : World) (b : B) :
  (m ≫= k) w = (w', Ok b) → ∃ w1 a, m w = (w1, Ok a) ∧ k a w1 = (w', Ok b).
Proof.
  unfold mbind, M_bind, bind. destruct (m w) as [w1 [a|e|]]; [|discriminate..].
  intros Hk. by exists w1, a.
Qed.

Lemma bind_assoc {A B C} (m : M A) (k : A → M B) (h : B → M C) (w : World) :
  ((m ≫= k) ≫= h) w = (m ≫= (λ a, k a ≫= h)) w.
Proof. unfold mbind, M_bind, bind. by destruct (m w) as [w1 [a|e|]]. Qed.

Lemma bind_ext {A B} (m : M A) (k k' : A → M B) (w : World) :
  (∀ a w1, k a w1 = k' a w1) → (m ≫= k) w = (m ≫= k') w.
Proof.
  intros Hk. unfold mbind, M_bind, bind. destruct (m w) as [w1 [a|e|]]; [apply Hk|done..].
Qed.

Lemma pair_eta {A B} (p : A * B) (b : B) : p.2 = b → p = (p.1, b).
Proof. destruct p. by intros <-. Qed.

Section StartTeamMore.
Context `{Host} `{Collaborators}.

Lemma startTeam_prepare (config : TeamConfig) (w : World) :
  startTeam config w
  = (workerNames ← prepare config;
     session ← createTeamSession (teamName config) (workerCount config) (cwd config);
     forM_ (range (workerCount config)) (spawnWorker config session workerNames);;
     readyResults ← waitAllReady (teamName config) workerNames (cwd config) 30000;
     let notReady : list string :=
       omap id (imap (λ i wName, if default false (readyResults !! i)
                                 then None else Some wName) workerNames) in
     (if (0 <? List.length notReady)%nat
      then console_warn ("[runtime] Workers not ready within 30s: "
                         +:+ String.concat ", " notReady)
      else mret tt);;
     mret {| rt_teamName := teamName config;
             rt_sessionName := sessionName session;
             rt_config := json_of_config config;
             rt_workerNames := workerNames;
             rt_workerPaneIds := workerPaneIds session;
             rt_cwd := cwd config |}) w.
Proof.
  unfold startTeam, prepare. cbn zeta. symmetry.
  do 5 (rewrite bind_assoc; apply bind_ext; intros [] ?).
  reflexivity.
Qed.

(** X26.  A team name that [sanitizeName] rejects, or a session that exists
    already, stops [startTeam] only at the creation of the session: each
    earlier step that throws stops it too, and when they all return
    [startTeam] throws the error of [createTeamSession] from the world
    they have made, with the directories, the config, the task files and
    the state of the workers in place.  In neither case does it return a
    runtime. *)
Theorem startTeam_fails_late (config : TeamConfig) (w : World) :
  (∀ e, sanitizeName (teamName config) = Throw e →
        is_Ok (startTeam config w).2 = false
        ∧ ∀ w2 names, prepare config w = (w2, Ok names) →
                      startTeam config w = (w2, Throw e))
  ∧ (∀ name w2 names,
       sanitizeName (teamName config) = Ok name →
       prepare config w = (w2, Ok names) →
       is_Some (Tmux.sessions (mux w2) !! ("omc-team-" +:+ name)) →
       startTeam config w
       = (w2, Throw (TmuxError ["new-session"; "-d"; "-s"; "omc-team-" +:+ name;
                                "-x"; "220"; "-y"; "50"; "-c"; cwd config]))).
Proof.
  split.
  - intros e He.
    assert (Hlate : ∀ w2 names, prepare config w = (w2, Ok names) →
                                startTeam config w = (w2, Throw e)).
    { intros w2 names Hprep. rewrite startTeam_prepare.
      rewrite (run_bind_Ok _ _ _ _ _ Hprep).
      apply run_bind_Throw. by apply createTeamSession_rejected. }
    split; [|exact Hlate].
    destruct (prepare config w) as [w2 [names|e'|]] eqn:Hprep.
    + by rewrite (Hlate w2 names).
    + rewrite startTeam_prepare. by rewrite (run_bind_Throw _ _ _ _ _ Hprep).
    + rewrite startTeam_prepare. by rewrite (run_bind_OutOfFuel _ _ _ _ Hprep).
  - intros name w2 names Hname Hprep Hses. rewrite startTeam_prepare.
    rewrite (run_bind_Ok _ _ _ _ _ Hprep).
    apply run_bind_Throw. by apply createTeamSession_existing.
Qed.

Lemma forM_validate_inv (l : list string) (w w' : World) :
  forM_ l validate w = (w', Ok tt) → ∀ a, a ∈ l → validateCliAvailable a = None.
Proof.
  revert w. induction l as [|x l IH]; intros w Hrun a Ha; [by apply elem_of_nil in Ha|].
  cbn [forM_] in Hrun. apply run_bind_inv in Hrun as (w1 & [] & Hx & Hrest).
  unfold validate in Hx.
  destruct (validateCliAvailable x) as [e|] eqn:Hvx; [discriminate|].
  apply elem_of_cons in Ha as [->|Ha]; [exact Hvx|]. by apply (IH w1).
Qed.

Lemma setupWorkers_names (config : TeamConfig) (n : nat) :
  ∀ i names0 w w' names,
  foldM (seq i n) (setupWorker config) names0 w = (w', Ok names) →
  names = names0 ++ map workerName (seq i n).
Proof.
  induction n as [|n IH]; intros i names0 w w' names Hrun.
  - injection Hrun as _ <-. by rewrite app_nil_r.
  - cbn [seq foldM] in Hrun. apply run_bind_inv in Hrun as (w1 & names1 & Hstep & Hrest).
    unfold setupWorker in Hstep.
    apply run_bind_inv in Hstep as (w2 & [] & _ & Hstep).
    apply run_bind_inv in Hstep as (w3 & [] & _ & Hstep).
    apply run_bind_inv in Hstep as (w4 & [] & _ & Hstep).
    injection Hstep as _ <-.
    rewrite (IH _ _ _ _ _ Hrest). cbn [map]. by rewrite <- app_assoc.
Qed.

(** The panes of a session that [createTeamSession] has returned. *)
Lemma createTeamSession_result (teamName : string) (workerCount : Z) (cwd : string)
    (w w' : World) (session : TeamSession) :
  createTeamSession teamName workerCount cwd w = (w', Ok session) →
  ∃ name, sanitizeName teamName = Ok name
        ∧ sessionName session = "omc-team-" +:+ name
        ∧ List.length (workerPaneIds session) = Z.to_nat workerCount
        ∧ NoDup (leaderPaneId session :: workerPaneIds session).
Proof.
  intros Hrun.
  destruct (sanitizeName teamName) as [name|e|] eqn:Hname.
  - destruct (Tmux.sessions (mux w) !! ("omc-team-" +:+ name)) as [ses|] eqn:Hses.
    + rewrite (createTeamSession_existing _ _ _ _ _ Hname) in Hrun by (by eexists).
      discriminate.
    + destruct (createTeamSession_run _ workerCount cwd _ _ Hname Hses)
        as (w1 & session1 & Hrun1 & Hsname & Hlen & Hnd & _).
      rewrite Hrun in Hrun1. injection Hrun1 as <- <-. by exists name.
  - rewrite (createTeamSession_rejected _ _ _ _ _ Hname) in Hrun. discriminate.
  - by apply sanitizeName_returns_or_throws in Hname.
Qed.

(** X27.  What a runtime that [startTeam] has returned holds: the session name
    is [omc-team-] and the sanitized team name; the workers are named
    [worker-1] to [worker-N] for the worker count N of the config, and
    there are N worker panes, all distinct; team name, directory and
    config are those of the call; and every requested agent type has
    passed [validateCliAvailable]. *)
Theorem startTeam_result (config : TeamConfig) (w w' : World) (rt : TeamRuntime) :
  startTeam config w = (w', Ok rt) →
  ∃ name,
    sanitizeName (teamName config) = Ok name
    ∧ rt_sessionName rt = "omc-team-" +:+ name
    ∧ rt_teamName rt = teamName config
    ∧ rt_cwd rt = cwd config
    ∧ rt_config rt = json_of_config config
    ∧ rt_workerNames rt = map workerName (seq 0 (Z.to_nat (workerCount config)))
    ∧ List.length (rt_workerPaneIds rt) = Z.to_nat (workerCount config)
    ∧ NoDup (rt_workerPaneIds rt)
    ∧ (∀ a, a ∈ agentTypes config → validateCliAvailable a = None).
Proof.
  intros Hrun. rewrite startTeam_prepare in Hrun.
  apply run_bind_inv in Hrun as (w1 & names & Hprep & Hrun).
  apply run_bind_inv in Hrun as (w2 & session & Hcreate & Hrun).
  apply run_bind_inv in Hrun as (w3 & [] & _ & Hrun).
  apply run_bind_inv in Hrun as (w4 & ready & _ & Hrun).
  apply run_bind_inv in Hrun as (w5 & [] & _ & Hrun).
  injection Hrun as _ <-. cbn.
  destruct (createTeamSession_result _ _ _ _ _ _ Hcreate) as (name & Hname & Hs & Hlen & Hnd).
  exists name. split; [exact Hname|]. split; [exact Hs|].
  do 3 (split; [reflexivity|]).
  unfold prepare in Hprep.
  apply run_bind_inv in Hprep as (v1 & [] & Hvalid & Hprep).
  apply run_bind_inv in Hprep as (v2 & [] & _ & Hprep).
  apply run_bind_inv in Hprep as (v3 & [] & _ & Hprep).
  apply run_bind_inv in Hprep as (v4 & [] & _ & Hprep).
  apply run_bind_inv in Hprep as (v5 & [] & _ & Hprep).
  split; [exact (setupWorkers_names _ _ _ _ _ _ _ Hprep)|].
  split; [exact Hlen|]. split; [by apply NoDup_cons in Hnd as [_ ?]|].
  intros a Ha. apply (forM_validate_inv _ _ _ Hvalid). by apply Set_values_elem.
Qed.

End StartTeamMore.

(** Witness for X26: a team whose name has no valid character; the config is
    on disk when [startTeam] throws. *)
Lemma startTeam_fails_late_witness :
  ∃ w', startTeam (H := Demo.host) (H0 := Demo.collaborators) nameless_team Demo.world0
        = (w', Throw (InvalidNameEmpty "_"))
      ∧ parsed (fs w') (stateRoot "/p" "_" ++ ["config.json"])
        = json_of_config nameless_team.
Proof.
  destruct (startTeam_fails_late (H := Demo.host) (H0 := Demo.collaborators)
              nameless_team Demo.world0) as [Hname _].
  destruct (Hname (InvalidNameEmpty "_") eq_refl) as [_ Hlate].
  exists (prepare (H := Demo.host) (H0 := Demo.collaborators) nameless_team Demo.world0).1.
  split.
  - apply (Hlate _ ["worker-1"]). apply pair_eta. vm_compute. reflexivity.
  - vm_compute. reflexivity.
Defined.

(** Witness for X27: the team of the scenario. *)
Lemma startTeam_result_witness :
  ∃ w' rt,
    startTeam (H := Demo.host) (H0 := Demo.collaborators) scenario_team scenario_world
    = (w', Ok rt)
    ∧ rt_sessionName rt = "omc-team-t1"
    ∧ rt_workerNames rt = ["worker-1"; "worker-2"]
    ∧ List.length (rt_workerPaneIds rt) = 2%nat.
Proof.
  assert (Hok : ∃ rt, (startTeam (H := Demo.host) (H0 := Demo.collaborators) scenario_team
                         scenario_world).2 = Ok rt)
    by (vm_compute; eexists; reflexivity).
  destruct Hok as [rt Hok]. apply pair_eta in Hok.
  destruct (startTeam_result (H := Demo.host) (H0 := Demo.collaborators) scenario_team
              scenario_world _ rt Hok)
    as (name & Hname & Hs & _ & _ & _ & Hnames & Hlen & _).
  eexists _, rt. split; [exact Hok|].
  vm_compute in Hname. injection Hname as <-.
  split; [exact Hs|]. split; [exact Hnames | exact Hlen].
Defined.
